(** * Data ingestion pipeline of the slide-deck RAG notebook

    A shallow embedding of [notebooks/2_data_ingestion.ipynb]: the image
    pipeline ([get_img_desc], [get_img_txt_embeddings],
    [process_image_data], the chunked driver loop) and the text pipeline
    ([get_continuous_chunks], [process_text_data], the driver loop with
    [txt_page_index]).

    Remote services (Bedrock, the OpenSearch ingestion endpoint), the
    local file system reads and NLTK are oracles collected in a [World];
    what the notebook writes and sends is recorded in a [state]. *)

From Stdlib Require Import ZArith NArith Ascii Strings.Byte String List Lia.
From stdpp Require Import base option list strings gmap.

Local Open Scope string_scope.
Local Open Scope list_scope.

(** ** Python primitives used by the notebook *)

Module Py.

(** [sep.join(l)] *)
Fixpoint join (sep : string) (l : list string) : string :=
  match l with
  | [] => ""
  | [x] => x
  | x :: rest => x +:+ sep +:+ join sep rest
  end.

(** [s.replace(old, new)] for one-character [old] and [new]. *)
Fixpoint replace (old new : ascii) (s : string) : string :=
  match s with
  | EmptyString => EmptyString
  | String c r =>
      String (if Ascii.eqb c old then new else c) (replace old new r)
  end.

(** [c in s] for a character. *)
Fixpoint contains (c : ascii) (s : string) : bool :=
  match s with
  | EmptyString => false
  | String d r => Ascii.eqb d c || contains c r
  end.

(** [x in l] on a list of strings. *)
Definition str_in (x : string) (l : list string) : bool :=
  existsb (String.eqb x) l.

(** [l[i:j]] for [0 <= i <= j]; Python clamps both ends to [len(l)]. *)
Definition slice {A} (l : list A) (i j : nat) : list A :=
  firstn (j - i) (skipn i l).

(** [range(0, stop, step)] for [step > 0]: CPython computes its length as
    [(stop + step - 1) // step]. *)
Definition range0 (stop step : nat) : list nat :=
  map (fun k => k * step) (seq 0 ((stop + step - 1) / step)).

(** [s.startswith(p)]: the rest of [s] after [p], if [p] is a prefix. *)
Fixpoint strip_prefix (p s : string) : option string :=
  match p, s with
  | EmptyString, _ => Some s
  | String a p', String b s' =>
      if Ascii.eqb a b then strip_prefix p' s' else None
  | String _ _, EmptyString => None
  end.

(** [s.endswith(c)] for a character. *)
Fixpoint ends_with (c : ascii) (s : string) : bool :=
  match s with
  | EmptyString => false
  | String d EmptyString => Ascii.eqb d c
  | String _ r => ends_with c r
  end.

(** [s.split(c)] for a one-character separator. *)
Fixpoint split (c : ascii) (s : string) : list string :=
  match s with
  | EmptyString => [EmptyString]
  | String d r =>
      if Ascii.eqb d c then EmptyString :: split c r
      else match split c r with
           | [] => [String d EmptyString]
           | w :: ws => String d w :: ws
           end
  end.

(** [s.rfind(c)]; [None] stands for Python's [-1]. *)
Fixpoint rfind (c : ascii) (s : string) : option nat :=
  match s with
  | EmptyString => None
  | String d r =>
      match rfind c r with
      | Some i => Some (S i)
      | None => if Ascii.eqb d c then Some 0 else None
      end
  end.

(** [PurePosixPath(p).name]: the last component, where empty components
    and [.] components are dropped when the path is parsed. *)
Definition path_name (p : string) : string :=
  List.last
    (List.filter (fun c => negb (String.eqb c "" || String.eqb c "."))
                 (split "/" p))
    "".

(** [PurePosixPath(p).stem] (Python 3.10):
    [i = name.rfind('.'); name[:i] if 0 < i < len(name) - 1 else name]. *)
Definition stem (p : string) : string :=
  let name := path_name p in
  match rfind "." name with
  | Some i =>
      if (0 <? i)%nat && (i <? String.length name - 1)%nat
      then String.substring 0 i name
      else name
  | None => name
  end.

(** [os.path.join(a, b)] on POSIX. *)
Definition path_join (a b : string) : string :=
  match strip_prefix "/" b with
  | Some _ => b
  | None =>
      if String.eqb a "" || ends_with "/" a then a +:+ b
      else a +:+ "/" +:+ b
  end.

(** The regular expressions [page_(\d+)_?] and [text_(\d+)_?].  File names
    are taken to be ASCII, so [\d] is one of [0] .. [9]; statements about
    the digit group of arbitrary names say so with [ascii_only]. *)
Definition is_digit (c : ascii) : bool :=
  let n := nat_of_ascii c in (48 <=? n)%nat && (n <=? 57)%nat.

(** Greedy [\d*] at the head of [s]. *)
Fixpoint take_digits (s : string) : string :=
  match s with
  | EmptyString => EmptyString
  | String c r => if is_digit c then String c (take_digits r) else EmptyString
  end.

(** [re.match(kind + r"_(\d+)_?", s)]: group 1, if the pattern matches at
    the head of [s].  The trailing [_?] always succeeds after the greedy
    digit group, so it never changes group 1. *)
Definition re_match_here (kind s : string) : option string :=
  match strip_prefix (kind +:+ "_") s with
  | Some r =>
      match take_digits r with
      | EmptyString => None
      | d => Some d
      end
  | None => None
  end.

(** [re.search(kind + r"_(\d+)_?", s)]: group 1 of the leftmost match, or
    [None] when [re.search] returns [None]. *)
Fixpoint re_search (kind s : string) : option string :=
  match re_match_here kind s with
  | Some d => Some d
  | None =>
      match s with
      | EmptyString => None
      | String _ r => re_search kind r
      end
  end.

(** [enumerate(l)] *)
Definition enumerate {A} (l : list A) : list (nat * A) :=
  combine (seq 0 (length l)) l.

End Py.

(** ** Batch partitioning

    [image_chunks = [l[i:i + n] for i in range(0, len(l), n)]].  For
    [n = 0] Python's [range] raises [ValueError]; a negative step cannot be
    written in [nat] and would give no chunk at all. *)

Definition image_chunks {A} (l : list A) (n : nat) : option (list (list A)) :=
  match n with
  | 0 => None
  | _ => Some (map (fun i => Py.slice l i (i + n)) (Py.range0 (length l) n))
  end.

(** ** JSON values, as Python holds them after [json.loads]

    [JNull] is Python's [None].  A non-integer number is kept as the
    decimal literal [m * 10^e] of the wire format; the pipeline never
    computes with it. *)

#[local] Set Warnings "-register-all".

Inductive json : Type :=
| JNull
| JBool (b : bool)
| JInt (z : Z)
| JNum (m e : Z)
| JStr (s : string)
| JList (l : list json)
| JDict (kv : list (string * json)).

(** ** Exceptions and results *)

Inductive exn : Type :=
| AttributeError
| IndexError
| KeyError
| TypeError
| ValueError
| JSONDecodeError
| UnicodeDecodeError
| OSError (msg : string)
| ClientError (msg : string)
| RequestException (msg : string)
| RayTaskError (cause : exn).

Inductive result (A : Type) : Type :=
| Ok (a : A)
| Raise (e : exn).
Arguments Ok {A} a.
Arguments Raise {A} e.

(** The body of a response, as far as the pipeline reads it: bytes that are
    not UTF-8 text, text that is not JSON, or the value that [json.loads]
    makes of it. *)
Inductive http_body : Type :=
| Undecodable
| Garbled
| Parsed (j : json).

(** ** Records the pipeline builds *)

(** The element of the one-element list that is POSTed to the ingestion
    endpoint.  [page_number] is whatever Python value the code puts there. *)
Record ingest_record : Type := {
  file_path : string;
  file_text : string;
  page_number : json;
  metadata_filename : string;
  metadata_entities : string;
  vector_embedding : json
}.

(** [json_data], the local copy written to [<stem>.json]. *)
Record audit_record : Type := {
  file_type : string;
  file_name : string;
  text : string;
  entities : string;
  audit_page_number : string
}.

(** An element of what [ne_chunk(pos_tag(word_tokenize(text)))] iterates
    over: a named-entity subtree with its leaves, or a tagged token. *)
Inductive chunk_item : Type :=
| Tree (label : string) (leaves : list (string * string))
| Token (token pos : string).

(** ** Configuration and environment *)

(** Values of [config], [globals] and the prompt files. *)
Record Config : Type := {
  bucket_name : string;
  BUCKET_IMG_PREFIX : string;
  IMAGE_FILE_EXTN : string;
  BUCKET_TEXT_PREFIX : string;
  TEXT_FILE_EXTN : string;
  json_img_dir : string;
  json_txt_dir : string;
  osi_img_endpoint : string;
  osi_text_endpoint : string;
  claude_model_id : string;
  embeddings_model_id : string;
  entity_extraction_prompt : string;
  image_desc_prompt : string;
  parallel_inference_count : nat
}.

(** Everything outside the notebook.  Each oracle answers by its arguments:
    a remote call either raises or returns.  [get_text_embedding] is the
    helper imported from [utils]; [ne_chunk] stands for the NLTK chain
    [ne_chunk(pos_tag(word_tokenize(text)))]. *)
Record World : Type := {
  boto3_client : option exn;
  read_file : string -> result string;
  invoke_model : string -> json -> result http_body;
  requests_post : string -> list ingest_record -> result string;
  get_text_embedding : string -> result json;
  ne_chunk : string -> list chunk_item
}.

(** ** What the notebook does to the outside

    Local writes are taken to succeed.  Every POST is logged with the
    answer of the endpoint. *)

Inductive event : Type :=
| InvokeModel (model_id : string) (body : json)
| WriteText (path : string) (content : audit_record)
| Post (url : string) (data : list ingest_record) (response : result string).

Record state : Type := {
  files : gmap string audit_record;
  trace : list event
}.

Definition initial_state : state := {| files := ∅; trace := [] |}.

(** ** A state and exception monad *)

Definition M (A : Type) : Type := state -> result A * state.

Definition ret {A} (a : A) : M A := fun s => (Ok a, s).

Definition raise {A} (e : exn) : M A := fun s => (Raise e, s).

Definition bind {A B} (m : M A) (f : A -> M B) : M B :=
  fun s =>
    match m s with
    | (Ok a, s') => f a s'
    | (Raise e, s') => (Raise e, s')
    end.

Definition lift {A} (r : result A) : M A := fun s => (r, s).

(** [try: m  except Exception as e: h e] *)
Definition try_except {A} (m : M A) (h : exn -> M A) : M A :=
  fun s =>
    match m s with
    | (Ok a, s') => (Ok a, s')
    | (Raise e, s') => h e s'
    end.

Definition emit (e : event) : M unit :=
  fun s => (Ok tt, {| files := files s; trace := trace s ++ [e] |}).

#[global] Instance M_ret : MRet M := @ret.
#[global] Instance M_bind : MBind M := fun A B f m => bind m f.
#[global] Instance M_throw : MThrow exn M := @raise.

(** ** JSON access, with Python's errors *)

Fixpoint assoc (k : string) (kv : list (string * json)) : option json :=
  match kv with
  | [] => None
  | (k', v) :: rest => if String.eqb k k' then Some v else assoc k rest
  end.

(** [j[k]] for a string key. *)
Definition getitem_key (j : json) (k : string) : result json :=
  match j with
  | JDict kv =>
      match assoc k kv with
      | Some v => Ok v
      | None => Raise KeyError
      end
  | _ => Raise TypeError
  end.

(** [j[i]] for an integer index [i >= 0].  A dict made from JSON has only
    string keys, so an integer key is always missing. *)
Definition getitem_idx (j : json) (i : nat) : result json :=
  match j with
  | JList l =>
      match l !! i with
      | Some v => Ok v
      | None => Raise IndexError
      end
  | JStr s =>
      match String.get i s with
      | Some c => Ok (JStr (String c EmptyString))
      | None => Raise IndexError
      end
  | JDict _ => Raise KeyError
  | _ => Raise TypeError
  end.

(** [j.get(k)]: only a dict has the method. *)
Definition dict_get (j : json) (k : string) : result json :=
  match j with
  | JDict kv => Ok (default JNull (assoc k kv))
  | _ => Raise AttributeError
  end.

Definition dquote : ascii := "034"%char.
Definition squote : ascii := "039"%char.

(** [j.replace(dquote, squote)], every double quote becoming a single
    quote: only a string has the method. *)
Definition replace_quotes (j : json) : result string :=
  match j with
  | JStr s => Ok (Py.replace dquote squote s)
  | _ => Raise AttributeError
  end.

(** [json.loads(response['body'].read().decode("utf-8"))] in [get_img_desc]
    and [json.loads(response['body'].read())], which decodes the bytes
    itself, in [get_img_txt_embeddings]: bytes that cannot be decoded raise
    [UnicodeDecodeError] before any parsing. *)
Definition json_loads (b : http_body) : result json :=
  match b with
  | Undecodable => Raise UnicodeDecodeError
  | Garbled => Raise JSONDecodeError
  | Parsed j => Ok j
  end.

(** [re.search(...).group(1)]: [None.group] raises [AttributeError]. *)
Definition group1 (m : option string) : result string :=
  match m with
  | Some d => Ok d
  | None => Raise AttributeError
  end.

(** ** Text entity extraction: [get_continuous_chunks] *)

(** One turn of the [for i in chunked] loop on the pair
    [(continuous_chunk, current_chunk)]. *)
Definition chunk_step (acc : list string * list string) (i : chunk_item)
  : list string * list string :=
  let '(continuous_chunk, current_chunk) := acc in
  let current_chunk :=
    match i with
    | Tree _ leaves => current_chunk ++ [Py.join " " (map fst leaves)]
    | Token _ _ => current_chunk
    end in
  match current_chunk with
  | [] => (continuous_chunk, current_chunk)
  | _ =>
      let named_entity := Py.join " " current_chunk in
      if Py.str_in named_entity continuous_chunk
      then (continuous_chunk, current_chunk)
      else (continuous_chunk ++ [named_entity], [])
  end.

Definition flatten_chunks (chunked : list chunk_item) : list string :=
  fst (fold_left chunk_step chunked ([], [])).

Definition get_continuous_chunks (w : World) (text : string) : list string :=
  flatten_chunks (ne_chunk w text).

(** The entity strings of the subtrees, in order: what the docstring of
    [get_continuous_chunks] calls the entities of the text. *)
Definition entity_strings (chunked : list chunk_item) : list string :=
  omap (fun i => match i with
                 | Tree _ leaves => Some (Py.join " " (map fst leaves))
                 | Token _ _ => None
                 end) chunked.

(** Duplicates removed, first occurrence kept. *)
Fixpoint dedup_first (seen l : list string) : list string :=
  match l with
  | [] => []
  | x :: rest =>
      if Py.str_in x seen then dedup_first seen rest
      else x :: dedup_first (seen ++ [x]) rest
  end.

(** ** The pipelines *)

Section Pipeline.

Variable cfg : Config.
Variable w : World.

(** [boto3.client(service_name=..., region_name=..., endpoint_url=...)] *)
Definition new_bedrock_client : M unit :=
  match boto3_client w with
  | None => mret tt
  | Some e => mthrow e
  end.

(** [bedrock.invoke_model(modelId=..., body=...)] *)
Definition bedrock_invoke (model_id : string) (body : json) : M http_body :=
  emit (InvokeModel model_id body);;
  lift (invoke_model w model_id body).

(** [Path(fpath).write_text(json.dumps(json_data, ...))] *)
Definition write_text (fpath : string) (json_data : audit_record) : M unit :=
  fun s => (Ok tt, {| files := <[fpath := json_data]> (files s);
                      trace := trace s ++ [WriteText fpath json_data] |}).

(** [requests.request(method='POST', url=..., data=..., auth=...)], giving
    [r.text]. *)
Definition post (url : string) (data : list ingest_record) : M string :=
  let r := requests_post w url data in
  emit (Post url data r);;
  lift r.

(** The request body of [get_img_desc]. *)
Definition claude_body (input_image_b64 prompt : string) : json :=
  JDict [
    ("anthropic_version", JStr "bedrock-2023-05-31");
    ("max_tokens", JInt 1000);
    ("messages", JList [
      JDict [
        ("role", JStr "user");
        ("content", JList [
          JDict [
            ("type", JStr "image");
            ("source", JDict [
              ("type", JStr "base64");
              ("media_type", JStr "image/jpeg");
              ("data", JStr input_image_b64)])];
          JDict [("type", JStr "text"); ("text", JStr prompt)]])]])].

Definition get_img_desc (image_file_path prompt : string) : M string :=
  new_bedrock_client;;
  input_image_b64 ← lift (read_file w image_file_path);
  let body := claude_body input_image_b64 prompt in
  response ← bedrock_invoke (claude_model_id cfg) body;
  resp_body ← lift (json_loads response);
  content ← lift (getitem_key resp_body "content");
  block ← lift (getitem_idx content 0);
  txt ← lift (getitem_key block "text");
  resp_text ← lift (replace_quotes txt);
  mret resp_text.

(** Returns the embedding, or [JNull] (Python's [None]). *)
Definition get_img_txt_embeddings (prompt_data : string) : M json :=
  let body := JDict [("inputText", JStr prompt_data)] in
  try_except
    (response ← bedrock_invoke (embeddings_model_id cfg) body;
     response_body ← lift (json_loads response);
     embedding ← lift (dict_get response_body "embedding");
     mret embedding)
    (fun _ => mret JNull).

(** The dict [bucket_info] passed to every task. *)
Record bucket_info_t : Type := {
  img_prefix : string;
  image_file_extn : string
}.

Definition process_image_data (i : nat) (fpath_in : string)
    (osi_endpoint : string) (total : nat) (bucket_info : bucket_info_t)
  : M (option audit_record) :=
  new_bedrock_client;;
  try_except
    (entities_extracted ← get_img_desc fpath_in (entity_extraction_prompt cfg);
     description ← get_img_desc fpath_in (image_desc_prompt cfg);
     let content_description := entities_extracted +:+ description in
     embedding ← get_img_txt_embeddings content_description;
     let input_image_s3 :=
       "s3://" +:+ bucket_name cfg +:+ "/" +:+ img_prefix bucket_info +:+ "/"
       +:+ Py.stem fpath_in +:+ image_file_extn bucket_info in
     let obj_name := Py.stem fpath_in +:+ image_file_extn bucket_info in
     page ← lift (group1 (Py.re_search "page" obj_name));
     let data := [ {|
       file_path := input_image_s3;
       file_text := content_description;
       page_number := JStr page;
       metadata_filename := obj_name;
       metadata_entities := entities_extracted;
       vector_embedding := embedding |} ] in
     page' ← lift (group1 (Py.re_search "page" obj_name));
     let json_data := {|
       file_type := image_file_extn bucket_info;
       file_name := obj_name;
       text := content_description;
       entities := entities_extracted;
       audit_page_number := page' |} in
     let image_dir := json_img_dir cfg in
     let fpath := Py.path_join image_dir (Py.stem fpath_in +:+ ".json") in
     write_text fpath json_data;;
     post osi_endpoint data;;
     mret (Some json_data))
    (fun _ => mret None).

(** [ray.get([task.remote(...) for ...])]: every task of the list runs;
    then the results are collected in list order and the first exception
    found is raised, wrapped by ray.  Tasks of a batch run in parallel in
    the source, so the events of two tasks of a batch may come in any
    order; here their effects follow list order, which is one of these
    runs.  The trace of a batch therefore tells which events its tasks
    produce, those of one task in their own order; it does not tell how
    the events of two tasks of a batch interleave. *)
Fixpoint run_tasks {A} (tasks : list (M A)) (s : state)
  : list (result A) * state :=
  match tasks with
  | [] => ([], s)
  | t :: ts =>
      let '(r, s1) := t s in
      let '(rs, s2) := run_tasks ts s1 in
      (r :: rs, s2)
  end.

Fixpoint collect {A} (rs : list (result A)) : result (list A) :=
  match rs with
  | [] => Ok []
  | Raise e :: _ => Raise (RayTaskError e)
  | Ok a :: rest =>
      match collect rest with
      | Ok l => Ok (a :: l)
      | Raise e => Raise e
      end
  end.

Definition ray_get {A} (tasks : list (M A)) : M (list A) :=
  fun s => let '(rs, s') := run_tasks tasks s in (collect rs, s').

(** The notebook's globals after the image driver cell.  The name
    [results] is bound by a [ray.get] that returns and by nothing else:
    [None] stands for the unbound name, whose reading raises
    [NameError]. *)
Record image_summary : Type := {
  erroneous_page_count : nat;
  results : option (list (option audit_record))
}.

(** The body of [for chunk_index, image_chunk in enumerate(image_chunks)]. *)
Definition image_chunk_body (bucket_info : bucket_info_t)
    (acc : image_summary) (image_chunk : list string) : M image_summary :=
  try_except
    (rs ← ray_get
            (map (fun '(index, fpath_in) =>
                    process_image_data index fpath_in (osi_img_endpoint cfg)
                                       (length image_chunk) bucket_info)
                 (Py.enumerate image_chunk));
     mret {| erroneous_page_count := erroneous_page_count acc;
             results := Some rs |})
    (fun _ =>
       mret {| erroneous_page_count :=
                 erroneous_page_count acc + length image_chunk;
               results := results acc |}).

Fixpoint image_loop (bucket_info : bucket_info_t) (acc : image_summary)
    (chunks : list (list string)) : M image_summary :=
  match chunks with
  | [] => mret acc
  | c :: rest =>
      acc' ← image_chunk_body bucket_info acc c;
      image_loop bucket_info acc' rest
  end.

Definition bucket_info : bucket_info_t :=
  {| img_prefix := BUCKET_IMG_PREFIX cfg;
     image_file_extn := IMAGE_FILE_EXTN cfg |}.

Definition image_driver (b64_image_file_list : list string) : M image_summary :=
  let n := parallel_inference_count cfg in
  match image_chunks b64_image_file_list n with
  | None => mthrow ValueError
  | Some chunks =>
      image_loop bucket_info {| erroneous_page_count := 0; results := None |}
                 chunks
  end.

Definition process_text_data (txt_file : string) (txt_page_index : Z) : M unit :=
  extracted_pdf_text ← lift (read_file w txt_file);
  let entities := get_continuous_chunks w extracted_pdf_text in
  let entities_str := Py.join ", " entities in
  embedding ← lift (get_text_embedding w extracted_pdf_text);
  let input_text_s3 :=
    "s3://" +:+ bucket_name cfg +:+ "/" +:+ BUCKET_TEXT_PREFIX cfg +:+ "/"
    +:+ Py.stem txt_file +:+ TEXT_FILE_EXTN cfg in
  let obj_name := Py.stem txt_file +:+ TEXT_FILE_EXTN cfg in
  let data := [ {|
    file_path := input_text_s3;
    file_text := extracted_pdf_text;
    page_number := JInt txt_page_index;
    metadata_filename := obj_name;
    metadata_entities := entities_str;
    vector_embedding := embedding |} ] in
  page ← lift (group1 (Py.re_search "text" obj_name));
  let json_data := {|
    file_type := TEXT_FILE_EXTN cfg;
    file_name := Py.stem txt_file;
    text := extracted_pdf_text;
    entities := entities_str;
    audit_page_number := page |} in
  let fpath := Py.path_join (json_txt_dir cfg) (Py.stem txt_file +:+ ".json") in
  write_text fpath json_data;;
  post (osi_text_endpoint cfg) data;;
  mret tt.

(** [for txt_file in pdf_txt_file_list: process_text_data(...);
    txt_page_index += 1], giving the final [txt_page_index]. *)
Fixpoint text_loop (pdf_txt_file_list : list string) (txt_page_index : Z) : M Z :=
  match pdf_txt_file_list with
  | [] => mret txt_page_index
  | txt_file :: rest =>
      process_text_data txt_file txt_page_index;;
      text_loop rest (txt_page_index + 1)%Z
  end.

Definition text_driver (pdf_txt_file_list : list string) : M Z :=
  text_loop pdf_txt_file_list 1%Z.

End Pipeline.

(** ** Pure views of the remote steps

    The oracles of a [World] answer by their arguments only, so what a
    step returns and what it logs can be written without the state.  The
    lemmas [*_run] below relate each monadic function to its view. *)

Definition add_events (s : state) (evs : list event) : state :=
  {| files := files s; trace := trace s ++ evs |}.

Definition result_bind {A B} (r : result A) (f : A -> result B) : result B :=
  match r with
  | Ok a => f a
  | Raise e => Raise e
  end.

(** The last five lines of [get_img_desc] on a response. *)
Definition resp_text (response : http_body) : result string :=
  result_bind (json_loads response) (fun resp_body =>
  result_bind (getitem_key resp_body "content") (fun content =>
  result_bind (getitem_idx content 0) (fun block =>
  result_bind (getitem_key block "text") replace_quotes))).

Section Views.

Variable cfg : Config.
Variable w : World.

Definition img_desc_result (f p : string) : result string :=
  match boto3_client w with
  | Some e => Raise e
  | None =>
      result_bind (read_file w f) (fun b64 =>
      result_bind (invoke_model w (claude_model_id cfg) (claude_body b64 p))
                  resp_text)
  end.

Definition img_desc_events (f p : string) : list event :=
  match boto3_client w, read_file w f with
  | None, Ok b64 => [InvokeModel (claude_model_id cfg) (claude_body b64 p)]
  | _, _ => []
  end.

Definition embedding_body (prompt_data : string) : json :=
  JDict [("inputText", JStr prompt_data)].

Definition embedding_result (prompt_data : string) : json :=
  match
    result_bind (invoke_model w (embeddings_model_id cfg)
                              (embedding_body prompt_data))
      (fun response =>
         result_bind (json_loads response) (fun response_body =>
           dict_get response_body "embedding"))
  with
  | Ok embedding => embedding
  | Raise _ => JNull
  end.

(** The record and the local copy that [process_image_data] builds from
    the two model answers, the embedding and the page number. *)
Definition image_record (bi : bucket_info_t) (fpath_in ents desc page : string)
    (embedding : json) : ingest_record :=
  {| file_path :=
       "s3://" +:+ bucket_name cfg +:+ "/" +:+ img_prefix bi +:+ "/"
       +:+ Py.stem fpath_in +:+ image_file_extn bi;
     file_text := ents +:+ desc;
     page_number := JStr page;
     metadata_filename := Py.stem fpath_in +:+ image_file_extn bi;
     metadata_entities := ents;
     vector_embedding := embedding |}.

Definition image_audit (bi : bucket_info_t) (fpath_in ents desc page : string)
  : audit_record :=
  {| file_type := image_file_extn bi;
     file_name := Py.stem fpath_in +:+ image_file_extn bi;
     text := ents +:+ desc;
     entities := ents;
     audit_page_number := page |}.

Definition image_audit_path (fpath_in : string) : string :=
  Py.path_join (json_img_dir cfg) (Py.stem fpath_in +:+ ".json").

(** The record and the local copy that [process_text_data] builds. *)
Definition text_record (txt_file content : string) (txt_page_index : Z)
    (embedding : json) : ingest_record :=
  {| file_path :=
       "s3://" +:+ bucket_name cfg +:+ "/" +:+ BUCKET_TEXT_PREFIX cfg +:+ "/"
       +:+ Py.stem txt_file +:+ TEXT_FILE_EXTN cfg;
     file_text := content;
     page_number := JInt txt_page_index;
     metadata_filename := Py.stem txt_file +:+ TEXT_FILE_EXTN cfg;
     metadata_entities := Py.join ", " (get_continuous_chunks w content);
     vector_embedding := embedding |}.

Definition text_audit (txt_file content page : string) : audit_record :=
  {| file_type := TEXT_FILE_EXTN cfg;
     file_name := Py.stem txt_file;
     text := content;
     entities := Py.join ", " (get_continuous_chunks w content);
     audit_page_number := page |}.

Definition text_audit_path (txt_file : string) : string :=
  Py.path_join (json_txt_dir cfg) (Py.stem txt_file +:+ ".json").

End Views.

(** ** Pure views of the tasks

    The state after a run is the state before with the events of the run
    applied: a [WriteText] also updates the local files. *)

Definition apply_event (s : state) (e : event) : state :=
  {| files := match e with
              | WriteText path content => <[path := content]> (files s)
              | _ => files s
              end;
     trace := trace s ++ [e] |}.

Definition apply_events (s : state) (evs : list event) : state :=
  fold_left apply_event evs s.

Section TaskViews.

Variable cfg : Config.
Variable w : World.

(** What [process_image_data] returns and the events it causes, once its
    client is created. *)
Definition image_task_view (bi : bucket_info_t) (fpath_in url : string)
  : option audit_record * list event :=
  let ev1 := img_desc_events cfg w fpath_in (entity_extraction_prompt cfg) in
  match img_desc_result cfg w fpath_in (entity_extraction_prompt cfg) with
  | Raise _ => (None, ev1)
  | Ok ents =>
      let ev2 := img_desc_events cfg w fpath_in (image_desc_prompt cfg) in
      match img_desc_result cfg w fpath_in (image_desc_prompt cfg) with
      | Raise _ => (None, ev1 ++ ev2)
      | Ok desc =>
          let embedding := embedding_result cfg w (ents +:+ desc) in
          let ev3 := [InvokeModel (embeddings_model_id cfg)
                                  (embedding_body (ents +:+ desc))] in
          match Py.re_search "page" (Py.stem fpath_in +:+ image_file_extn bi) with
          | None => (None, ev1 ++ ev2 ++ ev3)
          | Some page =>
              let rec := image_record cfg bi fpath_in ents desc page embedding in
              let json_data := image_audit bi fpath_in ents desc page in
              let r := requests_post w url [rec] in
              (match r with Ok _ => Some json_data | Raise _ => None end,
               ev1 ++ ev2 ++ ev3
               ++ [WriteText (image_audit_path cfg fpath_in) json_data;
                   Post url [rec] r])
          end
      end
  end.

(** What [process_text_data] returns and the events it causes. *)
Definition text_task_view (txt_file : string) (txt_page_index : Z)
  : result unit * list event :=
  match read_file w txt_file with
  | Raise e => (Raise e, [])
  | Ok content =>
      match get_text_embedding w content with
      | Raise e => (Raise e, [])
      | Ok embedding =>
          match Py.re_search "text" (Py.stem txt_file +:+ TEXT_FILE_EXTN cfg) with
          | None => (Raise AttributeError, [])
          | Some page =>
              let rec := text_record cfg w txt_file content txt_page_index embedding in
              let json_data := text_audit cfg w txt_file content page in
              let r := requests_post w (osi_text_endpoint cfg) [rec] in
              (match r with Ok _ => Ok tt | Raise e => Raise e end,
               [WriteText (text_audit_path cfg txt_file) json_data;
                Post (osi_text_endpoint cfg) [rec] r])
          end
      end
  end.

End TaskViews.

(** The answer carries [content[0].text = t0]. *)
Definition has_content_text (b : http_body) (t0 : string) : Prop :=
  exists kv kv0 rest,
    b = Parsed (JDict kv)
    /\ assoc "content" kv = Some (JList (JDict kv0 :: rest))
    /\ assoc "text" kv0 = Some (JStr t0).

(** The ways an embedding call fails: the call raises (timeout, throttling,
    ...), the body is not UTF-8 text, the body is not JSON, the body is not
    an object, or the object has no [embedding] field. *)
Definition embedding_call_fails (cfg : Config) (w : World) (prompt_data : string)
  : Prop :=
  match invoke_model w (embeddings_model_id cfg) (embedding_body prompt_data) with
  | Raise _ => True
  | Ok Undecodable => True
  | Ok Garbled => True
  | Ok (Parsed (JDict kv)) => assoc "embedding" kv = None
  | Ok (Parsed _) => True
  end.

(** ** Reading strings *)

Fixpoint all_digits (s : string) : bool :=
  match s with
  | EmptyString => true
  | String c r => Py.is_digit c && all_digits r
  end.

Definition starts_with_digit (s : string) : bool :=
  match s with
  | EmptyString => false
  | String c _ => Py.is_digit c
  end.

(** Every character of [s] is an ASCII character.  On such a string the
    [\d] of Python's [re] is one of [0] .. [9], as [Py.is_digit] has it; on
    other strings [\d] also matches the decimal digits of other scripts. *)
Fixpoint ascii_only (s : string) : bool :=
  match s with
  | EmptyString => true
  | String c r => (nat_of_ascii c <? 128)%nat && ascii_only r
  end.

(** No double quote in [s]. *)
Definition quote_free (s : string) : Prop := Py.contains dquote s = false.

(** [r] is [t0] with each double quote replaced by a single quote and
    every other character kept in its place. *)
Definition quotes_replaced (t0 r : string) : Prop :=
  String.length r = String.length t0
  /\ forall i,
       String.get i r
       = (fun c => if Ascii.eqb c dquote then squote else c) <$> String.get i t0.

(** The model answers the call that [get_img_desc] makes for the file [f]
    and the prompt [p] with [t0] as [content[0].text]. *)
Definition model_text (cfg : Config) (w : World) (f p t0 : string) : Prop :=
  exists b64 response,
    read_file w f = Ok b64
    /\ invoke_model w (claude_model_id cfg) (claude_body b64 p) = Ok response
    /\ has_content_text response t0.

(** [ents] is the answer of the model to the entity prompt, and [txt] is
    [ents] followed by its answer to the description prompt, both with
    their double quotes replaced. *)
Definition image_strings_from_model (cfg : Config) (w : World)
    (f ents txt : string) : Prop :=
  exists te td desc,
    model_text cfg w f (entity_extraction_prompt cfg) te
    /\ model_text cfg w f (image_desc_prompt cfg) td
    /\ quotes_replaced te ents
    /\ quotes_replaced td desc
    /\ txt = ents +:+ desc.

(** ** Reading a trace *)

Definition is_invoke (e : event) : bool :=
  match e with InvokeModel _ _ => true | _ => false end.

Definition is_post (e : event) : bool :=
  match e with Post _ _ _ => true | _ => false end.

Definition is_write (e : event) : bool :=
  match e with WriteText _ _ => true | _ => false end.

(** The records of the POSTs issued, in order. *)
Definition posted_records (tr : list event) : list ingest_record :=
  flat_map (fun e => match e with Post _ data _ => data | _ => [] end) tr.

(** The local files written, in order. *)
Definition written_files (tr : list event) : list (string * audit_record) :=
  flat_map (fun e => match e with
                     | WriteText path content => [(path, content)]
                     | _ => []
                     end) tr.

(** The POSTs that the endpoint answered. *)
Definition is_committed (e : event) : bool :=
  match e with Post _ _ (Ok _) => true | _ => false end.

Definition committed (tr : list event) : nat :=
  length (List.filter is_committed tr).

(** ** A sample deployment

    Page images and text pages in a world where every remote call answers,
    used to run the pipelines on concrete inputs.  The model call of one
    image can be made to fail. *)

Definition demo_cfg : Config :=
  {| bucket_name := "slides";
     BUCKET_IMG_PREFIX := "multimodal/img";
     IMAGE_FILE_EXTN := ".jpg";
     BUCKET_TEXT_PREFIX := "multimodal/text";
     TEXT_FILE_EXTN := ".txt";
     json_img_dir := "img_json_dir";
     json_txt_dir := "txt_json_dir";
     osi_img_endpoint := "https://img.osis/data/ingest";
     osi_text_endpoint := "https://txt.osis/data/ingest";
     claude_model_id := "claude-3-sonnet";
     embeddings_model_id := "titan-embed-text";
     entity_extraction_prompt := "extract entities";
     image_desc_prompt := "describe the image";
     parallel_inference_count := 2 |}.

(** A model answer whose [content[0].text] is [t]. *)
Definition claude_answer (t : string) : http_body :=
  Parsed (JDict [("content", JList [JDict [("type", JStr "text");
                                           ("text", JStr t)]])]).

Definition titan_answer : http_body :=
  Parsed (JDict [("embedding", JList [JNum 5 (-1); JNum (-25) (-2)]);
                 ("inputTextTokenCount", JInt 7)]).

Definition demo_read_file (p : string) : result string :=
  if String.eqb p "/data/text/text_1.txt" then Ok "Paris is big."
  else if String.eqb p "/data/text/text_2.txt" then Ok "London is old."
  else if String.eqb p "/data/text/text_3.txt" then Ok "Rome is warm."
  else if String.eqb p "/data/text/text_7.txt" then Ok "Oslo is cold."
  else if String.eqb p "/data/text/notes.txt" then Ok "Some notes."
  else if String.eqb p "/data/text/text_9.txt"
       then Ok "Paris is big. Paris is old. London is wet."
  else match Py.strip_prefix "/data/b64/" p with
       | Some name => Ok ("b64:" +:+ name)
       | None => Raise (OSError "No such file or directory")
       end.

(** The description of the model, with double quotes around [Q3]. *)
Definition quoted_description : string :=
  String dquote ("Q3" +:+ String dquote " bar chart.").

(** The image whose base64 text is [broken] makes the model call raise. *)
Definition demo_invoke_model (broken : string) (model_id : string) (body : json)
  : result http_body :=
  if String.eqb model_id "titan-embed-text" then Ok titan_answer
  else match body with
       | JDict [_; _; ("messages", JList [JDict [_; ("content", JList [
           JDict [_; ("source", JDict [_; _; ("data", JStr b64)])];
           JDict [_; ("text", JStr prompt)]])]])] =>
           if String.eqb b64 broken
           then Raise (ClientError "ThrottlingException")
           else Ok (claude_answer
                      (if String.eqb prompt "extract entities"
                       then "ACME, 2023. " else quoted_description))
       | _ => Raise (ClientError "ValidationException")
       end.

(** A stand-in for the NLTK chain: the words are split at blanks and a
    capitalised word is a one-leaf entity subtree. *)
Definition is_upper (c : ascii) : bool :=
  let n := nat_of_ascii c in (65 <=? n)%nat && (n <=? 90)%nat.

Definition demo_ne_chunk (t : string) : list chunk_item :=
  omap (fun word =>
          match word with
          | EmptyString => None
          | String c _ =>
              Some (if is_upper c then Tree "GPE" [(word, "NNP")]
                    else Token word "NN")
          end)
       (Py.split " " t).

Definition demo_world (broken : string) : World :=
  {| boto3_client := None;
     read_file := demo_read_file;
     invoke_model := demo_invoke_model broken;
     requests_post := fun _ _ => Ok "{}";
     get_text_embedding := fun _ => Ok (JList [JNum 5 (-1)]);
     ne_chunk := demo_ne_chunk |}.

(** The same deployment with a generative model that answers with an empty
    text. *)
Definition silent_world : World :=
  {| boto3_client := None;
     read_file := demo_read_file;
     invoke_model := fun model_id _ =>
       if String.eqb model_id "titan-embed-text" then Ok titan_answer
       else Ok (claude_answer "");
     requests_post := fun _ _ => Ok "{}";
     get_text_embedding := fun _ => Ok (JList [JNum 5 (-1)]);
     ne_chunk := demo_ne_chunk |}.

(** The same deployment with an embedding endpoint that times out and an
    ingestion endpoint that refuses the connection. *)
Definition offline_world : World :=
  {| boto3_client := None;
     read_file := demo_read_file;
     invoke_model := fun model_id body =>
       if String.eqb model_id "titan-embed-text"
       then Raise (ClientError "ReadTimeoutError")
       else demo_invoke_model "none" model_id body;
     requests_post := fun _ _ => Raise (RequestException "ConnectionError");
     get_text_embedding := fun _ => Ok JNull;
     ne_chunk := demo_ne_chunk |}.

Definition demo_images : list string :=
  ["/data/b64/page_1.b64"; "/data/b64/page_2.b64"; "/data/b64/page_3.b64"].

(** ** Shapes of a trace *)

(** A trace made of model invocations and of pairs: the write of a local
    copy followed at once by one POST to [url] whose single record agrees
    with the copy. *)
Inductive paired (agree : audit_record -> ingest_record -> Prop)
    (url : string) : list event -> Prop :=
| paired_nil : paired agree url []
| paired_invoke model_id body tr :
    paired agree url tr ->
    paired agree url (InvokeModel model_id body :: tr)
| paired_write_post path content record response tr :
    agree content record ->
    paired agree url tr ->
    paired agree url
           (WriteText path content :: Post url [record] response :: tr).

(** A page number as the pattern yields it: decimal digits, at least one. *)
Definition is_page_number (p : string) : Prop :=
  p <> "" /\ all_digits p = true.

(** The local copy and the record of an image carry the same text, the
    same entities, the same object name and the same page number. *)
Definition image_agree (c : audit_record) (r : ingest_record) : Prop :=
  file_text r = text c
  /\ metadata_entities r = entities c
  /\ metadata_filename r = file_name c
  /\ page_number r = JStr (audit_page_number c)
  /\ is_page_number (audit_page_number c).

(** The local copy and the record of a text page carry the same text and
    the same entities; the copy has the page number of the file name, the
    record an integer. *)
Definition text_agree (c : audit_record) (r : ingest_record) : Prop :=
  file_text r = text c
  /\ metadata_entities r = entities c
  /\ is_page_number (audit_page_number c)
  /\ exists z, page_number r = JInt z.

(** The content last written to [path], if any. *)
Fixpoint last_write (path : string) (tr : list event) : option audit_record :=
  match tr with
  | [] => None
  | e :: rest =>
      match last_write path rest with
      | Some c => Some c
      | None =>
          match e with
          | WriteText p c => if String.eqb p path then Some c else None
          | _ => None
          end
      end
  end.

(** The task of [f], run on its own, returns its record. *)
Definition task_returns_record (cfg : Config) (w : World) (f : string) : bool :=
  match fst (process_image_data cfg w 0 f (osi_img_endpoint cfg) 1
                                (bucket_info cfg) initial_state) with
  | Ok (Some _) => true
  | _ => false
  end.

(** ** The loop of [get_continuous_chunks] on entity strings

    One turn of the loop for an entity subtree whose joined leaves are
    [e]; a tagged token that is no subtree leaves the two lists alone (see
    [chunk_step_token]). *)
Definition entity_step (acc : list string * list string) (e : string)
  : list string * list string :=
  let '(continuous_chunk, current_chunk) := acc in
  let current_chunk := current_chunk ++ [e] in
  let named_entity := Py.join " " current_chunk in
  if Py.str_in named_entity continuous_chunk
  then (continuous_chunk, current_chunk)
  else (continuous_chunk ++ [named_entity], []).

(** Between two turns of the loop [current_chunk] is empty or joins to a
    string that is already in [continuous_chunk]. *)
Definition chunk_inv (acc : list string * list string) : Prop :=
  snd acc = [] \/ Py.str_in (Py.join " " (snd acc)) (fst acc) = true.

(** A string made of one or more of the strings [seen], joined by single
    blanks. *)
Definition glued (seen : list string) (x : string) : Prop :=
  exists parts, parts <> [] /\ parts ⊆ seen /\ x = Py.join " " parts.

(** ** Staging the images as base64 text: [encode_image_to_base64] *)

Module Base64.

Definition alphabet : string :=
  "ABCDEFGHIJKLMNOPQRSTUVWXYZabcdefghijklmnopqrstuvwxyz0123456789+/".

(** The character of a six-bit value. *)
Definition digit (i : N) : ascii :=
  match String.get (N.to_nat i) alphabet with
  | Some c => c
  | None => "="%char
  end.

(** [base64.b64encode]: three bytes give four characters; one or two
    bytes left over give two or three characters and [=] padding. *)
Fixpoint b64encode (bs : list byte) : string :=
  match bs with
  | [] => ""
  | [a] =>
      let n := (Byte.to_N a * 65536)%N in
      String (digit (n / 262144))
        (String (digit ((n / 4096) mod 64)) "==")
  | [a; b] =>
      let n := (Byte.to_N a * 65536 + Byte.to_N b * 256)%N in
      String (digit (n / 262144))
        (String (digit ((n / 4096) mod 64))
           (String (digit ((n / 64) mod 64)) "="))
  | a :: b :: c :: rest =>
      let n := (Byte.to_N a * 65536 + Byte.to_N b * 256 + Byte.to_N c)%N in
      String (digit (n / 262144))
        (String (digit ((n / 4096) mod 64))
           (String (digit ((n / 64) mod 64))
              (String (digit (n mod 64)) (b64encode rest))))
  end.

End Base64.

(** The image is read in binary mode by the oracle [read_bytes]; the
    base64 text goes to [<B64_ENCODED_IMAGES_DIR>/<stem>.b64] on [disk], a
    map from paths to file contents.  Opening the target for writing is
    taken to succeed. *)
Definition encode_image_to_base64 (B64_ENCODED_IMAGES_DIR : string)
    (read_bytes : string -> result (list byte)) (image_file_path : string)
    (disk : gmap string string) : result string * gmap string string :=
  match read_bytes image_file_path with
  | Raise e => (Raise e, disk)
  | Ok content =>
      let b64_image := Base64.b64encode content in
      let b64_image_path :=
        Py.path_join B64_ENCODED_IMAGES_DIR
                     (Py.stem image_file_path +:+ ".b64") in
      (Ok b64_image_path, <[b64_image_path := b64_image]> disk)
  end.

(** [b64_image_file_list = list(map(encode_image_to_base64, file_list))]:
    the files are encoded in order and the first exception leaves the
    statement. *)
Fixpoint encode_all (B64_ENCODED_IMAGES_DIR : string)
    (read_bytes : string -> result (list byte)) (file_list : list string)
    (disk : gmap string string) : result (list string) * gmap string string :=
  match file_list with
  | [] => (Ok [], disk)
  | p :: rest =>
      match encode_image_to_base64 B64_ENCODED_IMAGES_DIR read_bytes p disk with
      | (Raise e, disk1) => (Raise e, disk1)
      | (Ok q, disk1) =>
          match encode_all B64_ENCODED_IMAGES_DIR read_bytes rest disk1 with
          | (Ok qs, disk2) => (Ok (q :: qs), disk2)
          | (Raise e, disk2) => (Raise e, disk2)
          end
      end
  end.

(** Image files of the sample deployment: the bytes of [Man], [Ma], [M]. *)
Definition demo_read_bytes (p : string) : result (list byte) :=
  if String.eqb p "/data/img/page_1.jpg" then Ok [x4d; x61; x6e]
  else if String.eqb p "/data/img/page_2_1.jpg" then Ok [x4d; x61]
  else if String.eqb p "/data/img/page_3.jpg" then Ok [x4d]
  else Raise (OSError "No such file or directory").

(** ** Provisioning the indices

    The cells that create the image index and the text index and then read
    their mappings back.  The OpenSearch collection is a map from index
    names to index bodies; [os_fault] says which calls fail on the way
    (transport, authorisation).  Creating an index that exists is refused
    by the service. *)

Inductive os_call : Type :=
| IndicesExists (index : string)
| IndicesCreate (index : string)
| IndicesGetMapping (index : string).

Record OpenSearch : Type := {
  indices : gmap string json;
  os_fault : os_call -> option exn
}.

Definition index_body : json :=
  JDict [
    ("settings", JDict [("index.knn", JBool true)]);
    ("mappings", JDict [
      ("properties", JDict [
        ("vector_embedding", JDict [
          ("type", JStr "knn_vector");
          ("dimension", JInt 1536);
          ("method", JDict [("name", JStr "hnsw");
                            ("engine", JStr "nmslib");
                            ("parameters", JDict [])])]);
        ("file_path", JDict [("type", JStr "text")]);
        ("file_text", JDict [("type", JStr "text")]);
        ("page_number", JDict [("type", JStr "text")]);
        ("metadata", JDict [
          ("properties", JDict [
            ("filename", JDict [("type", JStr "text")]);
            ("entities", JDict [("type", JStr "keyword")])])])])])].

(** [client.indices.exists(name)] *)
Definition indices_exists (os : OpenSearch) (name : string) : result bool :=
  match os_fault os (IndicesExists name) with
  | Some e => Raise e
  | None => Ok (bool_decide (is_Some (indices os !! name)))
  end.

(** [client.indices.create(name, body=body)] *)
Definition indices_create (os : OpenSearch) (name : string) (body : json)
  : result unit * OpenSearch :=
  match os_fault os (IndicesCreate name) with
  | Some e => (Raise e, os)
  | None =>
      match indices os !! name with
      | Some _ =>
          (Raise (RequestException "resource_already_exists_exception"), os)
      | None =>
          (Ok tt, {| indices := <[name := body]> (indices os);
                     os_fault := os_fault os |})
      end
  end.

(** [client.indices.get_mapping(index=name)]: the mappings of the index,
    under its name. *)
Definition indices_get_mapping (os : OpenSearch) (name : string) : result json :=
  match os_fault os (IndicesGetMapping name) with
  | Some e => Raise e
  | None =>
      match indices os !! name with
      | None => Raise (RequestException "index_not_found_exception")
      | Some body =>
          match body with
          | JDict kv =>
              Ok (JDict [(name, JDict [("mappings",
                                        default (JDict []) (assoc "mappings" kv))])])
          | _ => Ok (JDict [(name, JDict [("mappings", JDict [])])])
          end
      end
  end.

(** [if not client.indices.exists(name): client.indices.create(name, ...)] *)
Definition create_if_missing (os : OpenSearch) (name : string)
  : result unit * OpenSearch :=
  match indices_exists os name with
  | Raise e => (Raise e, os)
  | Ok true => (Ok tt, os)
  | Ok false => indices_create os name index_body
  end.

(** The cell that creates the two indices inside one [try]: what it logs
    as an error, if anything, and the collection afterwards. *)
Definition create_indices (os : OpenSearch) (img_index_name text_index_name : string)
  : option exn * OpenSearch :=
  match create_if_missing os img_index_name with
  | (Raise e, os1) => (Some e, os1)
  | (Ok _, os1) =>
      match create_if_missing os1 text_index_name with
      | (Raise e, os2) => (Some e, os2)
      | (Ok _, os2) => (None, os2)
      end
  end.

(** [d.get(k, {})] *)
Definition dict_get_or_empty (j : json) (k : string) : result json :=
  match j with
  | JDict kv => Ok (default (JDict []) (assoc k kv))
  | _ => Raise AttributeError
  end.

(** [mapping[name]['mappings']['properties'].get('vector_embedding', {})] *)
Definition vector_embedding_mapping (mapping : json) (name : string)
  : result json :=
  result_bind (getitem_key mapping name) (fun m =>
  result_bind (getitem_key m "mappings") (fun ms =>
  result_bind (getitem_key ms "properties") (fun props =>
  dict_get_or_empty props "vector_embedding"))).

(** [if v.get('type') == 'knn_vector': ... else: raise ValueError(...)] *)
Definition check_knn_vector (v : json) : result unit :=
  result_bind (dict_get v "type") (fun t =>
  match t with
  | JStr "knn_vector" => Ok tt
  | _ => Raise ValueError
  end).

(** The cell that checks the vector field of both mappings inside one
    [try]: the error it logs, if any. *)
Definition check_mappings (os : OpenSearch) (img_index_name text_index_name : string)
  : option exn :=
  match
    result_bind (indices_get_mapping os text_index_name) (fun text_mapping =>
    result_bind (indices_get_mapping os img_index_name) (fun img_mapping =>
    result_bind (vector_embedding_mapping text_mapping text_index_name)
      (fun text_vector_embedding_mapping =>
    result_bind (vector_embedding_mapping img_mapping img_index_name)
      (fun img_vector_embedding_mapping =>
    result_bind (check_knn_vector text_vector_embedding_mapping) (fun _ =>
    check_knn_vector img_vector_embedding_mapping)))))
  with
  | Ok _ => None
  | Raise e => Some e
  end.

Definition no_fault : os_call -> option exn := fun _ => None.

(** * Properties *)

(** ** Batch partitioning *)

Section Chunking.

Context {A : Type}.
Implicit Types (l : list A) (n m i : nat).

Lemma slice_length l i n :
  length (Py.slice l i (i + n)) = Nat.min n (length l - i).
Proof. unfold Py.slice. rewrite length_take, length_drop. f_equal. lia. Qed.

Lemma slice_take_drop l i n : Py.slice l i (i + n) = take n (drop i l).
Proof. unfold Py.slice. f_equal. lia. Qed.

Lemma concat_slices l n m :
  concat (map (fun i => Py.slice l i (i + n)) (map (fun k => k * n) (seq 0 m)))
  = take (m * n) l.
Proof.
  induction m as [|m IH]; [reflexivity|].
  rewrite seq_S, !map_app, concat_app, IH. simpl.
  rewrite app_nil_r, slice_take_drop, take_take_drop.
  f_equal. lia.
Qed.

Lemma range0_bounds stop n :
  1 <= n ->
  let m := (stop + n - 1) / n in
  stop <= m * n
  /\ (forall k, S k < m -> S k * n < stop)
  /\ (forall k, k < m -> k * n < stop).
Proof.
  intros Hn m.
  assert (H1 : n * m <= stop + n - 1) by (apply Nat.Div0.mul_div_le).
  assert (H2 : stop + n - 1 < n * S m) by (apply Nat.mul_succ_div_gt; lia).
  repeat split; [nia | intros k Hk; nia | intros k Hk; nia].
Qed.

Lemma range0_lookup stop n i :
  i < (stop + n - 1) / n -> Py.range0 stop n !! i = Some (i * n).
Proof.
  intros Hi. unfold Py.range0. rewrite list_lookup_fmap.
  rewrite lookup_seq_lt by done. reflexivity.
Qed.

End Chunking.

(** C4.  For a batch size [n >= 1] the chunks are the contiguous slices
    [l[i*n : i*n + n]]: each has between 1 and [n] elements, every chunk
    but the last has exactly [n], and their concatenation in order is the
    input list. *)
Theorem image_chunks_partition {A} (l : list A) (n : nat) :
  1 <= n ->
  exists chunks,
    image_chunks l n = Some chunks
    /\ concat chunks = l
    /\ length chunks = (length l + n - 1) / n
    /\ (forall i c, chunks !! i = Some c ->
          c = take n (drop (i * n) l) /\ 1 <= length c <= n)
    /\ (forall i c, chunks !! i = Some c -> S i < length chunks ->
          length c = n).
Proof.
  intros Hn. destruct n as [|n']; [lia|]. set (n := S n') in *.
  eexists. split; [reflexivity|].
  destruct (range0_bounds (length l) n Hn) as (Hcover & Hfull & Hstart).
  assert (Hlen : length (map (fun i => Py.slice l i (i + n))
                             (Py.range0 (length l) n))
                 = (length l + n - 1) / n).
  { unfold Py.range0. rewrite !length_map. apply length_seq. }
  split; [|split; [exact Hlen|split]].
  - unfold Py.range0. rewrite concat_slices. apply take_ge. exact Hcover.
  - intros i c Hc.
    assert (Hi : i < (length l + n - 1) / n).
    { rewrite <- Hlen. eapply lookup_lt_Some. exact Hc. }
    rewrite list_lookup_fmap, (range0_lookup _ _ _ Hi) in Hc. simpl in Hc.
    injection Hc as <-. split; [apply slice_take_drop|].
    rewrite slice_length. specialize (Hstart i Hi). lia.
  - intros i c Hc Hlast.
    assert (Hi : i < (length l + n - 1) / n).
    { rewrite <- Hlen. eapply lookup_lt_Some. exact Hc. }
    rewrite list_lookup_fmap, (range0_lookup _ _ _ Hi) in Hc. simpl in Hc.
    injection Hc as <-. rewrite slice_length.
    rewrite Hlen in Hlast. specialize (Hfull i Hlast). simpl in Hfull. lia.
Qed.

Lemma image_chunks_partition_witness :
  exists chunks,
    image_chunks ["p1"; "p2"; "p3"; "p4"; "p5"] 2 = Some chunks
    /\ concat chunks = ["p1"; "p2"; "p3"; "p4"; "p5"]
    /\ length chunks = 3.
Proof.
  destruct (image_chunks_partition ["p1"; "p2"; "p3"; "p4"; "p5"] 2)
    as (chunks & Hrun & Hcat & Hlen & _).
  - lia.
  - exists chunks. split; [exact Hrun|]. split; [exact Hcat|exact Hlen].
Defined.

(** ** The monad *)

Lemma add_events_nil s : add_events s [] = s.
Proof. destruct s. unfold add_events. simpl. by rewrite app_nil_r. Qed.

Lemma add_events_app s e1 e2 :
  add_events (add_events s e1) e2 = add_events s (e1 ++ e2).
Proof. unfold add_events. simpl. by rewrite app_assoc. Qed.

Lemma bind_run {A B} (m : M A) (f : A -> M B) s :
  (m ≫= f) s =
  match m s with
  | (Ok a, s') => f a s'
  | (Raise e, s') => (Raise e, s')
  end.
Proof. reflexivity. Qed.

Lemma lift_run {A} (r : result A) s : lift r s = (r, s).
Proof. reflexivity. Qed.

Lemma emit_run e s : emit e s = (Ok tt, add_events s [e]).
Proof. reflexivity. Qed.

(** One lifted step of a run: case on its answer. *)
Tactic Notation "lift_step" constr(r) "as" simple_intropattern(pat) :=
  rewrite bind_run, lift_run; destruct r as pat; simpl.

(** A handler that returns makes the whole [try] return. *)
Lemma try_except_returns {A} (m : M A) (a0 : A) s :
  exists a s', try_except m (fun _ => mret a0) s = (Ok a, s').
Proof.
  unfold try_except. destruct (m s) as [[a|e] s']; eauto.
Qed.

(** ** Remote steps against their pure views *)

Section Runs.

Variable cfg : Config.
Variable w : World.

Lemma new_bedrock_client_run s :
  new_bedrock_client w s =
  (match boto3_client w with None => Ok tt | Some e => Raise e end, s).
Proof. unfold new_bedrock_client. by destruct (boto3_client w). Qed.

Lemma bedrock_invoke_run model_id body s :
  bedrock_invoke w model_id body s =
  (invoke_model w model_id body, add_events s [InvokeModel model_id body]).
Proof. reflexivity. Qed.

Lemma get_img_desc_run f p s :
  get_img_desc cfg w f p s =
  (img_desc_result cfg w f p, add_events s (img_desc_events cfg w f p)).
Proof.
  unfold get_img_desc, img_desc_result, img_desc_events, resp_text.
  rewrite bind_run, new_bedrock_client_run.
  destruct (boto3_client w) as [e|]; [by rewrite add_events_nil|].
  lift_step (read_file w f) as [b64|e]; [|by rewrite add_events_nil].
  rewrite bind_run, bedrock_invoke_run.
  destruct (invoke_model w _ _) as [response|e]; simpl; [|done].
  lift_step (json_loads response) as [resp_body|e]; [|done].
  lift_step (getitem_key resp_body "content") as [content|e]; [|done].
  lift_step (getitem_idx content 0) as [block|e]; [|done].
  lift_step (getitem_key block "text") as [txt|e]; [|done].
  lift_step (replace_quotes txt) as [resp|e]; done.
Qed.

Lemma get_img_txt_embeddings_run prompt_data s :
  get_img_txt_embeddings cfg w prompt_data s =
  (Ok (embedding_result cfg w prompt_data),
   add_events s [InvokeModel (embeddings_model_id cfg)
                             (embedding_body prompt_data)]).
Proof.
  unfold get_img_txt_embeddings, embedding_result, embedding_body, try_except.
  rewrite bind_run, bedrock_invoke_run.
  destruct (invoke_model w _ _) as [response|e]; simpl; [|done].
  rewrite bind_run, lift_run.
  destruct (json_loads response) as [response_body|e]; simpl; [|done].
  rewrite bind_run, lift_run.
  by destruct (dict_get response_body "embedding").
Qed.

End Runs.

(** ** Tasks against their pure views *)

Lemma apply_events_app s e1 e2 :
  apply_events s (e1 ++ e2) = apply_events (apply_events s e1) e2.
Proof. apply fold_left_app. Qed.

Lemma trace_apply_events s evs : trace (apply_events s evs) = trace s ++ evs.
Proof.
  revert s. induction evs as [|e evs IH]; intros s; simpl.
  - by rewrite app_nil_r.
  - rewrite IH. simpl. by rewrite <- app_assoc.
Qed.

Lemma add_events_apply s evs :
  forallb (fun e => negb (is_write e)) evs = true ->
  add_events s evs = apply_events s evs.
Proof.
  revert s. induction evs as [|e evs IH]; intros s H; simpl.
  - apply add_events_nil.
  - simpl in H. apply andb_prop in H as [He H].
    rewrite <- IH by done.
    change (e :: evs) with ([e] ++ evs). rewrite <- add_events_app. f_equal.
    destruct e; try done.
Qed.

Lemma write_text_run fpath json_data s :
  write_text fpath json_data s = (Ok tt, apply_event s (WriteText fpath json_data)).
Proof. reflexivity. Qed.

Lemma post_run w url data s :
  post w url data s =
  (requests_post w url data,
   apply_event s (Post url data (requests_post w url data))).
Proof. reflexivity. Qed.

Section TaskRuns.

Variable cfg : Config.
Variable w : World.

Lemma img_desc_events_no_write f p :
  forallb (fun e => negb (is_write e)) (img_desc_events cfg w f p) = true.
Proof.
  unfold img_desc_events.
  destruct (boto3_client w); [done|]. by destruct (read_file w f).
Qed.

Lemma process_image_data_run i f url total bi s :
  boto3_client w = None ->
  process_image_data cfg w i f url total bi s =
  (Ok (fst (image_task_view cfg w bi f url)),
   apply_events s (snd (image_task_view cfg w bi f url))).
Proof.
  intros Hc. unfold process_image_data, image_task_view.
  rewrite bind_run, new_bedrock_client_run, Hc.
  unfold try_except.
  rewrite bind_run, get_img_desc_run.
  rewrite (add_events_apply _ _ (img_desc_events_no_write _ _)).
  destruct (img_desc_result cfg w f (entity_extraction_prompt cfg)) as [ents|e];
    simpl; [|done].
  rewrite bind_run, get_img_desc_run.
  rewrite (add_events_apply _ _ (img_desc_events_no_write _ _)).
  destruct (img_desc_result cfg w f (image_desc_prompt cfg)) as [desc|e];
    simpl; [|by rewrite apply_events_app].
  rewrite bind_run, get_img_txt_embeddings_run.
  rewrite add_events_apply by done.
  rewrite bind_run, lift_run.
  destruct (Py.re_search "page" _) as [page|]; simpl.
  - rewrite bind_run, lift_run.
    rewrite bind_run, write_text_run, bind_run, post_run.
    rewrite !apply_events_app. simpl.
    unfold image_record, image_audit, image_audit_path.
    by destruct (requests_post w url _).
  - by rewrite !apply_events_app.
Qed.

Lemma process_image_data_no_client i f url total bi s e :
  boto3_client w = Some e ->
  process_image_data cfg w i f url total bi s = (Raise e, s).
Proof.
  intros Hc. unfold process_image_data.
  by rewrite bind_run, new_bedrock_client_run, Hc.
Qed.

Lemma process_text_data_run txt_file idx s :
  process_text_data cfg w txt_file idx s =
  (fst (text_task_view cfg w txt_file idx),
   apply_events s (snd (text_task_view cfg w txt_file idx))).
Proof.
  unfold process_text_data, text_task_view.
  rewrite bind_run, lift_run.
  destruct (read_file w txt_file) as [content|e]; simpl; [|done].
  rewrite bind_run, lift_run.
  destruct (get_text_embedding w content) as [embedding|e]; simpl; [|done].
  rewrite bind_run, lift_run.
  destruct (Py.re_search "text" _) as [page|]; simpl; [|done].
  rewrite bind_run, write_text_run, bind_run, post_run.
  by destruct (requests_post w _ _) as [r|e].
Qed.

End TaskRuns.

(** ** Drivers against the views of their tasks *)

Lemma collect_oks {A} (l : list A) : collect (map Ok l) = Ok l.
Proof. induction l as [|a l IH]; simpl; [done|]. by rewrite IH. Qed.

Lemma enumerate_snd {A} (l : list A) : map snd (Py.enumerate l) = l.
Proof.
  unfold Py.enumerate. generalize 0.
  induction l as [|a l IH]; intros n; simpl; [done|]. by rewrite IH.
Qed.

Lemma flat_map_snd {A B C} (f : B -> list C) (l : list (A * B)) :
  flat_map (fun '(_, b) => f b) l = flat_map f (map snd l).
Proof. induction l as [|[a b] l IH]; simpl; [done|]. by rewrite IH. Qed.

Lemma map_pair_snd {A B C} (f : B -> C) (l : list (A * B)) :
  map (fun '(_, b) => f b) l = map f (map snd l).
Proof. induction l as [|[a b] l IH]; simpl; [done|]. by rewrite IH. Qed.

Lemma image_chunks_concat {A} (l : list A) n chunks :
  image_chunks l n = Some chunks -> concat chunks = l.
Proof.
  destruct n as [|n']; [done|]. intros [= <-].
  unfold Py.range0. rewrite concat_slices. apply take_ge.
  apply (range0_bounds (length l) (S n')). lia.
Qed.

(** When the client of a task cannot be created the task itself raises,
    [ray.get] raises, and the driver counts the whole chunk. *)
Lemma run_tasks_no_client cfg w e url total bi (l : list (nat * string)) s :
  boto3_client w = Some e ->
  run_tasks
    (map (fun '(index, f) => process_image_data cfg w index f url total bi) l) s
  = (map (fun _ => Raise e) l, s).
Proof.
  intros Hc. induction l as [|[i f] l IH]; simpl; [done|].
  by rewrite (process_image_data_no_client cfg w i f url total bi s e Hc), IH.
Qed.

Lemma image_chunk_body_no_client cfg w e bi acc f chunk s :
  boto3_client w = Some e ->
  image_chunk_body cfg w bi acc (f :: chunk) s
  = (Ok {| erroneous_page_count :=
             erroneous_page_count acc + length (f :: chunk);
           results := results acc |}, s).
Proof.
  intros Hc. unfold image_chunk_body, try_except.
  rewrite bind_run. unfold ray_get.
  by rewrite (run_tasks_no_client cfg w e _ _ _ _ s Hc).
Qed.

Section DriverRuns.

Variable cfg : Config.
Variable w : World.
Hypothesis client_ok : boto3_client w = None.

Local Abbreviation view bi f :=
  (image_task_view cfg w bi f (osi_img_endpoint cfg)).

Lemma run_tasks_image bi total (l : list (nat * string)) s :
  run_tasks
    (map (fun '(index, f) =>
            process_image_data cfg w index f (osi_img_endpoint cfg) total bi) l) s
  = (map (fun '(_, f) => Ok (fst (view bi f))) l,
     apply_events s (flat_map (fun '(_, f) => snd (view bi f)) l)).
Proof.
  revert s. induction l as [|[i f] l IH]; intros s; simpl; [done|].
  rewrite (process_image_data_run cfg w i f _ total bi s client_ok).
  rewrite IH. by rewrite apply_events_app.
Qed.

Lemma image_chunk_body_run bi acc chunk s :
  image_chunk_body cfg w bi acc chunk s
  = (Ok {| erroneous_page_count := erroneous_page_count acc;
           results := Some (map (fun f => fst (view bi f)) chunk) |},
     apply_events s (flat_map (fun f => snd (view bi f)) chunk)).
Proof.
  unfold image_chunk_body, try_except.
  rewrite bind_run. unfold ray_get. rewrite run_tasks_image.
  rewrite flat_map_snd, enumerate_snd.
  rewrite (map_pair_snd (fun f => Ok (fst (view bi f)))), enumerate_snd.
  rewrite <- (map_map (fun f => fst (view bi f)) Ok), collect_oks.
  reflexivity.
Qed.

Lemma image_loop_run bi acc chunks s :
  exists sm,
    image_loop cfg w bi acc chunks s
    = (Ok sm, apply_events s (flat_map (fun f => snd (view bi f)) (concat chunks)))
    /\ erroneous_page_count sm = erroneous_page_count acc.
Proof.
  revert acc s. induction chunks as [|c chunks IH]; intros acc s; simpl.
  - by exists acc.
  - rewrite bind_run, image_chunk_body_run.
    destruct (IH {| erroneous_page_count := erroneous_page_count acc;
                    results := Some (map (fun f => fst (view bi f)) c) |}
                 (apply_events s (flat_map (fun f => snd (view bi f)) c)))
      as (sm & Hrun & Hcount).
    exists sm. rewrite Hrun. split; [|done].
    by rewrite flat_map_app, apply_events_app.
Qed.

Lemma image_driver_run l s :
  1 <= parallel_inference_count cfg ->
  exists sm,
    image_driver cfg w l s
    = (Ok sm,
       apply_events s (flat_map (fun f => snd (view (bucket_info cfg) f)) l))
    /\ erroneous_page_count sm = 0.
Proof.
  intros Hn. unfold image_driver. set (bi := bucket_info cfg).
  destruct (image_chunks l (parallel_inference_count cfg)) as [chunks|] eqn:Hch.
  - destruct (image_loop_run bi {| erroneous_page_count := 0; results := None |}
                             chunks s) as (sm & Hrun & Hcount).
    exists sm. rewrite Hrun.
    by rewrite (image_chunks_concat _ _ _ Hch).
  - unfold image_chunks in Hch. destruct (parallel_inference_count cfg); [lia|done].
Qed.

End DriverRuns.

(** ** Counting the records that reached the index *)

Lemma committed_app a b : committed (a ++ b) = committed a + committed b.
Proof. unfold committed. by rewrite List.filter_app, length_app. Qed.

Lemma committed_no_post evs :
  forallb (fun e => negb (is_post e)) evs = true -> committed evs = 0.
Proof.
  induction evs as [|e evs IH]; simpl; [done|].
  intros H. apply andb_prop in H as [He H]. unfold committed in *. simpl.
  destruct e; try done; by apply IH.
Qed.

Section Counting.

Variable cfg : Config.
Variable w : World.

Local Abbreviation view f :=
  (image_task_view cfg w (bucket_info cfg) f (osi_img_endpoint cfg)).

Lemma img_desc_events_no_post f p :
  forallb (fun e => negb (is_post e)) (img_desc_events cfg w f p) = true.
Proof.
  unfold img_desc_events.
  destruct (boto3_client w); [done|]. by destruct (read_file w f).
Qed.

(** A task adds one committed record when it returns its local copy and
    none when it returns [None]. *)
Lemma committed_view f :
  committed (snd (view f)) = match fst (view f) with Some _ => 1 | None => 0 end.
Proof.
  unfold image_task_view.
  pose proof (img_desc_events_no_post f (entity_extraction_prompt cfg)) as H1.
  pose proof (img_desc_events_no_post f (image_desc_prompt cfg)) as H2.
  destruct (img_desc_result cfg w f (entity_extraction_prompt cfg)); simpl;
    [|by apply committed_no_post].
  destruct (img_desc_result cfg w f (image_desc_prompt cfg)); simpl.
  2:{ rewrite committed_app. by rewrite !committed_no_post. }
  destruct (Py.re_search "page" _); simpl.
  - rewrite !committed_app, !committed_no_post by done.
    by destruct (requests_post w _ _).
  - rewrite !committed_app. by rewrite !committed_no_post.
Qed.

Lemma committed_all_succeed l :
  Forall (fun f => is_Some (fst (view f))) l ->
  committed (flat_map (fun f => snd (view f)) l) = length l.
Proof.
  induction 1 as [|f l [jd Hf] _ IH]; simpl; [done|].
  by rewrite committed_app, committed_view, Hf, IH.
Qed.

Lemma committed_one_failure l k fk :
  l !! k = Some fk ->
  fst (view fk) = None ->
  (forall j f, l !! j = Some f -> j <> k -> is_Some (fst (view f))) ->
  committed (flat_map (fun f => snd (view f)) l) = length l - 1.
Proof.
  intros Hk Hfail Hothers.
  rewrite <- (take_drop_middle l k fk Hk).
  rewrite flat_map_app. simpl.
  rewrite !committed_app, committed_view, Hfail.
  rewrite !committed_all_succeed.
  - rewrite length_app. simpl. lia.
  - apply Forall_forall. intros f Hf.
    apply list_elem_of_lookup in Hf as [j Hj].
    rewrite lookup_drop in Hj. apply (Hothers _ _ Hj). lia.
  - apply Forall_forall. intros f Hf.
    apply list_elem_of_lookup in Hf as [j Hj].
    apply lookup_take_Some in Hj as [Hj Hlt]. apply (Hothers _ _ Hj). lia.
Qed.

End Counting.

(** ** Fault isolation in the image driver *)

(** C1.  In a batch of images in which the task of artifact [k] catches an
    exception of one of its stages and returns [None], and every other task
    returns its record, the driver runs to the end and all the other
    records reach the index ([length l - 1] answered POSTs), whatever the
    position [k].  The failure counter of the driver is not incremented: the
    summary reports [erroneous_page_count = 0], not [1]. *)
Theorem image_driver_one_failure (cfg : Config) (w : World)
    (l : list string) (k : nat) (fk : string) (s : state) :
  boto3_client w = None ->
  1 <= parallel_inference_count cfg ->
  l !! k = Some fk ->
  (forall i total s0,
     fst (process_image_data cfg w i fk (osi_img_endpoint cfg) total
                             (bucket_info cfg) s0) = Ok None) ->
  (forall j f, l !! j = Some f -> j <> k ->
     forall i total s0, exists json_data,
       fst (process_image_data cfg w i f (osi_img_endpoint cfg) total
                               (bucket_info cfg) s0) = Ok (Some json_data)) ->
  exists sm s',
    image_driver cfg w l s = (Ok sm, s')
    /\ erroneous_page_count sm = 0
    /\ committed (trace s') = committed (trace s) + (length l - 1).
Proof.
  intros Hc Hn Hk Hfail Hothers.
  destruct (image_driver_run cfg w Hc l s Hn) as (sm & Hrun & Hcount).
  eexists sm, _. split; [exact Hrun|]. split; [exact Hcount|].
  rewrite trace_apply_events, committed_app. f_equal.
  apply (committed_one_failure cfg w l k fk Hk).
  - specialize (Hfail 0 0 initial_state).
    rewrite process_image_data_run in Hfail by done. simpl in Hfail.
    by injection Hfail.
  - intros j f Hj Hne.
    destruct (Hothers j f Hj Hne 0 0 initial_state) as [jd Hjd].
    rewrite process_image_data_run in Hjd by done. simpl in Hjd.
    injection Hjd as ->. by eexists.
Qed.

(** The batch of C1 at three page images, the second failing in its model
    call, batch size 2. *)
Lemma image_driver_one_failure_witness :
  exists sm s',
    image_driver demo_cfg (demo_world "b64:page_2.b64") demo_images
                 initial_state = (Ok sm, s')
    /\ erroneous_page_count sm = 0
    /\ committed (trace s') = 2.
Proof.
  destruct (image_driver_one_failure
              demo_cfg (demo_world "b64:page_2.b64") demo_images 1
              "/data/b64/page_2.b64" initial_state)
    as (sm & s' & Hrun & Hcount & Hcommitted).
  - reflexivity.
  - simpl. lia.
  - reflexivity.
  - intros i total s0. by rewrite process_image_data_run.
  - intros j f Hj Hne i total s0. rewrite process_image_data_run by done.
    destruct j as [|[|[|j]]]; simpl in Hj; try done;
      injection Hj as <-; eexists; reflexivity.
  - exists sm, s'. repeat split; assumption.
Defined.

(** ** Paths and the page-number pattern *)

Lemma append_cons c (a b : string) : String c a +:+ b = String c (a +:+ b).
Proof. reflexivity. Qed.

Lemma append_assoc (a b c : string) : (a +:+ b) +:+ c = a +:+ b +:+ c.
Proof.
  induction a as [|x a IH]; [done|]. rewrite !append_cons. by rewrite IH.
Qed.

Lemma append_inj_r (a x y : string) : a +:+ x = a +:+ y -> x = y.
Proof. induction a as [|c a IH]; simpl; [done|]. intros [= H]. by apply IH. Qed.

Lemma split_cons_ne c d r :
  Ascii.eqb d c = false ->
  Py.split c (String d r) =
  match Py.split c r with
  | [] => [String d EmptyString]
  | x :: xs => String d x :: xs
  end.
Proof. intros H. simpl. by rewrite H. Qed.

Lemma split_nonempty c s : Py.split c s <> [].
Proof.
  induction s as [|d r IH]; simpl; [done|].
  destruct (Ascii.eqb d c); [done|]. by destruct (Py.split c r).
Qed.

(** Splitting [a/b] gives the components of [a], then those of [b]. *)
Lemma split_app_sep c a b :
  Py.split c (a +:+ String c b) = Py.split c a ++ Py.split c b.
Proof.
  induction a as [|d a IH]; simpl.
  - by rewrite Ascii.eqb_refl.
  - destruct (Ascii.eqb d c); [by rewrite IH|].
    rewrite IH. pose proof (split_nonempty c a) as Hne.
    by destruct (Py.split c a).
Qed.

Lemma split_no_sep c s : Py.contains c s = false -> Py.split c s = [s].
Proof.
  induction s as [|d r IH]; simpl; [done|].
  intros H. apply orb_false_elim in H as [Hd Hr].
  rewrite Hd, (IH Hr). done.
Qed.

(** The name of [dir/name] is [name]. *)
Lemma path_name_in_dir dir name :
  Py.contains "/" name = false ->
  name <> "" -> name <> "." ->
  Py.path_name (dir +:+ "/" +:+ name) = name.
Proof.
  intros Hsep Hne Hdot. unfold Py.path_name.
  change ("/" +:+ name) with (String "/" name).
  rewrite split_app_sep, (split_no_sep _ _ Hsep), List.filter_app. simpl.
  destruct (String.eqb_spec name "") as [|_]; [done|].
  destruct (String.eqb_spec name ".") as [|_]; [done|].
  simpl. by rewrite last_last.
Qed.

Lemma path_join_inj_r a b b' :
  Py.strip_prefix "/" b = None -> Py.strip_prefix "/" b' = None ->
  Py.path_join a b = Py.path_join a b' -> b = b'.
Proof.
  unfold Py.path_join. intros -> ->.
  destruct (String.eqb a "" || Py.ends_with "/" a); intros H.
  - by apply append_inj_r in H.
  - apply append_inj_r in H. by injection H.
Qed.

Lemma strip_prefix_app p s : Py.strip_prefix p (p +:+ s) = Some s.
Proof.
  induction p as [|c p IH]; simpl; [done|]. by rewrite Ascii.eqb_refl.
Qed.

Lemma take_digits_app d rest :
  all_digits d = true -> starts_with_digit rest = false ->
  Py.take_digits (d +:+ rest) = d.
Proof.
  intros Hd Hrest. induction d as [|c d IH]; simpl in *.
  - destruct rest as [|c r]; [done|]. simpl in *. by rewrite Hrest.
  - apply andb_prop in Hd as [Hc Hd]. by rewrite Hc, IH.
Qed.

(** A name [<kind>_<digits><rest>], where [rest] does not go on with a
    digit, has the digit group as group 1. *)
Lemma re_search_digit_group kind d rest :
  d <> "" -> all_digits d = true -> starts_with_digit rest = false ->
  Py.re_search kind (kind +:+ "_" +:+ d +:+ rest) = Some d.
Proof.
  intros Hne Hd Hrest.
  assert (Hm : Py.re_match_here kind (kind +:+ "_" +:+ d +:+ rest) = Some d).
  { unfold Py.re_match_here.
    replace (kind +:+ "_" +:+ d +:+ rest) with ((kind +:+ "_") +:+ d +:+ rest).
    2:{ apply append_assoc. }
    rewrite strip_prefix_app, take_digits_app by done.
    by destruct d. }
  destruct (kind +:+ "_" +:+ d +:+ rest) eqn:E; simpl; by rewrite Hm.
Qed.

Lemma stem_in_dir dir name :
  Py.contains "/" name = false ->
  name <> "" -> name <> "." ->
  Py.stem (dir +:+ "/" +:+ name) = Py.stem name.
Proof.
  intros Hsep Hne Hdot. unfold Py.stem.
  rewrite (path_name_in_dir dir name Hsep Hne Hdot).
  assert (Hname : Py.path_name name = name).
  { unfold Py.path_name. rewrite (split_no_sep _ _ Hsep). simpl.
    destruct (String.eqb_spec name "") as [|_]; [done|].
    by destruct (String.eqb_spec name ".") as [|_]. }
  by rewrite Hname.
Qed.

(** ** The text pipeline *)

Section TextRuns.

Variable cfg : Config.
Variable w : World.

(** A text page that reads, embeds, matches the pattern and is answered by
    the endpoint: the loop goes on with the next index. *)
Lemma text_loop_cons_ok f rest idx s content embedding page ack :
  read_file w f = Ok content ->
  get_text_embedding w content = Ok embedding ->
  Py.re_search "text" (Py.stem f +:+ TEXT_FILE_EXTN cfg) = Some page ->
  requests_post w (osi_text_endpoint cfg)
                [text_record cfg w f content idx embedding] = Ok ack ->
  text_loop cfg w (f :: rest) idx s
  = text_loop cfg w rest (idx + 1)%Z
      (apply_events s
         [WriteText (text_audit_path cfg f) (text_audit cfg w f content page);
          Post (osi_text_endpoint cfg)
               [text_record cfg w f content idx embedding] (Ok ack)]).
Proof.
  intros Hr He Hp Hpost. simpl.
  rewrite bind_run, process_text_data_run. unfold text_task_view.
  by rewrite Hr, He, Hp, Hpost.
Qed.

(** An exception of [process_text_data] leaves the loop: no later page is
    processed. *)
Lemma text_loop_cons_raise f rest idx s e :
  fst (text_task_view cfg w f idx) = Raise e ->
  text_loop cfg w (f :: rest) idx s
  = (Raise e, apply_events s (snd (text_task_view cfg w f idx))).
Proof.
  intros H. simpl. rewrite bind_run, process_text_data_run. by rewrite H.
Qed.

End TextRuns.

(** C2.  For a text page that is read and embedded, [process_text_data]
    takes the page number of the local copy from the digit group of the
    file name, but puts the running index [txt_page_index] into the record
    it sends; and when the name does not match the pattern the
    [AttributeError] is not caught: it leaves [process_text_data] and the
    driver loop, so no later page of the list is processed. *)
Theorem text_page_number_and_unmatched_name (cfg : Config) (w : World)
    (txt_file : string) (rest : list string) (idx : Z) (s : state)
    (content : string) (embedding : json) :
  read_file w txt_file = Ok content ->
  get_text_embedding w content = Ok embedding ->
  (forall page,
     Py.re_search "text" (Py.stem txt_file +:+ TEXT_FILE_EXTN cfg) = Some page ->
     exists r s' response,
       process_text_data cfg w txt_file idx s = (r, s')
       /\ trace s' = trace s ++
            [WriteText (text_audit_path cfg txt_file)
                       (text_audit cfg w txt_file content page);
             Post (osi_text_endpoint cfg)
                  [text_record cfg w txt_file content idx embedding] response]
       /\ audit_page_number (text_audit cfg w txt_file content page) = page
       /\ page_number (text_record cfg w txt_file content idx embedding)
          = JInt idx)
  /\ (Py.re_search "text" (Py.stem txt_file +:+ TEXT_FILE_EXTN cfg) = None ->
      process_text_data cfg w txt_file idx s = (Raise AttributeError, s)
      /\ text_loop cfg w (txt_file :: rest) idx s = (Raise AttributeError, s)).
Proof.
  intros Hr He. split.
  - intros page Hp.
    rewrite process_text_data_run. unfold text_task_view.
    rewrite Hr, He, Hp. simpl.
    eexists _, _, _. split; [reflexivity|]. simpl.
    split; [|done]. by rewrite <- app_assoc.
  - intros Hp.
    assert (Hv : text_task_view cfg w txt_file idx = (Raise AttributeError, [])).
    { unfold text_task_view. by rewrite Hr, He, Hp. }
    split.
    + rewrite process_text_data_run. by rewrite Hv.
    + rewrite (text_loop_cons_raise cfg w _ _ _ _ AttributeError); by rewrite Hv.
Qed.

(** At [text_7.txt], processed first: the local copy says page 7, the
    record sent says 1.  At [notes.txt]: the loop stops and [text_2.txt] is
    never processed. *)
Lemma text_page_number_and_unmatched_name_witness :
  (exists r s' response,
     process_text_data demo_cfg (demo_world "none") "/data/text/text_7.txt" 1
                       initial_state = (r, s')
     /\ trace s' =
          [WriteText "txt_json_dir/text_7.json"
             {| file_type := ".txt"; file_name := "text_7";
                text := "Oslo is cold."; entities := "Oslo";
                audit_page_number := "7" |};
           Post "https://txt.osis/data/ingest"
             [{| file_path := "s3://slides/multimodal/text/text_7.txt";
                 file_text := "Oslo is cold.";
                 page_number := JInt 1;
                 metadata_filename := "text_7.txt";
                 metadata_entities := "Oslo";
                 vector_embedding := JList [JNum 5 (-1)] |}]
             response])
  /\ text_loop demo_cfg (demo_world "none")
               ["/data/text/notes.txt"; "/data/text/text_2.txt"] 1 initial_state
     = (Raise AttributeError, initial_state).
Proof.
  split.
  - destruct (text_page_number_and_unmatched_name
                demo_cfg (demo_world "none") "/data/text/text_7.txt" [] 1
                initial_state "Oslo is cold." (JList [JNum 5 (-1)])
                eq_refl eq_refl) as [Hmatch _].
    destruct (Hmatch "7" eq_refl) as (r & s' & response & Hrun & Htrace & _).
    exists r, s', response. split; [exact Hrun|exact Htrace].
  - destruct (text_page_number_and_unmatched_name
                demo_cfg (demo_world "none") "/data/text/notes.txt"
                ["/data/text/text_2.txt"] 1
                initial_state "Some notes." (JList [JNum 5 (-1)])
                eq_refl eq_refl) as [_ Hno].
    exact (proj2 (Hno eq_refl)).
Defined.

(** C3.  Three text pages [text_1.txt], [text_2.txt], [text_3.txt] of one
    directory, processed in this order, every remote call answering: three
    local copies are written to three different files and carry the page
    numbers ["1"], ["2"], ["3"] of the file names; three POSTs are issued
    and answered; the records sent carry the integers [1], [2], [3] of
    the running index, not the strings. *)
Theorem text_driver_three_pages (cfg : Config) (w : World) (dir : string)
    (s : state) (c1 c2 c3 : string) (e1 e2 e3 : json) :
  TEXT_FILE_EXTN cfg = ".txt" ->
  read_file w (dir +:+ "/" +:+ "text_1.txt") = Ok c1 ->
  read_file w (dir +:+ "/" +:+ "text_2.txt") = Ok c2 ->
  read_file w (dir +:+ "/" +:+ "text_3.txt") = Ok c3 ->
  get_text_embedding w c1 = Ok e1 ->
  get_text_embedding w c2 = Ok e2 ->
  get_text_embedding w c3 = Ok e3 ->
  (forall data, exists ack,
     requests_post w (osi_text_endpoint cfg) data = Ok ack) ->
  exists s' evs,
    text_driver cfg w [dir +:+ "/" +:+ "text_1.txt";
                       dir +:+ "/" +:+ "text_2.txt";
                       dir +:+ "/" +:+ "text_3.txt"] s = (Ok 4%Z, s')
    /\ trace s' = trace s ++ evs
    /\ map fst (written_files evs)
       = [Py.path_join (json_txt_dir cfg) "text_1.json";
          Py.path_join (json_txt_dir cfg) "text_2.json";
          Py.path_join (json_txt_dir cfg) "text_3.json"]
    /\ NoDup (map fst (written_files evs))
    /\ map (fun f => audit_page_number (snd f)) (written_files evs)
       = ["1"; "2"; "3"]
    /\ length (List.filter is_post evs) = 3
    /\ committed evs = 3
    /\ map file_text (posted_records evs) = [c1; c2; c3]
    /\ map page_number (posted_records evs) = [JInt 1; JInt 2; JInt 3]
    /\ map page_number (posted_records evs) <> [JStr "1"; JStr "2"; JStr "3"].
Proof.
  intros Hext Hr1 Hr2 Hr3 He1 He2 He3 Hpost.
  assert (Hs1 : Py.stem (dir +:+ "/" +:+ "text_1.txt") = "text_1")
    by (by rewrite stem_in_dir).
  assert (Hs2 : Py.stem (dir +:+ "/" +:+ "text_2.txt") = "text_2")
    by (by rewrite stem_in_dir).
  assert (Hs3 : Py.stem (dir +:+ "/" +:+ "text_3.txt") = "text_3")
    by (by rewrite stem_in_dir).
  destruct (Hpost [text_record cfg w (dir +:+ "/" +:+ "text_1.txt") c1 1 e1])
    as [a1 Ha1].
  destruct (Hpost [text_record cfg w (dir +:+ "/" +:+ "text_2.txt") c2 2 e2])
    as [a2 Ha2].
  destruct (Hpost [text_record cfg w (dir +:+ "/" +:+ "text_3.txt") c3 3 e3])
    as [a3 Ha3].
  unfold text_driver.
  rewrite (text_loop_cons_ok cfg w _ _ 1 s c1 e1 "1" a1 Hr1 He1)
    by (done || by rewrite Hs1, Hext).
  rewrite (text_loop_cons_ok cfg w _ _ (1 + 1) _ c2 e2 "2" a2 Hr2 He2)
    by (done || by rewrite Hs2, Hext).
  rewrite (text_loop_cons_ok cfg w _ _ (1 + 1 + 1) _ c3 e3 "3" a3 Hr3 He3)
    by (done || by rewrite Hs3, Hext).
  rewrite <- !apply_events_app.
  eexists _, _. split; [reflexivity|].
  split; [apply trace_apply_events|].
  unfold text_audit_path. rewrite Hs1, Hs2, Hs3. simpl.
  repeat split; try done.
  repeat constructor; rewrite ?elem_of_cons, ?elem_of_nil;
    intros H; repeat destruct H as [H|H]; try done;
    by apply path_join_inj_r in H.
Qed.

Lemma text_driver_three_pages_witness :
  exists s' evs,
    text_driver demo_cfg (demo_world "none")
                ["/data/text/text_1.txt"; "/data/text/text_2.txt";
                 "/data/text/text_3.txt"] initial_state = (Ok 4%Z, s')
    /\ trace s' = evs
    /\ map page_number (posted_records evs) = [JInt 1; JInt 2; JInt 3]
    /\ map (fun f => audit_page_number (snd f)) (written_files evs)
       = ["1"; "2"; "3"].
Proof.
  destruct (text_driver_three_pages
              demo_cfg (demo_world "none") "/data/text" initial_state
              "Paris is big." "London is old." "Rome is warm."
              (JList [JNum 5 (-1)]) (JList [JNum 5 (-1)]) (JList [JNum 5 (-1)])
              eq_refl eq_refl eq_refl eq_refl eq_refl eq_refl eq_refl
              (fun data => ex_intro _ "{}" eq_refl))
    as (s' & evs & Hrun & Htrace & _ & _ & Haudit & _ & _ & _ & Hpages & _).
  exists s', evs. repeat split; assumption.
Defined.

(** ** The image task *)

Lemma posted_records_app a b :
  posted_records (a ++ b) = posted_records a ++ posted_records b.
Proof. apply flat_map_app. Qed.

Lemma written_files_app a b :
  written_files (a ++ b) = written_files a ++ written_files b.
Proof. apply flat_map_app. Qed.

Lemma files_apply_events_no_write s evs :
  written_files evs = [] -> files (apply_events s evs) = files s.
Proof.
  revert s. induction evs as [|e evs IH]; intros s H; simpl; [done|].
  destruct e; simpl in H; try done; by rewrite IH.
Qed.

(** When [get_img_desc] returns, the answer carried a text. *)
Lemma resp_text_ok_iff response r :
  resp_text response = Ok r <->
  exists t0, has_content_text response t0 /\ r = Py.replace dquote squote t0.
Proof.
  unfold resp_text, has_content_text. split.
  - destruct response as [| |j]; simpl; [done|done|].
    destruct j as [| | | | |l|kv]; simpl; try done.
    destruct (assoc "content" kv) as [content|] eqn:Hc; simpl; [|done].
    destruct content as [| | | |s0|l|kv0']; simpl; try done.
    + destruct (String.get 0 s0); simpl; done.
    + destruct l as [|block rest]; simpl; [done|].
      destruct block as [| | | | |l0|kv0]; simpl; try done.
      destruct (assoc "text" kv0) as [txt|] eqn:Ht; simpl; [|done].
      destruct txt as [| | | |t0| |]; simpl; try done.
      intros [= <-]. exists t0. split; [|done]. by exists kv, kv0, rest.
  - intros (t0 & (kv & kv0 & rest & -> & Hc & Ht) & ->). simpl.
    rewrite Hc. simpl. by rewrite Ht.
Qed.

Section ImageTask.

Variable cfg : Config.
Variable w : World.

Lemma img_desc_events_shape f p :
  written_files (img_desc_events cfg w f p) = []
  /\ posted_records (img_desc_events cfg w f p) = [].
Proof.
  unfold img_desc_events.
  destruct (boto3_client w); [done|]. by destruct (read_file w f).
Qed.

Lemma embedding_fails_null prompt_data :
  embedding_call_fails cfg w prompt_data ->
  embedding_result cfg w prompt_data = JNull.
Proof.
  unfold embedding_call_fails, embedding_result.
  destruct (invoke_model w _ _) as [[| |j]|e]; simpl; try done.
  destruct j; simpl; try done. by intros ->.
Qed.

(** The run of an image whose two descriptions are obtained and whose
    object name matches the page pattern. *)
Lemma process_image_data_assembled i f url total bi s ents desc page :
  boto3_client w = None ->
  img_desc_result cfg w f (entity_extraction_prompt cfg) = Ok ents ->
  img_desc_result cfg w f (image_desc_prompt cfg) = Ok desc ->
  Py.re_search "page" (Py.stem f +:+ image_file_extn bi) = Some page ->
  let record := image_record cfg bi f ents desc page
                             (embedding_result cfg w (ents +:+ desc)) in
  let json_data := image_audit bi f ents desc page in
  let response := requests_post w url [record] in
  let pre := img_desc_events cfg w f (entity_extraction_prompt cfg)
             ++ img_desc_events cfg w f (image_desc_prompt cfg)
             ++ [InvokeModel (embeddings_model_id cfg)
                             (embedding_body (ents +:+ desc))] in
  exists s',
    process_image_data cfg w i f url total bi s
    = (Ok (match response with Ok _ => Some json_data | Raise _ => None end), s')
    /\ trace s' = trace s ++ pre
                  ++ [WriteText (image_audit_path cfg f) json_data;
                      Post url [record] response]
    /\ files s' = <[image_audit_path cfg f := json_data]> (files s).
Proof.
  intros Hc He Hd Hp record json_data response pre.
  subst record json_data response pre.
  rewrite process_image_data_run by done.
  unfold image_task_view. rewrite He, Hd, Hp. simpl.
  eexists. split; [reflexivity|]. split.
  - rewrite trace_apply_events. by rewrite <- !app_assoc.
  - rewrite !app_assoc, apply_events_app. simpl.
    rewrite files_apply_events_no_write; [done|].
    rewrite !written_files_app.
    by rewrite !(proj1 (img_desc_events_shape _ _)).
Qed.

(** An object name without [page_<digits>]: the [AttributeError] is caught
    in the task, which returns [None]; nothing is written or posted. *)
Lemma process_image_data_unmatched i f url total bi s ents desc :
  boto3_client w = None ->
  img_desc_result cfg w f (entity_extraction_prompt cfg) = Ok ents ->
  img_desc_result cfg w f (image_desc_prompt cfg) = Ok desc ->
  Py.re_search "page" (Py.stem f +:+ image_file_extn bi) = None ->
  exists s' evs,
    process_image_data cfg w i f url total bi s = (Ok None, s')
    /\ trace s' = trace s ++ evs
    /\ written_files evs = [] /\ posted_records evs = []
    /\ files s' = files s.
Proof.
  intros Hc He Hd Hp.
  rewrite process_image_data_run by done.
  unfold image_task_view. rewrite He, Hd, Hp. cbn [fst snd].
  assert (Hw : written_files
                 (img_desc_events cfg w f (entity_extraction_prompt cfg)
                  ++ img_desc_events cfg w f (image_desc_prompt cfg)
                  ++ [InvokeModel (embeddings_model_id cfg)
                                  (embedding_body (ents +:+ desc))]) = []).
  { rewrite !written_files_app.
    by rewrite !(proj1 (img_desc_events_shape _ _)). }
  eexists _, _. split; [reflexivity|].
  split; [apply trace_apply_events|]. split; [exact Hw|]. split.
  - rewrite !posted_records_app.
    by rewrite !(proj2 (img_desc_events_shape _ _)).
  - by apply files_apply_events_no_write.
Qed.

End ImageTask.

(** ** The local copy *)

(** C8.  Once the record of an artifact is assembled (image: both model
    answers obtained and the object name matches; text: the page is read
    and embedded and the name matches), the task writes the local copy
    [<stem>.json] exactly once and before it issues the POST, and the file
    is there afterwards whatever the endpoint answers: the answer
    [response] is not constrained. *)
Theorem local_copy_written_before_post (cfg : Config) (w : World) :
  (forall i f url total bi s ents desc page,
     boto3_client w = None ->
     img_desc_result cfg w f (entity_extraction_prompt cfg) = Ok ents ->
     img_desc_result cfg w f (image_desc_prompt cfg) = Ok desc ->
     Py.re_search "page" (Py.stem f +:+ image_file_extn bi) = Some page ->
     let json_data := image_audit bi f ents desc page in
     let fpath := Py.path_join (json_img_dir cfg) (Py.stem f +:+ ".json") in
     exists s' pre record response,
       response = requests_post w url [record]
       /\ process_image_data cfg w i f url total bi s
          = (Ok (match response with
                 | Ok _ => Some json_data
                 | Raise _ => None
                 end), s')
       /\ trace s' = trace s ++ pre
                     ++ [WriteText fpath json_data; Post url [record] response]
       /\ written_files pre = []
       /\ posted_records pre = []
       /\ files s' !! fpath = Some json_data)
  /\ (forall f idx s content embedding page,
     read_file w f = Ok content ->
     get_text_embedding w content = Ok embedding ->
     Py.re_search "text" (Py.stem f +:+ TEXT_FILE_EXTN cfg) = Some page ->
     let json_data := text_audit cfg w f content page in
     let fpath := Py.path_join (json_txt_dir cfg) (Py.stem f +:+ ".json") in
     exists s' record response,
       response = requests_post w (osi_text_endpoint cfg) [record]
       /\ process_text_data cfg w f idx s
          = (match response with Ok _ => Ok tt | Raise e => Raise e end, s')
       /\ trace s' = trace s
                     ++ [WriteText fpath json_data;
                         Post (osi_text_endpoint cfg) [record] response]
       /\ files s' !! fpath = Some json_data).
Proof.
  split.
  - intros i f url total bi s ents desc page Hc He Hd Hp json_data fpath.
    destruct (process_image_data_assembled cfg w i f url total bi s
                ents desc page Hc He Hd Hp) as (s' & Hrun & Htrace & Hfiles).
    eexists s', _, _, _. split; [reflexivity|].
    split; [exact Hrun|]. split; [exact Htrace|].
    rewrite !written_files_app, !posted_records_app.
    rewrite !(proj1 (img_desc_events_shape _ _ _ _)).
    rewrite !(proj2 (img_desc_events_shape _ _ _ _)).
    repeat split; try done.
    rewrite Hfiles. apply lookup_insert_eq.
  - intros f idx s content embedding page Hr He Hp json_data fpath.
    rewrite process_text_data_run. unfold text_task_view.
    rewrite Hr, He, Hp. simpl.
    eexists _, _, _. split; [reflexivity|]. split; [reflexivity|].
    split; [simpl; by rewrite <- app_assoc|]. simpl. apply lookup_insert_eq.
Qed.

(** An image and a text page against an ingestion endpoint that refuses
    the connection: both local copies are on disk. *)
Lemma local_copy_written_before_post_witness :
  (exists s',
     process_image_data demo_cfg offline_world 0 "/data/b64/page_1.b64"
       "https://img.osis/data/ingest" 1 (bucket_info demo_cfg) initial_state
     = (Ok None, s')
     /\ files s' !! "img_json_dir/page_1.json"
        = Some {| file_type := ".jpg"; file_name := "page_1.jpg";
                  text := "ACME, 2023. 'Q3' bar chart.";
                  entities := "ACME, 2023. ";
                  audit_page_number := "1" |})
  /\ (exists s',
     process_text_data demo_cfg offline_world "/data/text/text_1.txt" 1
                       initial_state
     = (Raise (RequestException "ConnectionError"), s')
     /\ files s' !! "txt_json_dir/text_1.json"
        = Some {| file_type := ".txt"; file_name := "text_1";
                  text := "Paris is big."; entities := "Paris";
                  audit_page_number := "1" |}).
Proof.
  destruct (local_copy_written_before_post demo_cfg offline_world)
    as [Himg Htxt].
  split.
  - destruct (Himg 0 "/data/b64/page_1.b64" "https://img.osis/data/ingest" 1
                   (bucket_info demo_cfg) initial_state
                   "ACME, 2023. " "'Q3' bar chart." "1"
                   eq_refl eq_refl eq_refl eq_refl)
      as (s' & pre & record & response & -> & Hrun & _ & _ & _ & Hfile).
    exists s'. split; [exact Hrun|exact Hfile].
  - destruct (Htxt "/data/text/text_1.txt" 1%Z initial_state
                   "Paris is big." JNull "1" eq_refl eq_refl eq_refl)
      as (s' & record & response & -> & Hrun & _ & Hfile).
    exists s'. split; [exact Hrun|exact Hfile].
Defined.

(** ** Embedding failures *)

(** C5.  When the embedding call fails (it raises, the body is malformed,
    or the [embedding] field is missing), [get_img_txt_embeddings] returns
    [None] and does not raise; the record of the image is still assembled
    with a null vector, the local copy is still written and the POST still
    issued, and the task returns its record whenever the endpoint answers;
    the failure counter of the driver stays at 0. *)
Theorem embedding_failure_keeps_record (cfg : Config) (w : World) :
  (forall prompt_data s,
     embedding_call_fails cfg w prompt_data ->
     exists s', get_img_txt_embeddings cfg w prompt_data s = (Ok JNull, s'))
  /\ (forall i f url total bi s ents desc page,
     boto3_client w = None ->
     img_desc_result cfg w f (entity_extraction_prompt cfg) = Ok ents ->
     img_desc_result cfg w f (image_desc_prompt cfg) = Ok desc ->
     Py.re_search "page" (Py.stem f +:+ image_file_extn bi) = Some page ->
     embedding_call_fails cfg w (ents +:+ desc) ->
     let record := image_record cfg bi f ents desc page JNull in
     let json_data := image_audit bi f ents desc page in
     let response := requests_post w url [record] in
     exists s' pre,
       process_image_data cfg w i f url total bi s
       = (Ok (match response with Ok _ => Some json_data | Raise _ => None end),
          s')
       /\ trace s' = trace s ++ pre
                     ++ [WriteText (image_audit_path cfg f) json_data;
                         Post url [record] response]
       /\ vector_embedding record = JNull
       /\ files s' !! image_audit_path cfg f = Some json_data)
  /\ (forall l s,
     boto3_client w = None ->
     1 <= parallel_inference_count cfg ->
     exists sm s',
       image_driver cfg w l s = (Ok sm, s') /\ erroneous_page_count sm = 0)
  /\ (forall f idx s content page,
     read_file w f = Ok content ->
     get_text_embedding w content = Ok JNull ->
     Py.re_search "text" (Py.stem f +:+ TEXT_FILE_EXTN cfg) = Some page ->
     let record := text_record cfg w f content idx JNull in
     let response := requests_post w (osi_text_endpoint cfg) [record] in
     exists s',
       process_text_data cfg w f idx s
       = (match response with Ok _ => Ok tt | Raise e => Raise e end, s')
       /\ trace s' = trace s
            ++ [WriteText (text_audit_path cfg f)
                          (text_audit cfg w f content page);
                Post (osi_text_endpoint cfg) [record] response]
       /\ vector_embedding record = JNull).
Proof.
  split; [|split; [|split]].
  - intros prompt_data s Hfail.
    rewrite get_img_txt_embeddings_run, (embedding_fails_null _ _ _ Hfail).
    by eexists.
  - intros i f url total bi s ents desc page Hc He Hd Hp Hfail
           record json_data response.
    destruct (process_image_data_assembled cfg w i f url total bi s
                ents desc page Hc He Hd Hp) as (s' & Hrun & Htrace & Hfiles).
    rewrite (embedding_fails_null _ _ _ Hfail) in Hrun, Htrace.
    eexists s', _. split; [exact Hrun|]. split; [exact Htrace|].
    split; [done|]. rewrite Hfiles. apply lookup_insert_eq.
  - intros l s Hc Hn.
    destruct (image_driver_run cfg w Hc l s Hn) as (sm & Hrun & Hcount).
    by eexists sm, _.
  - intros f idx s content page Hr He Hp record response.
    rewrite process_text_data_run. unfold text_task_view.
    rewrite Hr, He, Hp. cbn [fst snd].
    eexists. split; [reflexivity|]. split; [apply trace_apply_events|done].
Qed.

(** An image against an embedding endpoint that times out. *)
Lemma embedding_failure_keeps_record_witness :
  (exists s',
     get_img_txt_embeddings demo_cfg offline_world "ACME, 2023. 'Q3' bar chart."
                            initial_state = (Ok JNull, s'))
  /\ (exists s' pre,
     process_image_data demo_cfg offline_world 0 "/data/b64/page_1.b64"
       "https://img.osis/data/ingest" 1 (bucket_info demo_cfg) initial_state
     = (Ok None, s')
     /\ trace s' = pre ++
          [WriteText "img_json_dir/page_1.json"
             {| file_type := ".jpg"; file_name := "page_1.jpg";
                text := "ACME, 2023. 'Q3' bar chart.";
                entities := "ACME, 2023. ";
                audit_page_number := "1" |};
           Post "https://img.osis/data/ingest"
             [{| file_path := "s3://slides/multimodal/img/page_1.jpg";
                 file_text := "ACME, 2023. 'Q3' bar chart.";
                 page_number := JStr "1";
                 metadata_filename := "page_1.jpg";
                 metadata_entities := "ACME, 2023. ";
                 vector_embedding := JNull |}]
             (Raise (RequestException "ConnectionError"))]
     /\ is_Some (files s' !! "img_json_dir/page_1.json"))
  /\ (exists sm s',
     image_driver demo_cfg offline_world demo_images initial_state = (Ok sm, s')
     /\ erroneous_page_count sm = 0).
Proof.
  destruct (embedding_failure_keeps_record demo_cfg offline_world)
    as (Hemb & Himg & Hdrv & _).
  split; [|split].
  - apply Hemb. exact I.
  - destruct (Himg 0 "/data/b64/page_1.b64" "https://img.osis/data/ingest" 1
                   (bucket_info demo_cfg) initial_state
                   "ACME, 2023. " "'Q3' bar chart." "1"
                   eq_refl eq_refl eq_refl eq_refl I)
      as (s' & pre & Hrun & Htrace & _ & Hfile).
    exists s', pre. split; [exact Hrun|]. split; [exact Htrace|].
    eexists. exact Hfile.
  - apply Hdrv; [reflexivity|simpl; lia].
Defined.

(** ** Double quotes *)

Lemma replace_removes old new s :
  old <> new -> Py.contains old (Py.replace old new s) = false.
Proof.
  intros Hne. induction s as [|c r IH]; simpl; [done|].
  rewrite IH, orb_false_r.
  destruct (Ascii.eqb_spec c old) as [->|Hc].
  - apply Ascii.eqb_neq. congruence.
  - by apply Ascii.eqb_neq.
Qed.

Lemma contains_app c a b :
  Py.contains c (a +:+ b) = Py.contains c a || Py.contains c b.
Proof.
  induction a as [|d a IH]; [done|].
  rewrite append_cons. simpl. by rewrite IH, orb_assoc.
Qed.

Lemma img_desc_result_no_dquote cfg w f p r :
  img_desc_result cfg w f p = Ok r -> Py.contains dquote r = false.
Proof.
  unfold img_desc_result.
  destruct (boto3_client w); [done|].
  destruct (read_file w f); simpl; [|done].
  destruct (invoke_model w _ _) as [response|]; simpl; [|done].
  intros H. apply resp_text_ok_iff in H as (t0 & _ & ->).
  by apply replace_removes.
Qed.

Lemma replace_pointwise old new s :
  String.length (Py.replace old new s) = String.length s
  /\ forall i,
       String.get i (Py.replace old new s)
       = (fun c => if Ascii.eqb c old then new else c) <$> String.get i s.
Proof.
  induction s as [|c r [IHl IHg]]; simpl; [done|].
  split; [by rewrite IHl|]. intros [|i]; [done|]. apply IHg.
Qed.

Lemma img_desc_result_from_model cfg w f p r :
  img_desc_result cfg w f p = Ok r ->
  exists t0, model_text cfg w f p t0 /\ quotes_replaced t0 r.
Proof.
  unfold img_desc_result.
  destruct (boto3_client w); [done|].
  destruct (read_file w f) as [b64|] eqn:Hr; simpl; [|done].
  destruct (invoke_model w _ _) as [response|] eqn:Hi; simpl; [|done].
  intros H. apply resp_text_ok_iff in H as (t0 & Ht & ->).
  exists t0. split; [by exists b64, response|]. apply replace_pointwise.
Qed.

(** C10.  A string returned by [get_img_desc] is the text of the model with
    each double quote replaced by a single quote and every other character
    kept, so it has no double quote; and so [file_text] and
    [metadata.entities] of any record that [process_image_data] sends, and
    [text] and [entities] of the local copy it writes or returns, are made
    of the two model texts treated this way and have no double quote. *)
Theorem image_strings_have_no_double_quote (cfg : Config) (w : World) :
  (forall f p s r s',
     get_img_desc cfg w f p s = (Ok r, s') ->
     quote_free r
     /\ exists t0, model_text cfg w f p t0 /\ quotes_replaced t0 r)
  /\ (forall i f url total bi s res s',
     process_image_data cfg w i f url total bi s = (res, s') ->
     exists evs,
       trace s' = trace s ++ evs
       /\ Forall (fun r => quote_free (file_text r)
                           /\ quote_free (metadata_entities r)
                           /\ image_strings_from_model
                                cfg w f (metadata_entities r) (file_text r))
                 (posted_records evs)
       /\ Forall (fun fc => quote_free (text (snd fc))
                            /\ quote_free (entities (snd fc))
                            /\ image_strings_from_model
                                 cfg w f (entities (snd fc)) (text (snd fc)))
                 (written_files evs)
       /\ (forall json_data, res = Ok (Some json_data) ->
             quote_free (text json_data) /\ quote_free (entities json_data)
             /\ image_strings_from_model
                  cfg w f (entities json_data) (text json_data))).
Proof.
  split.
  - intros f p s r s'. rewrite get_img_desc_run. intros [= H _].
    split; [by apply img_desc_result_no_dquote in H|].
    by apply img_desc_result_from_model.
  - intros i f url total bi s res s'.
    destruct (boto3_client w) as [e|] eqn:Hc.
    { rewrite (process_image_data_no_client cfg w i f url total bi s e Hc).
      intros [= <- <-]. exists []. rewrite app_nil_r. simpl.
      repeat split; try done; by constructor. }
    rewrite process_image_data_run by done.
    intros [= <- <-]. eexists. split; [apply trace_apply_events|].
    unfold image_task_view.
    pose proof (img_desc_events_shape cfg w f (entity_extraction_prompt cfg))
      as [Hw1 Hp1].
    pose proof (img_desc_events_shape cfg w f (image_desc_prompt cfg))
      as [Hw2 Hp2].
    destruct (img_desc_result cfg w f (entity_extraction_prompt cfg))
      as [ents|] eqn:He; simpl.
    2:{ rewrite Hw1, Hp1. repeat split; try done; by constructor. }
    destruct (img_desc_result cfg w f (image_desc_prompt cfg))
      as [desc|] eqn:Hd; simpl.
    2:{ rewrite written_files_app, posted_records_app, Hw1, Hp1, Hw2, Hp2.
        repeat split; try done; by constructor. }
    assert (Hfrom : image_strings_from_model cfg w f ents (ents +:+ desc)).
    { apply img_desc_result_from_model in He as (te & Hte & Hre).
      apply img_desc_result_from_model in Hd as (td & Htd & Hrd).
      by exists te, td, desc. }
    apply img_desc_result_no_dquote in He, Hd.
    assert (Hcat : quote_free (ents +:+ desc)).
    { unfold quote_free. by rewrite contains_app, He, Hd. }
    destruct (Py.re_search "page" _) as [page|]; simpl.
    2:{ rewrite !written_files_app, !posted_records_app, Hw1, Hp1, Hw2, Hp2.
        repeat split; try done; by constructor. }
    rewrite !written_files_app, !posted_records_app, Hw1, Hp1, Hw2, Hp2.
    simpl. split; [|split].
    + by repeat constructor.
    + by repeat constructor.
    + intros jd. destruct (requests_post w url _); [|done].
      by intros [= <-].
Qed.

(** A model answer with double quotes in it: the description comes back
    with single quotes in their place. *)
Lemma image_strings_have_no_double_quote_witness :
  quote_free "ACME, 2023. "
  /\ quotes_replaced quoted_description "'Q3' bar chart."
  /\ exists json_data s',
       process_image_data demo_cfg (demo_world "none") 0 "/data/b64/page_1.b64"
         "https://img.osis/data/ingest" 1 (bucket_info demo_cfg) initial_state
       = (Ok (Some json_data), s')
       /\ quote_free (text json_data) /\ quote_free (entities json_data).
Proof.
  destruct (image_strings_have_no_double_quote demo_cfg (demo_world "none"))
    as [Hdesc Htask].
  split; [|split].
  - apply (Hdesc "/data/b64/page_1.b64" "extract entities" initial_state
                 "ACME, 2023. " _ eq_refl).
  - destruct (Hdesc "/data/b64/page_1.b64" "describe the image" initial_state
                    "'Q3' bar chart." _ eq_refl)
      as (_ & t0 & (b64 & response & Hr & Hi & kv & kv0 & rest & -> & Hk & Hk0)
          & Hrep).
    injection Hr as <-. vm_compute in Hi. injection Hi as <-.
    injection Hk as <- <-. injection Hk0 as <-. exact Hrep.
  - destruct (Htask 0 "/data/b64/page_1.b64" "https://img.osis/data/ingest" 1
                    (bucket_info demo_cfg) initial_state _ _ eq_refl)
      as (evs & _ & _ & _ & Hres).
    eexists _, _. split; [reflexivity|].
    destruct (Hres _ eq_refl) as (Ht & He & _). by split.
Defined.

(** ** The two model calls of an image *)

Section ImageExtraction.

Variable cfg : Config.
Variable w : World.

Lemma img_desc_result_ok f p b64 response t0 :
  boto3_client w = None ->
  read_file w f = Ok b64 ->
  invoke_model w (claude_model_id cfg) (claude_body b64 p) = Ok response ->
  has_content_text response t0 ->
  img_desc_result cfg w f p = Ok (Py.replace dquote squote t0).
Proof.
  intros Hc Hr Hi Ht. unfold img_desc_result. rewrite Hc, Hr. simpl.
  rewrite Hi. simpl. apply resp_text_ok_iff. by exists t0.
Qed.

Lemma img_desc_result_raise f p b64 :
  boto3_client w = None ->
  read_file w f = Ok b64 ->
  (forall response,
     invoke_model w (claude_model_id cfg) (claude_body b64 p) = Ok response ->
     forall t0, ~ has_content_text response t0) ->
  exists e, img_desc_result cfg w f p = Raise e.
Proof.
  intros Hc Hr Hbad. unfold img_desc_result. rewrite Hc, Hr. simpl.
  destruct (invoke_model w _ _) as [response|e]; simpl; [|by eexists].
  destruct (resp_text response) as [r|e] eqn:Hrt; [|by eexists].
  apply resp_text_ok_iff in Hrt as (t0 & Ht & _).
  by destruct (Hbad response eq_refl t0).
Qed.

Lemma img_desc_events_read f p b64 :
  boto3_client w = None ->
  read_file w f = Ok b64 ->
  img_desc_events cfg w f p
  = [InvokeModel (claude_model_id cfg) (claude_body b64 p)].
Proof. intros Hc Hr. unfold img_desc_events. by rewrite Hc, Hr. Qed.

End ImageExtraction.

(** C6, as amended.  For an image whose base64 file is read:
    - when both model calls answer with a [content[0].text], the model is
      invoked exactly twice, with the entity prompt first and the
      description prompt second, and the content text that is embedded and
      sent is the entity text followed by the description;
    - when the first call raises or its answer has no [content[0].text],
      the second call is not made; when the second fails, two calls were
      made; in both cases the exception is caught in the task, which
      returns [None] without writing or posting anything;
    - whatever the tasks of a batch do, the driver processes every image
      of the list and returns. *)
Theorem image_extraction_two_calls (cfg : Config) (w : World)
    (i : nat) (f url : string) (total : nat) (bi : bucket_info_t) (s : state)
    (b64 : string) :
  boto3_client w = None ->
  read_file w f = Ok b64 ->
  let call_entities :=
    InvokeModel (claude_model_id cfg)
                (claude_body b64 (entity_extraction_prompt cfg)) in
  let call_description :=
    InvokeModel (claude_model_id cfg)
                (claude_body b64 (image_desc_prompt cfg)) in
  let answers p t0 :=
    exists response,
      invoke_model w (claude_model_id cfg) (claude_body b64 p) = Ok response
      /\ has_content_text response t0 in
  let fails p :=
    forall response,
      invoke_model w (claude_model_id cfg) (claude_body b64 p) = Ok response ->
      forall t0, ~ has_content_text response t0 in
  (forall te td,
     answers (entity_extraction_prompt cfg) te ->
     answers (image_desc_prompt cfg) td ->
     let ents := Py.replace dquote squote te in
     let desc := Py.replace dquote squote td in
     exists res s' tail,
       process_image_data cfg w i f url total bi s = (Ok res, s')
       /\ trace s' = trace s
            ++ [call_entities; call_description;
                InvokeModel (embeddings_model_id cfg)
                            (embedding_body (ents +:+ desc))]
            ++ tail
       /\ List.filter is_invoke tail = []
       /\ Forall (fun r => file_text r = ents +:+ desc
                           /\ metadata_entities r = ents)
                 (posted_records tail))
  /\ (fails (entity_extraction_prompt cfg) ->
      exists s',
        process_image_data cfg w i f url total bi s = (Ok None, s')
        /\ trace s' = trace s ++ [call_entities]
        /\ files s' = files s)
  /\ (forall te,
      answers (entity_extraction_prompt cfg) te ->
      fails (image_desc_prompt cfg) ->
      exists s',
        process_image_data cfg w i f url total bi s = (Ok None, s')
        /\ trace s' = trace s ++ [call_entities; call_description]
        /\ files s' = files s)
  /\ (forall l, 1 <= parallel_inference_count cfg ->
      exists sm s',
        image_driver cfg w l s = (Ok sm, s')
        /\ trace s' = trace s ++
             flat_map (fun g => snd (image_task_view cfg w (bucket_info cfg) g
                                                     (osi_img_endpoint cfg))) l).
Proof.
  intros Hc Hr call_entities call_description answers fails.
  pose proof (img_desc_events_read cfg w f (entity_extraction_prompt cfg)
                                   b64 Hc Hr) as Hev1.
  pose proof (img_desc_events_read cfg w f (image_desc_prompt cfg)
                                   b64 Hc Hr) as Hev2.
  split; [|split; [|split]].
  - intros te td (re & Hie & Hte) (rd & Hid & Htd) ents desc.
    pose proof (img_desc_result_ok cfg w f _ b64 re te Hc Hr Hie Hte) as He.
    pose proof (img_desc_result_ok cfg w f _ b64 rd td Hc Hr Hid Htd) as Hd.
    rewrite process_image_data_run by done.
    unfold image_task_view. rewrite He, Hd, Hev1, Hev2.
    fold ents desc.
    destruct (Py.re_search "page" _) as [page|]; cbn [fst snd].
    + eexists _, _, _. split; [reflexivity|].
      split; [rewrite trace_apply_events; reflexivity|].
      split; [done|]. simpl. by repeat constructor.
    + eexists _, _, []. split; [reflexivity|].
      split; [rewrite trace_apply_events; reflexivity|].
      split; [done|]. constructor.
  - intros Hfail.
    destruct (img_desc_result_raise cfg w f _ b64 Hc Hr Hfail) as [e He].
    rewrite process_image_data_run by done.
    unfold image_task_view. rewrite He, Hev1. simpl.
    eexists. split; [reflexivity|]. by split.
  - intros te (re & Hie & Hte) Hfail.
    pose proof (img_desc_result_ok cfg w f _ b64 re te Hc Hr Hie Hte) as He.
    destruct (img_desc_result_raise cfg w f _ b64 Hc Hr Hfail) as [e Hd].
    rewrite process_image_data_run by done.
    unfold image_task_view. rewrite He, Hd, Hev1, Hev2. simpl.
    eexists. split; [reflexivity|]. split; [|done].
    simpl. by rewrite <- app_assoc.
  - intros l Hn.
    destruct (image_driver_run cfg w Hc l s Hn) as (sm & Hrun & _).
    eexists sm, _. split; [exact Hrun|]. apply trace_apply_events.
Qed.

Lemma claude_answer_has_text t : has_content_text (claude_answer t) t.
Proof. by eexists _, _, _. Qed.

(** Page 1 is answered twice; the entity call of page 2 is throttled. *)
Lemma image_extraction_two_calls_witness :
  (exists res s' tail,
     process_image_data demo_cfg (demo_world "b64:page_2.b64") 0
       "/data/b64/page_1.b64" "https://img.osis/data/ingest" 1
       (bucket_info demo_cfg) initial_state = (Ok res, s')
     /\ trace s' =
          [InvokeModel "claude-3-sonnet"
                       (claude_body "b64:page_1.b64" "extract entities");
           InvokeModel "claude-3-sonnet"
                       (claude_body "b64:page_1.b64" "describe the image");
           InvokeModel "titan-embed-text"
                       (embedding_body "ACME, 2023. 'Q3' bar chart.")]
          ++ tail
     /\ List.filter is_invoke tail = [])
  /\ (exists s',
     process_image_data demo_cfg (demo_world "b64:page_2.b64") 1
       "/data/b64/page_2.b64" "https://img.osis/data/ingest" 1
       (bucket_info demo_cfg) initial_state = (Ok None, s')
     /\ trace s' =
          [InvokeModel "claude-3-sonnet"
                       (claude_body "b64:page_2.b64" "extract entities")]).
Proof.
  split.
  - destruct (image_extraction_two_calls
                demo_cfg (demo_world "b64:page_2.b64") 0
                "/data/b64/page_1.b64" "https://img.osis/data/ingest" 1
                (bucket_info demo_cfg) initial_state "b64:page_1.b64"
                eq_refl eq_refl) as (Hok & _).
    destruct (Hok "ACME, 2023. " quoted_description
                  (ex_intro _ (claude_answer "ACME, 2023. ")
                     (conj eq_refl (claude_answer_has_text _)))
                  (ex_intro _ (claude_answer quoted_description)
                     (conj eq_refl (claude_answer_has_text _))))
      as (res & s' & tail & Hrun & Htrace & Hinv & _).
    exists res, s', tail. split; [exact Hrun|]. split; [exact Htrace|exact Hinv].
  - destruct (image_extraction_two_calls
                demo_cfg (demo_world "b64:page_2.b64") 1
                "/data/b64/page_2.b64" "https://img.osis/data/ingest" 1
                (bucket_info demo_cfg) initial_state "b64:page_2.b64"
                eq_refl eq_refl) as (_ & Hfail & _).
    destruct Hfail as (s' & Hrun & Htrace & _).
    + intros response H. discriminate H.
    + exists s'. split; [exact Hrun|exact Htrace].
Defined.

(** C6 as stated fails: a model that answers both prompts with an empty
    text makes no call fail.  [get_img_desc] returns the empty string, and
    the task writes the local copy, sends a record with an empty
    [file_text] and returns the copy. *)
Lemma empty_model_answer_is_accepted :
  invoke_model silent_world "claude-3-sonnet"
               (claude_body "b64:page_1.b64" "extract entities")
  = Ok (claude_answer "")
  /\ fst (get_img_desc demo_cfg silent_world "/data/b64/page_1.b64"
                    "extract entities" initial_state) = Ok ""
  /\ fst (process_image_data demo_cfg silent_world 0 "/data/b64/page_1.b64"
            "https://img.osis/data/ingest" 1 (bucket_info demo_cfg)
            initial_state)
     = Ok (Some {| file_type := ".jpg"; file_name := "page_1.jpg";
                   text := ""; entities := "";
                   audit_page_number := "1" |})
  /\ map file_text
         (posted_records
            (trace (snd (process_image_data demo_cfg silent_world 0
                           "/data/b64/page_1.b64"
                           "https://img.osis/data/ingest" 1
                           (bucket_info demo_cfg) initial_state))))
     = [""].
Proof. repeat split; vm_compute; reflexivity. Qed.

(** ** Text entity extraction *)

Lemma str_in_elem_of x l : Py.str_in x l = true <-> x ∈ l.
Proof.
  unfold Py.str_in. rewrite existsb_exists. split.
  - intros (y & Hy & Heq). apply String.eqb_eq in Heq as <-.
    by apply list_elem_of_In.
  - intros H. exists x. split; [by apply list_elem_of_In|apply String.eqb_refl].
Qed.

Lemma str_in_false x l : Py.str_in x l = false <-> x ∉ l.
Proof.
  rewrite <- str_in_elem_of. by destruct (Py.str_in x l).
Qed.

(** The loop never appends a string that is already in the list. *)
Lemma chunk_step_NoDup acc i :
  NoDup (fst acc) -> NoDup (fst (chunk_step acc i)).
Proof.
  destruct acc as [cont cur]. unfold chunk_step. intros Hnd.
  set (cur' := match i with
               | Tree _ leaves => cur ++ [Py.join " " (map fst leaves)]
               | Token _ _ => cur
               end).
  destruct cur' as [|x xs]; [done|].
  destruct (Py.str_in _ cont) eqn:Hin; [done|]. simpl.
  apply NoDup_app. split; [done|]. split.
  - intros y Hy Hy'. apply list_elem_of_singleton in Hy' as ->.
    by apply str_in_false in Hin.
  - apply NoDup_singleton.
Qed.

Lemma fold_chunk_step_NoDup chunked acc :
  NoDup (fst acc) -> NoDup (fst (fold_left chunk_step chunked acc)).
Proof.
  revert acc. induction chunked as [|i chunked IH]; intros acc H; [done|].
  simpl. apply IH. by apply chunk_step_NoDup.
Qed.

Lemma flatten_chunks_NoDup chunked : NoDup (flatten_chunks chunked).
Proof. apply fold_chunk_step_NoDup. constructor. Qed.

(** On a text whose entity strings are all different the loop returns
    them as they come. *)
Lemma fold_chunk_step_distinct chunked cont :
  NoDup (cont ++ entity_strings chunked) ->
  fold_left chunk_step chunked (cont, [])
  = (cont ++ entity_strings chunked, []).
Proof.
  revert cont. induction chunked as [|i chunked IH]; intros cont Hnd; simpl.
  - by rewrite app_nil_r.
  - destruct i as [label leaves|token pos]; simpl in *.
    + assert (Hin : Py.str_in (Py.join " " (map fst leaves)) cont = false).
      { apply str_in_false. apply NoDup_app in Hnd as (_ & Hdisj & _).
        intros H. apply (Hdisj _ H). by left. }
      rewrite Hin. rewrite IH; rewrite <- app_assoc; done.
    + by apply IH.
Qed.

Lemma flatten_chunks_distinct chunked :
  NoDup (entity_strings chunked) ->
  flatten_chunks chunked = entity_strings chunked.
Proof.
  intros H. unfold flatten_chunks.
  by rewrite (fold_chunk_step_distinct chunked []).
Qed.

Lemma flatten_chunks_nil : flatten_chunks [] = [].
Proof. reflexivity. Qed.

Lemma join_pair (a b : string) : Py.join " " [a; b] = a +:+ " " +:+ b.
Proof. reflexivity. Qed.

Lemma append_longer (a b : string) : b <> "" -> a +:+ b <> a.
Proof.
  intros Hb H. induction a as [|c a IH]; [done|].
  rewrite append_cons in H. injection H as H. by apply IH.
Qed.

(** C7.  When an entity comes back before a new one, the loop keeps the
    repeated entity in [current_chunk] and glues it to the next one.  For
    all subtrees [a], [a], [b] in a row it returns [a] and ["a b"]; on the
    text [Paris ... Paris ... London] it returns
    ["Paris"; "Paris London"], where the entities of the text without
    repetition, in first-seen order, are ["Paris"; "London"]. *)
Theorem get_continuous_chunks_glues_after_repeat :
  (forall la lb lc leaves_a leaves_b,
     let a := Py.join " " (map fst leaves_a) in
     let b := Py.join " " (map fst leaves_b) in
     flatten_chunks [Tree la leaves_a; Tree lb leaves_a; Tree lc leaves_b]
     = [a; a +:+ " " +:+ b])
  /\ (let text := "Paris is big. Paris is old. London is wet." in
      let w := demo_world "none" in
      entity_strings (ne_chunk w text) = ["Paris"; "Paris"; "London"]
      /\ dedup_first [] (entity_strings (ne_chunk w text)) = ["Paris"; "London"]
      /\ get_continuous_chunks w text = ["Paris"; "Paris London"]
      /\ get_continuous_chunks w "" = []).
Proof.
  split; [|by repeat split].
  intros la lb lc leaves_a leaves_b a b.
  assert (Ha : Py.str_in a [a] = true).
  { apply str_in_elem_of. by left. }
  assert (Hab : Py.str_in (a +:+ " " +:+ b) [a] = false).
  { apply str_in_false. intros H. apply list_elem_of_singleton in H.
    by apply append_longer in H. }
  assert (H1 : chunk_step ([], []) (Tree la leaves_a) = ([a], [])) by done.
  assert (H2 : chunk_step ([a], []) (Tree lb leaves_a) = ([a], [a])).
  { unfold chunk_step. cbn [app]. fold a.
    change (Py.join " " [a]) with a. by rewrite Ha. }
  assert (H3 : chunk_step ([a], [a]) (Tree lc leaves_b)
               = ([a; a +:+ " " +:+ b], [])).
  { unfold chunk_step. cbn [app]. fold b.
    rewrite join_pair. by rewrite Hab. }
  unfold flatten_chunks. cbn [fold_left]. by rewrite H1, H2, H3.
Qed.

(** C9.  The entity list of a text depends on the world through the NLTK
    chain only: two runs on the same text, in any two worlds whose chunker
    agrees on it, return the same list in the same order, and the list has
    no repetition. *)
Theorem get_continuous_chunks_deterministic (w1 w2 : World) (text : string) :
  ne_chunk w1 text = ne_chunk w2 text ->
  get_continuous_chunks w1 text = get_continuous_chunks w2 text
  /\ NoDup (get_continuous_chunks w1 text).
Proof.
  intros H. unfold get_continuous_chunks. rewrite H. split; [done|].
  apply flatten_chunks_NoDup.
Qed.

Lemma get_continuous_chunks_deterministic_witness :
  get_continuous_chunks (demo_world "none") "Paris is big. Rome is warm."
  = get_continuous_chunks offline_world "Paris is big. Rome is warm."
  /\ NoDup (get_continuous_chunks (demo_world "none")
                                  "Paris is big. Rome is warm.").
Proof.
  apply (get_continuous_chunks_deterministic
           (demo_world "none") offline_world "Paris is big. Rome is warm.").
  reflexivity.
Defined.

(** * Further properties of the notebook *)

(** ** The page-number pattern *)

Lemma take_digits_all_digits s : all_digits (Py.take_digits s) = true.
Proof.
  induction s as [|c r IH]; simpl; [done|].
  destruct (Py.is_digit c) eqn:Hc; simpl; [|done]. by rewrite Hc, IH.
Qed.

Lemma take_digits_split s :
  exists rest, s = Py.take_digits s +:+ rest /\ starts_with_digit rest = false.
Proof.
  induction s as [|c r (rest & Hr & Hd)]; simpl.
  - by exists "".
  - destruct (Py.is_digit c) eqn:Hc.
    + exists rest. rewrite append_cons. by rewrite <- Hr.
    + exists (String c r). simpl. by rewrite Hc.
Qed.

Lemma strip_prefix_Some p s r : Py.strip_prefix p s = Some r -> s = p +:+ r.
Proof.
  revert s. induction p as [|a p IH]; intros s; simpl.
  - by intros [= ->].
  - destruct s as [|b s]; [done|].
    destruct (Ascii.eqb_spec a b) as [->|]; [|done].
    intros H. rewrite append_cons. f_equal. by apply IH.
Qed.

Lemma re_match_here_Some kind s d :
  Py.re_match_here kind s = Some d ->
  is_page_number d
  /\ exists rest, s = kind +:+ "_" +:+ d +:+ rest
                  /\ starts_with_digit rest = false.
Proof.
  unfold Py.re_match_here.
  destruct (Py.strip_prefix (kind +:+ "_") s) as [r|] eqn:Hs; [|done].
  apply strip_prefix_Some in Hs.
  destruct (take_digits_split r) as (rest & Hr & Hrest).
  pose proof (take_digits_all_digits r) as Hd.
  destruct (Py.take_digits r) as [|c d'] eqn:Ht; [done|].
  intros [= <-]. split; [done|].
  exists rest. split; [|done]. by rewrite Hs, Hr, append_assoc.
Qed.

Lemma re_match_here_None kind c rest :
  Py.is_digit c = true ->
  Py.re_match_here kind (kind +:+ "_" +:+ String c rest) <> None.
Proof.
  intros Hc. unfold Py.re_match_here.
  rewrite <- append_assoc, strip_prefix_app. simpl. by rewrite Hc.
Qed.

(** X1.  What [re.search(r"<kind>_(\d+)_?", s).group(1)] is on an ASCII
    string [s], where [\d] is one of [0] .. [9].  When the search succeeds,
    group 1 is a non-empty run of decimal digits that stands in [s] right
    after [<kind>_] and is not followed by a further digit; the search
    fails exactly when [s] has no [<kind>_] followed by a digit. *)
Theorem re_search_group_is_digit_run (kind s : string) :
  ascii_only s = true ->
  (forall d, Py.re_search kind s = Some d ->
     is_page_number d
     /\ exists pre rest,
          s = pre +:+ kind +:+ "_" +:+ d +:+ rest
          /\ starts_with_digit rest = false)
  /\ (Py.re_search kind s = None <->
      forall pre c rest,
        s = pre +:+ kind +:+ "_" +:+ String c rest -> Py.is_digit c = false).
Proof.
  intros _. split.
  - induction s as [|a s IH]; intros d; simpl.
    + destruct (Py.re_match_here kind "") as [d'|] eqn:Hm; [|done].
      intros [= ->]. apply re_match_here_Some in Hm as (Hd & rest & Hs & Hr).
      split; [done|]. by exists "", rest.
    + destruct (Py.re_match_here kind (String a s)) as [d'|] eqn:Hm.
      * intros [= ->]. apply re_match_here_Some in Hm as (Hd & rest & Hs & Hr).
        split; [done|]. by exists "", rest.
      * intros H. destruct (IH d H) as (Hd & pre & rest & -> & Hr).
        split; [done|]. by exists (String a pre), rest.
  - induction s as [|a s IH]; simpl.
    + destruct (Py.re_match_here kind "") as [d'|] eqn:Hm.
      * split; [done|]. intros H.
        apply re_match_here_Some in Hm as ([Hne Hd] & rest & Hs & _).
        destruct d' as [|c d']; [done|]. simpl in Hd.
        apply andb_prop in Hd as [Hc _].
        specialize (H "" c (d' +:+ rest)). simpl in H.
        rewrite (H Hs) in Hc. done.
      * split; [|done]. intros _ pre c rest Hs.
        destruct (Py.is_digit c) eqn:Hc; [|done].
        destruct pre as [|x pre]; [|done]. simpl in Hs.
        rewrite Hs in Hm. by apply re_match_here_None in Hm.
    + destruct (Py.re_match_here kind (String a s)) as [d'|] eqn:Hm.
      * split; [done|]. intros H.
        apply re_match_here_Some in Hm as ([Hne Hd] & rest & Hs & _).
        destruct d' as [|c d']; [done|]. simpl in Hd.
        apply andb_prop in Hd as [Hc _].
        specialize (H "" c (d' +:+ rest)). simpl in H.
        rewrite (H Hs) in Hc. done.
      * rewrite IH. split.
        -- intros H pre c rest Hs.
           destruct (Py.is_digit c) eqn:Hc; [|done].
           destruct pre as [|x pre].
           ++ simpl in Hs. rewrite Hs in Hm.
              by apply re_match_here_None in Hm.
           ++ rewrite append_cons in Hs. injection Hs as -> Hs.
              rewrite <- Hc. by apply (H pre c rest).
        -- intros H pre c rest Hs. apply (H (String a pre) c rest).
           rewrite append_cons. by rewrite Hs.
Qed.

Lemma re_search_group_is_digit_run_witness :
  is_page_number "12"
  /\ (forall pre c rest,
        "notes.jpg" = pre +:+ "page" +:+ "_" +:+ String c rest ->
        Py.is_digit c = false).
Proof.
  split.
  - destruct (re_search_group_is_digit_run "page" "page_12_3.jpg" eq_refl)
      as [H _].
    exact (proj1 (H "12" eq_refl)).
  - destruct (re_search_group_is_digit_run "page" "notes.jpg" eq_refl)
      as [_ H].
    exact (proj1 H eq_refl).
Defined.

(** ** The image driver in every world *)

Lemma image_chunks_nonempty {A} (l : list A) n chunks :
  image_chunks l n = Some chunks -> Forall (fun c => c <> []) chunks.
Proof.
  destruct n as [|n']; [done|]. intros [= <-]. set (n := S n').
  assert (Hn : 1 <= n) by (unfold n; lia).
  destruct (range0_bounds (length l) n Hn) as (_ & _ & Hstart).
  apply Forall_lookup_2. intros i c Hc.
  assert (Hi : i < (length l + n - 1) / n).
  { apply lookup_lt_Some in Hc. unfold Py.range0 in Hc.
    by rewrite !length_map, length_seq in Hc. }
  rewrite list_lookup_fmap, (range0_lookup _ _ _ Hi) in Hc. simpl in Hc.
  injection Hc as <-. intros Hnil.
  assert (Hlen : length (Py.slice l (i * n) (i * n + n)) = 0) by by rewrite Hnil.
  rewrite slice_length in Hlen. specialize (Hstart i Hi). lia.
Qed.

Section DriverWorlds.

Variable cfg : Config.
Variable w : World.

Local Abbreviation view f :=
  (image_task_view cfg w (bucket_info cfg) f (osi_img_endpoint cfg)).

(** Without a client every chunk is counted whole and nothing else
    happens. *)
Lemma image_loop_no_client e bi acc chunks s :
  boto3_client w = Some e ->
  Forall (fun c => c <> []) chunks ->
  image_loop cfg w bi acc chunks s
  = (Ok {| erroneous_page_count :=
             erroneous_page_count acc + length (concat chunks);
           results := results acc |}, s).
Proof.
  intros Hc Hne. revert acc.
  induction Hne as [|c chunks Hc0 _ IH]; intros acc; simpl.
  - rewrite Nat.add_0_r. by destruct acc.
  - destruct c as [|f c]; [done|]. rewrite bind_run.
    rewrite (image_chunk_body_no_client cfg w e bi acc f c s Hc).
    rewrite IH. simpl. rewrite length_app. do 3 f_equal. simpl. lia.
Qed.

(** With clients, [results] is overwritten by every chunk. *)
Lemma image_loop_results bi acc chunks s :
  boto3_client w = None ->
  fst (image_loop cfg w bi acc chunks s)
  = Ok {| erroneous_page_count := erroneous_page_count acc;
          results :=
            match last chunks with
            | Some c =>
                Some (map (fun f => fst (image_task_view cfg w bi f
                                           (osi_img_endpoint cfg))) c)
            | None => results acc
            end |}.
Proof.
  intros Hc. revert acc s.
  induction chunks as [|c chunks IH]; intros acc s; simpl.
  - by destruct acc.
  - rewrite bind_run, (image_chunk_body_run cfg w Hc). rewrite IH. simpl.
    destruct chunks as [|c' chunks]; [done|].
    rewrite last_cons_cons.
    destruct (last (c' :: chunks)) eqn:Hl; [done|].
    by apply last_None in Hl.
Qed.

End DriverWorlds.

(** X2.  The failure counter of the image driver is all or nothing.  For a
    batch size of at least 1 the driver always returns; its
    [erroneous_page_count] is 0 when the tasks can create their client,
    whatever else fails in them, and the number of images of the list when
    they cannot, in which case nothing has been invoked, written or sent.
    With a batch size of 0 the driver raises [ValueError] before any
    task. *)
Theorem image_driver_counter_all_or_nothing (cfg : Config) (w : World)
    (l : list string) (s : state) :
  (1 <= parallel_inference_count cfg ->
   exists sm s',
     image_driver cfg w l s = (Ok sm, s')
     /\ erroneous_page_count sm
        = match boto3_client w with None => 0 | Some _ => length l end
     /\ (boto3_client w <> None -> s' = s))
  /\ (parallel_inference_count cfg = 0 ->
      image_driver cfg w l s = (Raise ValueError, s)).
Proof.
  split.
  - intros Hn. destruct (boto3_client w) as [e|] eqn:Hc.
    + unfold image_driver.
      destruct (image_chunks l (parallel_inference_count cfg))
        as [chunks|] eqn:Hch.
      * rewrite (image_loop_no_client cfg w e _ _ _ _ Hc
                   (image_chunks_nonempty _ _ _ Hch)).
        rewrite (image_chunks_concat _ _ _ Hch).
        by eexists _, _.
      * unfold image_chunks in Hch.
        destruct (parallel_inference_count cfg); [lia|done].
    + destruct (image_driver_run cfg w Hc l s Hn) as (sm & Hrun & Hcount).
      by eexists sm, _.
  - intros Hn. unfold image_driver. by rewrite Hn.
Qed.

(** Three images, batch size 2, in a world without credentials. *)
Lemma image_driver_counter_all_or_nothing_witness :
  exists sm,
    image_driver demo_cfg
      {| boto3_client := Some (ClientError "NoCredentialsError");
         read_file := demo_read_file;
         invoke_model := demo_invoke_model "none";
         requests_post := fun _ _ => Ok "{}";
         get_text_embedding := fun _ => Ok JNull;
         ne_chunk := demo_ne_chunk |}
      demo_images initial_state = (Ok sm, initial_state)
    /\ erroneous_page_count sm = 3.
Proof.
  destruct (image_driver_counter_all_or_nothing demo_cfg
              {| boto3_client := Some (ClientError "NoCredentialsError");
                 read_file := demo_read_file;
                 invoke_model := demo_invoke_model "none";
                 requests_post := fun _ _ => Ok "{}";
                 get_text_embedding := fun _ => Ok JNull;
                 ne_chunk := demo_ne_chunk |}
              demo_images initial_state) as [H _].
  destruct H as (sm & s' & Hrun & Hcount & Hs); [simpl; lia|].
  exists sm. rewrite <- (Hs ltac:(done)) at 2. split; [exact Hrun|exact Hcount].
Defined.

Lemma image_chunks_bounded {A} (l : list A) n chunks :
  image_chunks l n = Some chunks -> Forall (fun c => length c <= n) chunks.
Proof.
  destruct n as [|n']; [done|]. intros [= <-].
  apply Forall_forall. intros c Hc.
  apply list_elem_of_fmap in Hc as (i & -> & _).
  rewrite slice_length. lia.
Qed.

(** X3.  [results] holds the last batch only, when it is bound at all.  When
    the tasks can create their client, the driver cell leaves [results]
    bound to what the tasks of the last chunk returned: a list of at least
    one and at most [parallel_inference_count] entries, so with more images
    than one batch the returns of the earlier batches are gone.  The name
    is left unbound exactly when there was no image; and it is unbound as
    well when the tasks cannot create their client, since then no [ray.get]
    returns. *)
Theorem image_driver_keeps_last_results (cfg : Config) (w : World)
    (l : list string) (s : state) :
  1 <= parallel_inference_count cfg ->
  exists sm s' chunks,
    image_driver cfg w l s = (Ok sm, s')
    /\ image_chunks l (parallel_inference_count cfg) = Some chunks
    /\ (boto3_client w = None ->
        results sm
        = match last chunks with
          | Some c =>
              Some (map (fun f => fst (image_task_view cfg w (bucket_info cfg)
                                         f (osi_img_endpoint cfg))) c)
          | None => None
          end
        /\ (results sm = None <-> l = [])
        /\ (forall rs, results sm = Some rs ->
              1 <= length rs <= parallel_inference_count cfg
              /\ (parallel_inference_count cfg < length l ->
                  length rs < length l)))
    /\ (boto3_client w <> None -> results sm = None).
Proof.
  intros Hn.
  destruct (image_chunks l (parallel_inference_count cfg)) as [chunks|] eqn:Hch.
  2:{ unfold image_chunks in Hch.
      destruct (parallel_inference_count cfg); [lia|done]. }
  assert (Hrun : image_driver cfg w l s
                 = image_loop cfg w (bucket_info cfg)
                     {| erroneous_page_count := 0; results := None |} chunks s).
  { unfold image_driver. by rewrite Hch. }
  pose proof (image_chunks_nonempty _ _ _ Hch) as Hne.
  pose proof (image_chunks_bounded _ _ _ Hch) as Hb.
  pose proof (image_chunks_concat _ _ _ Hch) as Hcat.
  destruct (boto3_client w) as [e|] eqn:Hc.
  - rewrite (image_loop_no_client cfg w e _ _ _ s Hc Hne) in Hrun.
    eexists _, s, chunks. split; [exact Hrun|]. split; [done|].
    split; [done|]. done.
  - pose proof (image_loop_results cfg w (bucket_info cfg)
                  {| erroneous_page_count := 0; results := None |} chunks s Hc)
      as Hres.
    rewrite <- Hrun in Hres.
    destruct (image_driver cfg w l s) as [r s'] eqn:Hd. simpl in Hres. subst r.
    eexists _, s', chunks. split; [reflexivity|]. split; [done|].
    split; [|done]. intros _. simpl. split; [done|].
    destruct (last chunks) as [c|] eqn:Hl.
    + apply last_Some in Hl as [pre ->].
      rewrite Forall_forall in Hb, Hne.
      assert (Hin : c ∈ pre ++ [c]) by (apply elem_of_app; right; by left).
      pose proof (Hb c Hin) as Hcb. pose proof (Hne c Hin) as Hcn.
      assert (Hpos : 1 <= length c) by (destruct c; [done|simpl; lia]).
      assert (Hlen : length l = length (concat pre) + length c).
      { rewrite <- Hcat, concat_app, length_app. simpl.
        by rewrite app_nil_r. }
      split.
      * split; [done|]. intros ->. simpl in Hlen. lia.
      * intros rs [= <-]. rewrite length_map. split; [lia|]. lia.
    + apply last_None in Hl. subst chunks. simpl in Hcat. subst l.
      split; [done|]. by intros rs.
Qed.

(** Three images in batches of 2: [results] has the return of page 3
    only. *)
Lemma image_driver_keeps_last_results_witness :
  exists sm s' r,
    image_driver demo_cfg (demo_world "none") demo_images initial_state
    = (Ok sm, s')
    /\ results sm = Some [r].
Proof.
  destruct (image_driver_keeps_last_results demo_cfg (demo_world "none")
              demo_images initial_state)
    as (sm & s' & chunks & Hrun & Hch & Hok & _).
  - simpl. lia.
  - destruct (Hok eq_refl) as (Hres & _ & _).
    vm_compute in Hch. injection Hch as <-. simpl in Hres.
    exists sm, s'. eexists. split; [exact Hrun|exact Hres].
Defined.

(** ** What a run of the image driver leaves in the trace *)

Lemma re_search_page_number kind s d :
  Py.re_search kind s = Some d -> is_page_number d.
Proof.
  induction s as [|a s IH]; simpl.
  - destruct (Py.re_match_here kind "") as [d'|] eqn:Hm; [|done].
    intros [= ->]. by apply re_match_here_Some in Hm as [Hd _].
  - destruct (Py.re_match_here kind (String a s)) as [d'|] eqn:Hm; [|done].
    intros [= ->]. by apply re_match_here_Some in Hm as [Hd _].
Qed.

Lemma paired_app agree url a b :
  paired agree url a -> paired agree url b -> paired agree url (a ++ b).
Proof.
  induction 1; intros Hb; simpl; [done| |]; constructor; auto.
Qed.

Lemma paired_counts agree url evs :
  paired agree url evs ->
  length (List.filter is_post evs) = length (written_files evs)
  /\ length (posted_records evs) = length (written_files evs)
  /\ Forall (fun r => exists c, agree c r) (posted_records evs).
Proof.
  induction 1 as [|m b tr _ (IH1 & IH2 & IH3)
                  |p c r resp tr Hag _ (IH1 & IH2 & IH3)]; simpl.
  - repeat split; constructor.
  - done.
  - repeat split; [lia|lia|]. constructor; [by exists c|done].
Qed.

Section ImageTraces.

Variable cfg : Config.
Variable w : World.

Local Abbreviation view f :=
  (image_task_view cfg w (bucket_info cfg) f (osi_img_endpoint cfg)).

Lemma img_desc_events_paired agree url f p :
  paired agree url (img_desc_events cfg w f p)
  /\ length (List.filter is_invoke (img_desc_events cfg w f p)) <= 1.
Proof.
  unfold img_desc_events.
  destruct (boto3_client w); [split; [constructor|simpl; lia]|].
  destruct (read_file w f); simpl; split; repeat constructor.
Qed.

Lemma image_task_view_paired f :
  paired image_agree (osi_img_endpoint cfg) (snd (view f))
  /\ length (List.filter is_invoke (snd (view f))) <= 3
  /\ length (written_files (snd (view f))) <= 1.
Proof.
  unfold image_task_view.
  destruct (img_desc_events_paired image_agree (osi_img_endpoint cfg) f
              (entity_extraction_prompt cfg)) as [Hp1 Hi1].
  destruct (img_desc_events_paired image_agree (osi_img_endpoint cfg) f
              (image_desc_prompt cfg)) as [Hp2 Hi2].
  pose proof (img_desc_events_shape cfg w f (entity_extraction_prompt cfg))
    as [Hw1 _].
  pose proof (img_desc_events_shape cfg w f (image_desc_prompt cfg))
    as [Hw2 _].
  destruct (img_desc_result cfg w f (entity_extraction_prompt cfg)) as [ents|];
    cbn [snd]; [|rewrite Hw1; simpl; repeat split; [done|lia|lia]].
  destruct (img_desc_result cfg w f (image_desc_prompt cfg)) as [desc|];
    cbn [snd].
  2:{ rewrite List.filter_app, length_app, written_files_app, Hw1, Hw2.
      split; [by apply paired_app|]. simpl. lia. }
  destruct (Py.re_search "page" _) as [page|] eqn:Hpage; cbn [snd].
  - rewrite !List.filter_app, !length_app, !written_files_app, Hw1, Hw2.
    split; [|simpl; lia].
    apply paired_app; [done|]. apply paired_app; [done|].
    constructor. constructor; [|constructor].
    repeat split; try done; by apply re_search_page_number in Hpage as [? ?].
  - rewrite !List.filter_app, !length_app, !written_files_app, Hw1, Hw2.
    split; [|simpl; lia].
    apply paired_app; [done|]. apply paired_app; [done|].
    repeat constructor.
Qed.

Lemma image_views_paired l :
  paired image_agree (osi_img_endpoint cfg)
         (flat_map (fun f => snd (view f)) l)
  /\ length (List.filter is_invoke (flat_map (fun f => snd (view f)) l))
     <= 3 * length l
  /\ length (written_files (flat_map (fun f => snd (view f)) l)) <= length l.
Proof.
  induction l as [|f l (IH1 & IH2 & IH3)]; simpl.
  - repeat split; [constructor|lia|lia].
  - destruct (image_task_view_paired f) as (H1 & H2 & H3).
    rewrite List.filter_app, length_app, written_files_app, length_app.
    split; [by apply paired_app|]. lia.
Qed.

End ImageTraces.

(** With a batch size of at least 1 the driver returns, either untouched
    state (no client) or the events of all its tasks. *)
Lemma image_driver_cases cfg w l s :
  1 <= parallel_inference_count cfg ->
  (exists sm, image_driver cfg w l s = (Ok sm, s))
  \/ (exists sm,
        image_driver cfg w l s
        = (Ok sm,
           apply_events s
             (flat_map (fun f => snd (image_task_view cfg w (bucket_info cfg) f
                                        (osi_img_endpoint cfg))) l))).
Proof.
  intros Hn. destruct (boto3_client w) as [e|] eqn:Hc.
  - left. unfold image_driver.
    destruct (image_chunks l (parallel_inference_count cfg))
      as [chunks|] eqn:Hch.
    + rewrite (image_loop_no_client cfg w e _ _ _ _ Hc
                 (image_chunks_nonempty _ _ _ Hch)).
      by eexists.
    + unfold image_chunks in Hch.
      destruct (parallel_inference_count cfg); [lia|done].
  - right. destruct (image_driver_run cfg w Hc l s Hn) as (sm & Hrun & _).
    by exists sm.
Qed.

(** Every record of a paired trace agrees with a copy written in it. *)
Lemma paired_posted_written agree url evs :
  paired agree url evs ->
  Forall (fun r => exists c, c ∈ (written_files evs).*2 /\ agree c r)
         (posted_records evs).
Proof.
  induction 1 as [|m b tr _ IH|p c r resp tr Hag _ IH]; simpl.
  - constructor.
  - exact IH.
  - constructor.
    + exists c. split; [by left|done].
    + eapply Forall_impl; [exact IH|].
      intros r0 (c0 & Hin & Hag0). exists c0. split; [by right|done].
Qed.

(** Counts and contents of a trace do not depend on the order of its
    events. *)
Lemma filter_length_Permutation {A} (f : A -> bool) (l l' : list A) :
  l ≡ₚ l' -> length (List.filter f l) = length (List.filter f l').
Proof.
  induction 1 as [|x l l' _ IH|x y l|l l' l'' _ IH1 _ IH2]; simpl.
  - done.
  - destruct (f x); simpl; by rewrite IH.
  - by destruct (f x), (f y).
  - by rewrite IH1.
Qed.

Lemma trace_reading_Permutation evs evs' :
  evs ≡ₚ evs' ->
  written_files evs ≡ₚ written_files evs'
  /\ posted_records evs ≡ₚ posted_records evs'.
Proof.
  intros H. split; by apply Permutation_flat_map.
Qed.

(** X4.  The shape of the runs of the image tasks, for ASCII file names and
    extension.  The events of one task are model invocations, at most
    three, and at most one pair made of the write of a local copy followed
    at once by one POST to the image endpoint; the POST carries a single
    record, which has the text, the entities, the object name and the page
    number of the copy written just before it, and that page number is a
    non-empty digit string.  The tasks of a batch run in parallel, so over
    a run of the driver nothing is said of the order of the events: in
    whatever order they come there are at most three invocations per image
    and as many POSTs as local copies, at most one per image, and every
    record sent agrees in this way with a copy written during the run. *)
Theorem image_driver_trace_shape (cfg : Config) (w : World)
    (l : list string) (s : state) :
  Forall (fun f => ascii_only f = true) l ->
  ascii_only (IMAGE_FILE_EXTN cfg) = true ->
  (forall i f total s0,
     f ∈ l ->
     exists r s1 evs,
       process_image_data cfg w i f (osi_img_endpoint cfg) total
                          (bucket_info cfg) s0 = (r, s1)
       /\ trace s1 = trace s0 ++ evs
       /\ paired image_agree (osi_img_endpoint cfg) evs
       /\ length (List.filter is_invoke evs) <= 3
       /\ length (written_files evs) <= 1)
  /\ exists r s' evs,
       image_driver cfg w l s = (r, s')
       /\ trace s' = trace s ++ evs
       /\ forall evs',
            evs ≡ₚ evs' ->
            length (List.filter is_invoke evs') <= 3 * length l
            /\ length (List.filter is_post evs') = length (written_files evs')
            /\ length (written_files evs') <= length l
            /\ Forall (fun r => exists c,
                         c ∈ (written_files evs').*2 /\ image_agree c r)
                      (posted_records evs').
Proof.
  intros _ _. split.
  - intros i f total s0 _.
    destruct (boto3_client w) as [e|] eqn:Hc.
    + rewrite (process_image_data_no_client cfg w i f _ total _ s0 e Hc).
      exists (Raise e), s0, []. rewrite app_nil_r. simpl.
      repeat split; [constructor|lia|lia].
    + rewrite process_image_data_run by done.
      destruct (image_task_view_paired cfg w f) as (H1 & H2 & H3).
      eexists _, _, _. split; [reflexivity|].
      split; [apply trace_apply_events|]. done.
  - assert (Hshape : forall evs,
              paired image_agree (osi_img_endpoint cfg) evs ->
              length (List.filter is_invoke evs) <= 3 * length l ->
              length (written_files evs) <= length l ->
              forall evs',
                evs ≡ₚ evs' ->
                length (List.filter is_invoke evs') <= 3 * length l
                /\ length (List.filter is_post evs')
                   = length (written_files evs')
                /\ length (written_files evs') <= length l
                /\ Forall (fun r => exists c,
                             c ∈ (written_files evs').*2 /\ image_agree c r)
                          (posted_records evs')).
    { intros evs Hp Hi Hw evs' Hperm.
      destruct (paired_counts _ _ _ Hp) as (Hposts & _ & _).
      pose proof (paired_posted_written _ _ _ Hp) as Hag.
      destruct (trace_reading_Permutation _ _ Hperm) as [Hpw Hpp].
      rewrite <- (filter_length_Permutation is_invoke _ _ Hperm).
      rewrite <- (filter_length_Permutation is_post _ _ Hperm).
      rewrite <- (Permutation_length Hpw).
      split; [done|]. split; [done|]. split; [done|].
      rewrite <- Hpp. eapply Forall_impl; [exact Hag|].
      intros r (c & Hin & Hagree). exists c. split; [|done].
      by rewrite <- Hpw. }
    assert (Hnil : forall r : result image_summary, exists r' s' evs,
               (r, s) = (r', s')
               /\ trace s' = trace s ++ evs
               /\ forall evs',
                    evs ≡ₚ evs' ->
                    length (List.filter is_invoke evs') <= 3 * length l
                    /\ length (List.filter is_post evs')
                       = length (written_files evs')
                    /\ length (written_files evs') <= length l
                    /\ Forall (fun r => exists c,
                                 c ∈ (written_files evs').*2
                                 /\ image_agree c r)
                              (posted_records evs')).
    { intros r. exists r, s, []. rewrite app_nil_r.
      split; [done|]. split; [done|].
      apply Hshape; [constructor|simpl; lia|simpl; lia]. }
    destruct (parallel_inference_count cfg) as [|n'] eqn:Hn.
    { unfold image_driver. rewrite Hn. apply Hnil. }
    destruct (image_driver_cases cfg w l s) as [H|H]; [rewrite Hn; lia| |].
    + destruct H as (sm & Hrun). rewrite Hrun. apply Hnil.
    + destruct H as (sm & Hrun). rewrite Hrun.
      destruct (image_views_paired cfg w l) as (H1 & H2 & H3).
      eexists _, _, _. split; [reflexivity|].
      split; [apply trace_apply_events|]. by apply Hshape.
Qed.

(** Three pages in batches of 2, read in the order of the run: three
    local copies and three POSTs. *)
Lemma image_driver_trace_shape_witness :
  exists r s' evs,
    image_driver demo_cfg (demo_world "none") demo_images initial_state
    = (r, s')
    /\ trace s' = evs
    /\ length (List.filter is_post evs) = length (written_files evs)
    /\ length (written_files evs) <= 3.
Proof.
  destruct (image_driver_trace_shape demo_cfg (demo_world "none") demo_images
              initial_state)
    as (_ & r & s' & evs & Hrun & Htr & Hshape).
  - by repeat constructor.
  - done.
  - destruct (Hshape evs (reflexivity evs)) as (_ & Hp & Hw & _).
    exists r, s', evs. split; [exact Hrun|]. split; [exact Htr|].
    split; [exact Hp|exact Hw].
Defined.

(** A task commits one record when it returns one, and none otherwise. *)
Lemma committed_flat_map cfg w l :
  boto3_client w = None ->
  committed (flat_map (fun f => snd (image_task_view cfg w (bucket_info cfg) f
                                       (osi_img_endpoint cfg))) l)
  = length (List.filter (task_returns_record cfg w) l).
Proof.
  intros Hc. induction l as [|f l IH]; simpl; [done|].
  rewrite committed_app, committed_view, IH.
  unfold task_returns_record at 2.
  rewrite process_image_data_run by done. cbn [fst].
  by destruct (fst (image_task_view cfg w (bucket_info cfg) f
                                    (osi_img_endpoint cfg))).
Qed.

(** X5.  The records that reach the index are those of the tasks that
    return one.  When the tasks can create their client, the number of
    POSTs answered by the endpoint during a run of the image driver is the
    number of images of the list whose task returns its record, however
    many tasks fail and wherever they stand; none of this shows in
    [erroneous_page_count], which is 0. *)
Theorem image_driver_committed_count (cfg : Config) (w : World)
    (l : list string) (s : state) :
  boto3_client w = None ->
  1 <= parallel_inference_count cfg ->
  exists sm s' evs,
    image_driver cfg w l s = (Ok sm, s')
    /\ trace s' = trace s ++ evs
    /\ committed evs = length (List.filter (task_returns_record cfg w) l)
    /\ erroneous_page_count sm = 0.
Proof.
  intros Hc Hn.
  destruct (image_driver_run cfg w Hc l s Hn) as (sm & Hrun & Hcount).
  eexists sm, _, _. split; [exact Hrun|].
  split; [apply trace_apply_events|].
  split; [by apply committed_flat_map|done].
Qed.

(** Three images of which the second is throttled: two records. *)
Lemma image_driver_committed_count_witness :
  exists sm s' evs,
    image_driver demo_cfg (demo_world "b64:page_2.b64") demo_images
                 initial_state = (Ok sm, s')
    /\ trace s' = evs
    /\ committed evs = 2.
Proof.
  destruct (image_driver_committed_count demo_cfg
              (demo_world "b64:page_2.b64") demo_images initial_state eq_refl)
    as (sm & s' & evs & Hrun & Htrace & Hcommitted & _).
  - simpl. lia.
  - exists sm, s', evs. split; [exact Hrun|]. split; [exact Htrace|].
    exact Hcommitted.
Defined.

(** ** Stems and the files of the local copies *)

Lemma length_append (a b : string) :
  String.length (a +:+ b) = String.length a + String.length b.
Proof.
  induction a as [|c a IH]; [done|]. rewrite append_cons. simpl. by rewrite IH.
Qed.

Lemma append_inj_l (a b x : string) : a +:+ x = b +:+ x -> a = b.
Proof.
  revert b. induction a as [|c a IH]; intros b H.
  - destruct b as [|d b]; [done|].
    apply (f_equal String.length) in H. rewrite !length_append in H.
    simpl in H. lia.
  - destruct b as [|d b].
    + apply (f_equal String.length) in H. rewrite !length_append in H.
      simpl in H. lia.
    + rewrite !append_cons in H. injection H as -> H. f_equal. by apply IH.
Qed.

Lemma split_parts_no_sep c s :
  Forall (fun x => Py.contains c x = false) (Py.split c s).
Proof.
  induction s as [|d r IH]; simpl.
  - by repeat constructor.
  - destruct (Ascii.eqb d c) eqn:Hd.
    + by constructor.
    + destruct (Py.split c r) as [|x xs].
      * repeat constructor. simpl. by rewrite Hd.
      * inversion IH as [|? ? Hx Hxs]; subst. constructor; [|done].
        simpl. by rewrite Hd, Hx.
Qed.

Lemma contains_substring c n s :
  Py.contains c s = false -> Py.contains c (String.substring 0 n s) = false.
Proof.
  revert n. induction s as [|d r IH]; intros n H.
  - by destruct n.
  - simpl in H. apply orb_false_elim in H as [Hd Hr].
    destruct n as [|n]; [done|]. simpl. by rewrite Hd, IH.
Qed.

Lemma path_name_no_sep p : Py.contains "/" (Py.path_name p) = false.
Proof.
  unfold Py.path_name.
  pose proof (split_parts_no_sep "/" p) as H.
  induction (Py.split "/" p) as [|x xs IH]; [done|].
  inversion H as [|? ? Hx Hxs]; subst. simpl.
  destruct (negb _); simpl; [|by apply IH].
  destruct (List.filter _ xs) eqn:Hf; [done|]. by apply IH.
Qed.

(** A stem never has a slash in it. *)
Lemma stem_no_sep p : Py.contains "/" (Py.stem p) = false.
Proof.
  unfold Py.stem. pose proof (path_name_no_sep p) as H.
  destruct (Py.rfind "." (Py.path_name p)) as [i|]; [|done].
  destruct (_ && _); [|done]. by apply contains_substring.
Qed.

Lemma strip_prefix_no_sep s :
  Py.contains "/" s = false -> Py.strip_prefix "/" s = None.
Proof.
  destruct s as [|c s]; [done|]. intros H.
  cbn [Py.contains] in H. apply orb_false_elim in H as [Hc _].
  cbn [Py.strip_prefix].
  destruct (Ascii.eqb_spec "/" c) as [<-|]; [|done].
  by rewrite Ascii.eqb_refl in Hc.
Qed.

Lemma stem_file_inj dir a b ext :
  Py.contains "/" a = false -> Py.contains "/" b = false ->
  Py.contains "/" ext = false ->
  Py.path_join dir (a +:+ ext) = Py.path_join dir (b +:+ ext) -> a = b.
Proof.
  intros Ha Hb He H.
  assert (Hsa : Py.strip_prefix "/" (a +:+ ext) = None).
  { apply strip_prefix_no_sep. by rewrite contains_app, Ha, He. }
  assert (Hsb : Py.strip_prefix "/" (b +:+ ext) = None).
  { apply strip_prefix_no_sep. by rewrite contains_app, Hb, He. }
  apply (path_join_inj_r _ _ _ Hsa Hsb) in H. by apply append_inj_l in H.
Qed.

Lemma local_copy_stem_of_path cfg f g :
  image_audit_path cfg f = image_audit_path cfg g -> Py.stem f = Py.stem g.
Proof.
  unfold image_audit_path. intros H.
  by apply stem_file_inj in H; [|apply stem_no_sep..|].
Qed.

(** X6.  The local copies are keyed by the stem.  Two artifacts get the same
    local file exactly when their paths have the same stem, in the image
    pipeline and in the text pipeline: files of different stems never
    overwrite each other, files of one stem in two directories do. *)
Theorem local_copy_path_keyed_by_stem (cfg : Config) (f g : string) :
  (image_audit_path cfg f = image_audit_path cfg g <-> Py.stem f = Py.stem g)
  /\ (text_audit_path cfg f = text_audit_path cfg g <-> Py.stem f = Py.stem g).
Proof.
  unfold image_audit_path, text_audit_path.
  split; (split; [|by intros ->]); intros H;
    by apply stem_file_inj in H; [|apply stem_no_sep..|].
Qed.

Lemma local_copy_path_keyed_by_stem_witness :
  Py.stem "/data/b64/page_1.b64" = Py.stem "/backup/page_1.old"
  /\ text_audit_path demo_cfg "/data/text/text_1.txt"
     = text_audit_path demo_cfg "/data/text/text_1.md".
Proof.
  split.
  - apply (local_copy_path_keyed_by_stem demo_cfg). reflexivity.
  - apply (local_copy_path_keyed_by_stem demo_cfg). reflexivity.
Defined.

Lemma last_write_app path a b :
  last_write path (a ++ b)
  = match last_write path b with
    | Some c => Some c
    | None => last_write path a
    end.
Proof.
  induction a as [|e a IH]; simpl.
  - by destruct (last_write path b).
  - rewrite IH. by destruct (last_write path b).
Qed.

(** The local files after a run: the last content written to a path, or
    what was there before. *)
Lemma files_apply_events s evs path :
  files (apply_events s evs) !! path
  = match last_write path evs with
    | Some c => Some c
    | None => files s !! path
    end.
Proof.
  revert s. induction evs as [|e evs IH]; intros s; simpl; [done|].
  rewrite IH. destruct (last_write path evs); [done|].
  destruct e as [| p c |]; simpl; try done.
  destruct (String.eqb_spec p path) as [->|Hne].
  - apply lookup_insert_eq.
  - by apply lookup_insert_ne.
Qed.

Section LocalCopies.

Variable cfg : Config.
Variable w : World.

Local Abbreviation view f :=
  (image_task_view cfg w (bucket_info cfg) f (osi_img_endpoint cfg)).

Lemma img_desc_events_last_write path f p :
  last_write path (img_desc_events cfg w f p) = None.
Proof.
  unfold img_desc_events.
  destruct (boto3_client w); [done|]. by destruct (read_file w f).
Qed.

(** A task writes to the file of its own stem only. *)
Lemma image_task_view_last_write path f :
  path <> image_audit_path cfg f -> last_write path (snd (view f)) = None.
Proof.
  intros Hne. unfold image_task_view.
  destruct (img_desc_result cfg w f (entity_extraction_prompt cfg));
    cbn [snd]; [|apply img_desc_events_last_write].
  destruct (img_desc_result cfg w f (image_desc_prompt cfg)); cbn [snd].
  2:{ by rewrite last_write_app, !img_desc_events_last_write. }
  destruct (Py.re_search "page" _); cbn [snd];
    rewrite !last_write_app, !img_desc_events_last_write; simpl; [|done].
  destruct (String.eqb_spec (image_audit_path cfg f) path); [|done].
  by subst.
Qed.

Lemma image_task_view_assembled_write f ents desc page :
  img_desc_result cfg w f (entity_extraction_prompt cfg) = Ok ents ->
  img_desc_result cfg w f (image_desc_prompt cfg) = Ok desc ->
  Py.re_search "page" (Py.stem f +:+ image_file_extn (bucket_info cfg))
  = Some page ->
  last_write (image_audit_path cfg f) (snd (view f))
  = Some (image_audit (bucket_info cfg) f ents desc page).
Proof.
  intros He Hd Hp. unfold image_task_view. rewrite He, Hd, Hp. cbn [snd].
  rewrite !last_write_app. simpl. by rewrite String.eqb_refl.
Qed.

Lemma image_views_last_write l f c :
  (forall g, g ∈ l -> Py.stem g = Py.stem f -> g = f) ->
  f ∈ l ->
  last_write (image_audit_path cfg f) (snd (view f)) = Some c ->
  last_write (image_audit_path cfg f) (flat_map (fun g => snd (view g)) l)
  = Some c.
Proof.
  intros Huniq Hin Hw.
  induction l as [|g l IH]; [by apply elem_of_nil in Hin|].
  simpl. rewrite last_write_app.
  destruct (decide (f ∈ l)) as [Hl|Hl].
  - rewrite IH; [done| |done]. intros g' Hg'. apply Huniq. by right.
  - assert (Hrest : last_write (image_audit_path cfg f)
                               (flat_map (fun g => snd (view g)) l) = None).
    { clear IH Hin. induction l as [|g' l IH]; [done|].
      simpl. rewrite last_write_app, IH.
      - apply image_task_view_last_write. intros Heq.
        apply local_copy_stem_of_path in Heq.
        apply Hl. rewrite (Huniq g'); [by left| by right; left|done].
      - intros g'' Hg''. apply Huniq.
        apply elem_of_cons in Hg'' as [->|Hg'']; [by left|].
        right. by right.
      - intros H. apply Hl. by right. }
    rewrite Hrest. apply elem_of_cons in Hin as [->|Hin]; [done|done].
Qed.

End LocalCopies.

(** X7.  After a run of the image driver every assembled image has its
    local copy on disk.  For an image of the list whose stem no other
    image of the list shares, whose two model calls answer and whose object
    name matches the page pattern, the file [<json_img_dir>/<stem>.json]
    holds the copy of that image when the driver returns, whatever the other
    tasks did and whatever the endpoint answered; and a file that is the
    local file of no image of the list is as it was before the run. *)
Theorem image_driver_local_copies (cfg : Config) (w : World)
    (l : list string) (s : state) (f ents desc page : string) :
  boto3_client w = None ->
  1 <= parallel_inference_count cfg ->
  f ∈ l ->
  (forall g, g ∈ l -> Py.stem g = Py.stem f -> g = f) ->
  img_desc_result cfg w f (entity_extraction_prompt cfg) = Ok ents ->
  img_desc_result cfg w f (image_desc_prompt cfg) = Ok desc ->
  Py.re_search "page" (Py.stem f +:+ IMAGE_FILE_EXTN cfg) = Some page ->
  exists sm s',
    image_driver cfg w l s = (Ok sm, s')
    /\ files s' !! Py.path_join (json_img_dir cfg) (Py.stem f +:+ ".json")
       = Some (image_audit (bucket_info cfg) f ents desc page)
    /\ (forall path,
          (forall g, g ∈ l -> path <> image_audit_path cfg g) ->
          files s' !! path = files s !! path).
Proof.
  intros Hc Hn Hin Huniq He Hd Hp.
  destruct (image_driver_run cfg w Hc l s Hn) as (sm & Hrun & _).
  eexists sm, _. split; [exact Hrun|]. split.
  - change (Py.path_join (json_img_dir cfg) (Py.stem f +:+ ".json"))
      with (image_audit_path cfg f).
    rewrite files_apply_events.
    rewrite (image_views_last_write cfg w l f _ Huniq Hin
               (image_task_view_assembled_write cfg w f ents desc page
                  He Hd Hp)).
    done.
  - intros path Hpath. rewrite files_apply_events.
    assert (Hnone : last_write path
              (flat_map (fun g => snd (image_task_view cfg w (bucket_info cfg) g
                                         (osi_img_endpoint cfg))) l) = None).
    { clear Hin Huniq Hrun. induction l as [|g l IH]; [done|].
      simpl. rewrite last_write_app, IH.
      - apply image_task_view_last_write. apply Hpath. by left.
      - intros g' Hg'. apply Hpath. by right. }
    by rewrite Hnone.
Qed.

(** Three images of which the second is throttled: the copy of page 3 is
    on disk, and so is that of page 1. *)
Lemma image_driver_local_copies_witness :
  exists sm s',
    image_driver demo_cfg (demo_world "b64:page_2.b64") demo_images
                 initial_state = (Ok sm, s')
    /\ files s' !! "img_json_dir/page_3.json"
       = Some {| file_type := ".jpg"; file_name := "page_3.jpg";
                 text := "ACME, 2023. 'Q3' bar chart.";
                 entities := "ACME, 2023. ";
                 audit_page_number := "3" |}
    /\ files s' !! "img_json_dir/page_2.json" = None.
Proof.
  destruct (image_driver_local_copies demo_cfg (demo_world "b64:page_2.b64")
              demo_images initial_state "/data/b64/page_3.b64"
              "ACME, 2023. " "'Q3' bar chart." "3" eq_refl)
    as (sm & s' & Hrun & Hcopy & Hother).
  - simpl. lia.
  - by repeat constructor.
  - intros g Hg Hstem.
    repeat (apply elem_of_cons in Hg as [->|Hg]; [try done|]).
    by apply elem_of_nil in Hg.
  - reflexivity.
  - reflexivity.
  - reflexivity.
  - exists sm, s'. split; [exact Hrun|]. split; [exact Hcopy|].
    injection Hrun as _ <-. vm_compute. reflexivity.
Defined.

(** ** The text loop in every world *)

Section TextLoop.

Variable cfg : Config.
Variable w : World.

Lemma text_task_view_shape f idx :
  match fst (text_task_view cfg w f idx) with
  | Ok _ =>
      exists c r ack,
        snd (text_task_view cfg w f idx)
        = [WriteText (text_audit_path cfg f) c;
           Post (osi_text_endpoint cfg) [r] (Ok ack)]
        /\ text_agree c r /\ page_number r = JInt idx
  | Raise e =>
      snd (text_task_view cfg w f idx) = []
      \/ exists c r,
           snd (text_task_view cfg w f idx)
           = [WriteText (text_audit_path cfg f) c;
              Post (osi_text_endpoint cfg) [r] (Raise e)]
           /\ text_agree c r /\ page_number r = JInt idx
           /\ requests_post w (osi_text_endpoint cfg) [r] = Raise e
  end.
Proof.
  unfold text_task_view.
  destruct (read_file w f) as [content|e]; cbn [fst snd]; [|by left].
  destruct (get_text_embedding w content) as [emb|e]; cbn [fst snd];
    [|by left].
  destruct (Py.re_search "text" _) as [page|] eqn:Hp; cbn [fst snd];
    [|by left].
  apply re_search_page_number in Hp.
  assert (Hag : text_agree (text_audit cfg w f content page)
                           (text_record cfg w f content idx emb)).
  { repeat split; try apply Hp. by exists idx. }
  destruct (requests_post w _ _) as [ack|e] eqn:Hpost; cbn [fst snd].
  - by eexists _, _, _.
  - right. by eexists _, _.
Qed.

(** The pages of [before] all go through: the loop reaches the rest with
    the index moved on by their number. *)
Lemma text_loop_prefix before rest idx s :
  (forall i g, before !! i = Some g ->
     fst (text_task_view cfg w g (idx + Z.of_nat i)) = Ok tt) ->
  exists evs,
    text_loop cfg w (before ++ rest) idx s
    = text_loop cfg w rest (idx + Z.of_nat (length before))
                (apply_events s evs)
    /\ committed evs = length before
    /\ length (written_files evs) = length before
    /\ map page_number (posted_records evs)
       = map (fun i => JInt (idx + Z.of_nat i)) (seq 0 (length before))
    /\ paired text_agree (osi_text_endpoint cfg) evs
    /\ List.filter is_invoke evs = [].
Proof.
  revert idx s. induction before as [|g before IH]; intros idx s Hall.
  - exists []. simpl. rewrite Z.add_0_r. repeat split; constructor.
  - pose proof (Hall 0 g eq_refl) as Hg. rewrite Z.add_0_r in Hg.
    pose proof (text_task_view_shape g idx) as Hshape. rewrite Hg in Hshape.
    destruct Hshape as (c & r & ack & Hev & Hag & Hpage).
    destruct (IH (idx + 1)%Z
                 (apply_events s (snd (text_task_view cfg w g idx))))
      as (evs & Hrun & Hcom & Hwr & Hpages & Hpaired & Hinv).
    { intros i g' Hi. specialize (Hall (S i) g' Hi).
      replace (idx + 1 + Z.of_nat i)%Z with (idx + Z.of_nat (S i))%Z by lia.
      done. }
    exists (snd (text_task_view cfg w g idx) ++ evs).
    split; [|split; [|split; [|split; [|split]]]].
    + replace (idx + Z.of_nat (length (g :: before)))%Z
        with (idx + 1 + Z.of_nat (length before))%Z by (simpl length; lia).
      cbn [app text_loop]. rewrite bind_run, process_text_data_run, Hg.
      by rewrite Hrun, apply_events_app.
    + rewrite committed_app, Hcom, Hev. done.
    + rewrite written_files_app, length_app, Hwr, Hev. done.
    + rewrite posted_records_app, map_app, Hpages, Hev. simpl.
      rewrite Hpage, Z.add_0_r. f_equal.
      rewrite <- seq_shift, map_map. apply map_ext. intros i. f_equal. lia.
    + rewrite Hev. by constructor.
    + rewrite List.filter_app, Hinv, Hev. done.
Qed.

End TextLoop.

(** X8.  The text loop numbers the pages by position.  When every page of
    the list goes through (read, embedded, name matching, POST answered),
    the loop returns with [txt_page_index] at 1 plus the number of pages;
    it has written one local copy and had one POST answered per page; and
    the record of the page at position [i] carries the integer [i + 1] in
    [page_number], whatever the digits in the file names are and in
    whatever order the files are listed. *)
Theorem text_driver_numbers_by_position (cfg : Config) (w : World)
    (l : list string) (s : state) :
  (forall i g s0, l !! i = Some g ->
     fst (process_text_data cfg w g (1 + Z.of_nat i) s0) = Ok tt) ->
  exists s' evs,
    text_driver cfg w l s = (Ok (1 + Z.of_nat (length l))%Z, s')
    /\ trace s' = trace s ++ evs
    /\ committed evs = length l
    /\ length (written_files evs) = length l
    /\ map page_number (posted_records evs)
       = map (fun i => JInt (1 + Z.of_nat i)) (seq 0 (length l)).
Proof.
  intros Hall.
  destruct (text_loop_prefix cfg w l [] 1 s)
    as (evs & Hrun & Hcom & Hwr & Hpages & _).
  { intros i g Hi. specialize (Hall i g initial_state Hi).
    by rewrite process_text_data_run in Hall. }
  exists (apply_events s evs), evs. unfold text_driver.
  rewrite app_nil_r in Hrun. rewrite Hrun. simpl.
  repeat split; try done. apply trace_apply_events.
Qed.

(** The pages 7, 2 and 1, listed in this order, are sent as pages 1, 2
    and 3. *)
Lemma text_driver_numbers_by_position_witness :
  exists s' evs,
    text_driver demo_cfg (demo_world "none")
      ["/data/text/text_7.txt"; "/data/text/text_2.txt";
       "/data/text/text_1.txt"] initial_state = (Ok 4%Z, s')
    /\ trace s' = evs
    /\ map page_number (posted_records evs) = [JInt 1; JInt 2; JInt 3]
    /\ map (fun fc => audit_page_number (snd fc)) (written_files evs)
       = ["7"; "2"; "1"].
Proof.
  destruct (text_driver_numbers_by_position demo_cfg (demo_world "none")
              ["/data/text/text_7.txt"; "/data/text/text_2.txt";
               "/data/text/text_1.txt"] initial_state)
    as (s' & evs & Hrun & Htrace & _ & _ & Hpages).
  - intros i g s0 Hi. rewrite process_text_data_run.
    destruct i as [|[|[|i]]]; simpl in Hi; try done;
      injection Hi as <-; reflexivity.
  - exists s', evs. split; [exact Hrun|]. split; [exact Htrace|].
    split; [exact Hpages|].
    injection Hrun as <-. simpl in Htrace. subst evs. reflexivity.
Defined.



(** X10.  What a text task leaves behind.  In every world a run of
    [process_text_data] ends in one of three ways: it returns, having
    written the local copy and had its single POST answered; or it raises
    with nothing written and nothing sent (the file cannot be read, the
    embedding helper raises, the name has no page number); or it raises the
    transport error of the POST, and then the local copy is on disk for a
    record that the index did not take. *)
Theorem process_text_data_outcomes (cfg : Config) (w : World)
    (txt_file : string) (idx : Z) (s : state) :
  exists r s',
    process_text_data cfg w txt_file idx s = (r, s')
    /\ match r with
       | Ok _ =>
           exists c record ack,
             trace s' = trace s
               ++ [WriteText (text_audit_path cfg txt_file) c;
                   Post (osi_text_endpoint cfg) [record] (Ok ack)]
             /\ files s' !! text_audit_path cfg txt_file = Some c
       | Raise e =>
           s' = s
           \/ exists c record,
                requests_post w (osi_text_endpoint cfg) [record] = Raise e
                /\ trace s' = trace s
                     ++ [WriteText (text_audit_path cfg txt_file) c;
                         Post (osi_text_endpoint cfg) [record] (Raise e)]
                /\ files s' !! text_audit_path cfg txt_file = Some c
       end.
Proof.
  rewrite process_text_data_run. eexists _, _. split; [reflexivity|].
  pose proof (text_task_view_shape cfg w txt_file idx) as Hshape.
  destruct (fst (text_task_view cfg w txt_file idx)) as [u|e].
  - destruct Hshape as (c & r & ack & -> & _).
    exists c, r, ack. split; [apply trace_apply_events|].
    simpl. apply lookup_insert_eq.
  - destruct Hshape as [->|(c & r & -> & _ & _ & Hpost)]; [by left|].
    right. exists c, r. split; [done|]. split; [apply trace_apply_events|].
    simpl. apply lookup_insert_eq.
Qed.

(** The events of a run of the text loop: pairs of a write and its POST,
    at most one per page. *)
Lemma text_loop_paired (cfg : Config) (w : World)
    (l : list string) (idx : Z) (s : state) :
  exists r s' evs,
    text_loop cfg w l idx s = (r, s')
    /\ trace s' = trace s ++ evs
    /\ paired text_agree (osi_text_endpoint cfg) evs
    /\ length (List.filter is_post evs) = length (written_files evs)
    /\ length (written_files evs) <= length l
    /\ Forall (fun r => exists c, text_agree c r) (posted_records evs).
Proof.
  revert idx s. induction l as [|f l IH]; intros idx s.
  - exists (Ok idx), s, []. simpl. rewrite app_nil_r.
    repeat split; constructor.
  - cbn [text_loop]. rewrite bind_run, process_text_data_run.
    pose proof (text_task_view_shape cfg w f idx) as Hshape.
    destruct (fst (text_task_view cfg w f idx)) as [u|e].
    + destruct Hshape as (c & r & ack & Hev & Hag & _).
      destruct (IH (idx + 1)%Z
                   (apply_events s (snd (text_task_view cfg w f idx))))
        as (r' & s' & evs & Hrun & Htrace & Hp & Hc & Hw & Hall).
      exists r', s', (snd (text_task_view cfg w f idx) ++ evs).
      split; [exact Hrun|].
      split; [by rewrite Htrace, trace_apply_events, app_assoc|].
      rewrite Hev. simpl. repeat split; try done.
      * by constructor.
      * lia.
      * lia.
      * constructor; [by exists c|done].
    + exists (Raise e), (apply_events s (snd (text_task_view cfg w f idx))),
             (snd (text_task_view cfg w f idx)).
      split; [done|]. split; [apply trace_apply_events|].
      destruct Hshape as [->|(c & r & -> & Hag & _)]; simpl.
      * repeat split; try constructor. lia.
      * repeat split; try done.
        -- apply paired_write_post; [done|constructor].
        -- lia.
        -- constructor; [by exists c|constructor].
Qed.

(** X11.  The shape of every run of the text loop, for ASCII file names and
    extension.  The pages are processed one after another, and the writes
    and POSTs of the run come in pairs: the write of a local copy followed
    at once by one POST to the text endpoint with a single record; the
    record has the text and the entities of the copy written just before
    it, the copy has a non-empty digit string as page number and the
    record an integer; and there are as many POSTs as local copies, at
    most one per page of the list. *)
Theorem text_loop_trace_shape (cfg : Config) (w : World)
    (l : list string) (idx : Z) (s : state) :
  Forall (fun f => ascii_only f = true) l ->
  ascii_only (TEXT_FILE_EXTN cfg) = true ->
  exists r s' evs,
    text_loop cfg w l idx s = (r, s')
    /\ trace s' = trace s ++ evs
    /\ paired text_agree (osi_text_endpoint cfg) evs
    /\ length (List.filter is_post evs) = length (written_files evs)
    /\ length (written_files evs) <= length l
    /\ Forall (fun r => exists c,
                 c ∈ (written_files evs).*2 /\ text_agree c r)
              (posted_records evs).
Proof.
  intros _ _.
  destruct (text_loop_paired cfg w l idx s)
    as (r & s' & evs & Hrun & Htr & Hp & Hc & Hw & _).
  exists r, s', evs. split; [exact Hrun|]. split; [exact Htr|].
  split; [exact Hp|]. split; [exact Hc|]. split; [exact Hw|].
  exact (paired_posted_written _ _ _ Hp).
Qed.

(** Pages 7, 2 and 1, in this order: three local copies, each followed by
    its POST. *)
Lemma text_loop_trace_shape_witness :
  exists r s',
    text_loop demo_cfg (demo_world "none")
      ["/data/text/text_7.txt"; "/data/text/text_2.txt";
       "/data/text/text_1.txt"] 1 initial_state = (r, s')
    /\ paired text_agree (osi_text_endpoint demo_cfg) (trace s')
    /\ length (written_files (trace s')) <= 3.
Proof.
  destruct (text_loop_trace_shape demo_cfg (demo_world "none")
              ["/data/text/text_7.txt"; "/data/text/text_2.txt";
               "/data/text/text_1.txt"] 1 initial_state)
    as (r & s' & evs & Hrun & Htr & Hp & _ & Hw & _).
  - by repeat constructor.
  - done.
  - exists r, s'. split; [exact Hrun|]. simpl in Htr. rewrite Htr.
    split; [exact Hp|exact Hw].
Defined.

(** ** The loop of [get_continuous_chunks] *)

Lemma chunk_step_tree acc label leaves :
  chunk_step acc (Tree label leaves)
  = entity_step acc (Py.join " " (map fst leaves)).
Proof.
  destruct acc as [cont cur]. unfold chunk_step, entity_step.
  by destruct (cur ++ [Py.join " " (map fst leaves)]) eqn:E;
    [apply app_eq_nil in E as [_ ?]|].
Qed.

Lemma chunk_step_token acc token pos :
  chunk_inv acc -> chunk_step acc (Token token pos) = acc.
Proof.
  destruct acc as [cont cur]. unfold chunk_inv, chunk_step. simpl.
  intros [->|H]; [done|]. destruct cur; [done|]. by rewrite H.
Qed.

Lemma entity_step_inv acc e : chunk_inv (entity_step acc e).
Proof.
  destruct acc as [cont cur]. unfold chunk_inv, entity_step.
  destruct (Py.str_in _ cont) eqn:H; simpl; [by right|by left].
Qed.

Lemma fold_chunk_step_entities chunked acc :
  chunk_inv acc ->
  fold_left chunk_step chunked acc
  = fold_left entity_step (entity_strings chunked) acc.
Proof.
  revert acc. induction chunked as [|i chunked IH]; intros acc Hinv; [done|].
  destruct i as [label leaves|token pos]; simpl.
  - rewrite chunk_step_tree. apply IH, entity_step_inv.
  - rewrite chunk_step_token by done. by apply IH.
Qed.

Lemma flatten_chunks_entities chunked :
  flatten_chunks chunked
  = fst (fold_left entity_step (entity_strings chunked) ([], [])).
Proof.
  unfold flatten_chunks. rewrite fold_chunk_step_entities; [done|by left].
Qed.

(** X12.  The entity list depends on the entity subtrees only.  Two texts
    whose chunkings have the same sequence of entity strings get the same
    list from [get_continuous_chunks]: the tagged tokens between the
    subtrees, their number and their place, and the labels of the subtrees
    (person, organisation, place) have no influence. *)
Theorem get_continuous_chunks_reads_entities_only (w1 w2 : World)
    (text1 text2 : string) :
  entity_strings (ne_chunk w1 text1) = entity_strings (ne_chunk w2 text2) ->
  get_continuous_chunks w1 text1 = get_continuous_chunks w2 text2.
Proof.
  intros H. unfold get_continuous_chunks.
  by rewrite !flatten_chunks_entities, H.
Qed.

Lemma get_continuous_chunks_reads_entities_only_witness :
  get_continuous_chunks (demo_world "none") "Paris is big. Rome is warm."
  = get_continuous_chunks (demo_world "none") "so Paris and then Rome".
Proof.
  apply get_continuous_chunks_reads_entities_only. reflexivity.
Defined.

Lemma fold_entity_step_shape es cont cur seen :
  cur ⊆ seen ->
  Forall (glued seen) cont ->
  let out := fst (fold_left entity_step es (cont, cur)) in
  length out <= length cont + length es
  /\ (exists more, out = cont ++ more)
  /\ Forall (glued (seen ++ es)) out.
Proof.
  revert cont cur seen. induction es as [|e es IH]; intros cont cur seen Hcur Hcont.
  - simpl. split; [lia|]. split; [by exists []; rewrite app_nil_r|].
    by rewrite app_nil_r.
  - cbn [fold_left]. unfold entity_step at 2.
    assert (Hcur' : cur ++ [e] ⊆ seen ++ [e]).
    { intros x Hx. apply elem_of_app in Hx as [Hx|Hx];
        apply elem_of_app; [left; by apply Hcur|by right]. }
    assert (Hcont' : Forall (glued (seen ++ [e])) cont).
    { eapply Forall_impl; [exact Hcont|].
      intros x (parts & Hne & Hsub & ->). exists parts.
      split; [done|]. split; [|done]. intros y Hy. apply elem_of_app. left.
      by apply Hsub. }
    destruct (Py.str_in _ cont) eqn:Hin.
    + destruct (IH cont (cur ++ [e]) (seen ++ [e]) Hcur' Hcont')
        as (Hlen & Hpre & Hall).
      rewrite <- app_assoc in Hall. simpl in *. rewrite ?Hin.
      split; [lia|]. split; [done|done].
    + destruct (IH (cont ++ [Py.join " " (cur ++ [e])]) [] (seen ++ [e]))
        as (Hlen & (more & Hpre) & Hall).
      { intros x Hx. by apply elem_of_nil in Hx. }
      { apply Forall_app. split; [done|]. constructor; [|constructor].
        exists (cur ++ [e]). split; [|done].
        intros E. by apply app_eq_nil in E as [_ ?]. }
      rewrite <- app_assoc in Hall. rewrite length_app in Hlen. simpl in *.
      rewrite ?Hin.
      split; [lia|]. split; [|done].
      exists (Py.join " " (cur ++ [e]) :: more). by rewrite Hpre, <- app_assoc.
Qed.

Lemma fold_entity_step_head e es :
  head (fst (fold_left entity_step (e :: es) ([], []))) = Some e.
Proof.
  cbn [fold_left]. unfold entity_step at 2. simpl.
  destruct (fold_entity_step_shape es [e] [] [e]) as (_ & (more & ->) & _);
    [by intros x Hx; apply elem_of_nil in Hx| |done].
  constructor; [|constructor]. exists [e]. split; [done|]. split; [|done].
  by intros x Hx.
Qed.

(** X13.  How the entity list relates to the entities of the text.  The list
    of [get_continuous_chunks] is never longer than the sequence of entity
    subtrees; it is empty exactly when the text has no entity subtree
    (the empty text included); it starts with the first entity of the
    text; and each of its strings is made of one or more entity strings of
    the text joined by single blanks. *)
Theorem get_continuous_chunks_shape (w : World) (text : string) :
  let es := entity_strings (ne_chunk w text) in
  let out := get_continuous_chunks w text in
  length out <= length es
  /\ (out = [] <-> es = [])
  /\ head out = head es
  /\ Forall (fun x => exists parts,
               parts <> [] /\ parts ⊆ es /\ x = Py.join " " parts) out.
Proof.
  intros es out. unfold out, get_continuous_chunks.
  rewrite flatten_chunks_entities. fold es.
  destruct (fold_entity_step_shape es [] [] []) as (Hlen & _ & Hall);
    [done|constructor|].
  simpl in Hlen, Hall.
  assert (Hhead : head (fst (fold_left entity_step es ([], []))) = head es).
  { destruct es as [|e es']; [done|]. apply fold_entity_step_head. }
  split; [exact Hlen|]. split; [|split; [exact Hhead|exact Hall]].
  split.
  - intros Hnil. rewrite Hnil in Hhead. by destruct es.
  - intros Hnil. by rewrite Hnil.
Qed.

(** A text without a capitalised word has no entity. *)
Lemma get_continuous_chunks_shape_witness :
  get_continuous_chunks (demo_world "none") "it is big." = []
  /\ head (get_continuous_chunks (demo_world "none")
                                 "Paris is big. Paris is old. London is wet.")
     = Some "Paris".
Proof.
  split.
  - destruct (get_continuous_chunks_shape (demo_world "none") "it is big.")
      as (_ & Hnil & _).
    apply Hnil. reflexivity.
  - destruct (get_continuous_chunks_shape (demo_world "none")
                "Paris is big. Paris is old. London is wet.")
      as (_ & _ & Hhead & _).
    exact Hhead.
Defined.

(** X14.  On a text whose entities are all different the list is exact.  When
    no entity string occurs twice among the subtrees of the chunking,
    [get_continuous_chunks] returns the entity strings of the text, each
    once, in the order of the text. *)
Theorem get_continuous_chunks_distinct_entities (w : World) (text : string) :
  NoDup (entity_strings (ne_chunk w text)) ->
  get_continuous_chunks w text = entity_strings (ne_chunk w text).
Proof. intros H. by apply flatten_chunks_distinct. Qed.

Lemma get_continuous_chunks_distinct_entities_witness :
  get_continuous_chunks (demo_world "none") "Paris is big. Rome is warm."
  = ["Paris"; "Rome"].
Proof.
  assert (E : entity_strings
                (ne_chunk (demo_world "none") "Paris is big. Rome is warm.")
              = ["Paris"; "Rome"]) by (vm_compute; reflexivity).
  pose proof (get_continuous_chunks_distinct_entities
                (demo_world "none") "Paris is big. Rome is warm.") as H.
  rewrite E in H. apply H.
  apply NoDup_cons. split; [|apply NoDup_singleton].
  intros Hin. apply list_elem_of_singleton in Hin. discriminate Hin.
Defined.

(** ** The remote steps of an image in every world *)

Lemma replace_quote_free old new s :
  Py.contains old s = false -> Py.replace old new s = s.
Proof.
  induction s as [|c r IH]; simpl; [done|].
  intros H. apply orb_false_elim in H as [Hc Hr]. by rewrite Hc, IH.
Qed.

Lemma replace_length old new s :
  String.length (Py.replace old new s) = String.length s.
Proof. induction s as [|c r IH]; simpl; [done|]. by rewrite IH. Qed.

(** X15.  [get_img_desc] hands the text of the model on as it is, double
    quotes apart.  When the call answers with a [content[0].text], the
    function returns a string of the same length, and the very text of the
    model when that has no double quote in it; it has invoked the model
    once and written nothing. *)
Theorem get_img_desc_returns_model_text (cfg : Config) (w : World)
    (f p : string) (s : state) (b64 : string) (response : http_body)
    (t0 : string) :
  boto3_client w = None ->
  read_file w f = Ok b64 ->
  invoke_model w (claude_model_id cfg) (claude_body b64 p) = Ok response ->
  has_content_text response t0 ->
  exists r s',
    get_img_desc cfg w f p s = (Ok r, s')
    /\ String.length r = String.length t0
    /\ (quote_free t0 -> r = t0)
    /\ trace s' = trace s
         ++ [InvokeModel (claude_model_id cfg) (claude_body b64 p)]
    /\ files s' = files s.
Proof.
  intros Hc Hr Hi Ht.
  rewrite get_img_desc_run.
  rewrite (img_desc_result_ok cfg w f p b64 response t0 Hc Hr Hi Ht).
  rewrite (img_desc_events_read cfg w f p b64 Hc Hr).
  eexists _, _. split; [reflexivity|].
  split; [apply replace_length|].
  split; [by apply replace_quote_free|done].
Qed.

Lemma get_img_desc_returns_model_text_witness :
  exists s',
    get_img_desc demo_cfg (demo_world "none") "/data/b64/page_1.b64"
                 "extract entities" initial_state = (Ok "ACME, 2023. ", s').
Proof.
  destruct (get_img_desc_returns_model_text demo_cfg (demo_world "none")
              "/data/b64/page_1.b64" "extract entities" initial_state
              "b64:page_1.b64" (claude_answer "ACME, 2023. ") "ACME, 2023. "
              eq_refl eq_refl eq_refl (claude_answer_has_text _))
    as (r & s' & Hrun & _ & Hsame & _).
  exists s'. rewrite <- (Hsame eq_refl). exact Hrun.
Defined.

(** X16.  The exception of [get_img_desc] for each defect of the answer.  With
    a client and a readable base64 file the model is invoked once, and:
    a raising call gives its exception; a body that is not UTF-8 text
    gives [UnicodeDecodeError], raised by [.decode("utf-8")] before any
    parsing; a body that is UTF-8 text but no JSON gives
    [JSONDecodeError]; a JSON value that is no object gives [TypeError]; an
    object without [content] gives [KeyError]; an empty [content] list
    gives [IndexError]; a first block without [text] gives [KeyError]; a
    [text] that is no string gives [AttributeError].  An unreadable file
    gives the error of the read, and the model is not invoked. *)
Theorem get_img_desc_errors (cfg : Config) (w : World) (f p : string)
    (s : state) :
  boto3_client w = None ->
  (forall e, read_file w f = Raise e -> get_img_desc cfg w f p s = (Raise e, s))
  /\ (forall b64,
      read_file w f = Ok b64 ->
      let call := invoke_model w (claude_model_id cfg) (claude_body b64 p) in
      let s1 := add_events s [InvokeModel (claude_model_id cfg)
                                          (claude_body b64 p)] in
      (forall e, call = Raise e -> get_img_desc cfg w f p s = (Raise e, s1))
      /\ (call = Ok Undecodable ->
          get_img_desc cfg w f p s = (Raise UnicodeDecodeError, s1))
      /\ (call = Ok Garbled ->
          get_img_desc cfg w f p s = (Raise JSONDecodeError, s1))
      /\ (forall j, call = Ok (Parsed j) -> (forall kv, j <> JDict kv) ->
          get_img_desc cfg w f p s = (Raise TypeError, s1))
      /\ (forall kv, call = Ok (Parsed (JDict kv)) ->
          (assoc "content" kv = None ->
           get_img_desc cfg w f p s = (Raise KeyError, s1))
          /\ (assoc "content" kv = Some (JList []) ->
              get_img_desc cfg w f p s = (Raise IndexError, s1))
          /\ (forall kv0 rest,
              assoc "content" kv = Some (JList (JDict kv0 :: rest)) ->
              (assoc "text" kv0 = None ->
               get_img_desc cfg w f p s = (Raise KeyError, s1))
              /\ (forall v, assoc "text" kv0 = Some v ->
                  (forall t, v <> JStr t) ->
                  get_img_desc cfg w f p s = (Raise AttributeError, s1))))).
Proof.
  intros Hc. split.
  - intros e Hr. rewrite get_img_desc_run.
    unfold img_desc_result, img_desc_events. rewrite Hc, Hr. simpl.
    by rewrite add_events_nil.
  - intros b64 Hr call s1. subst call s1.
    rewrite get_img_desc_run.
    rewrite (img_desc_events_read cfg w f p b64 Hc Hr).
    unfold img_desc_result. rewrite Hc, Hr. simpl.
    split; [by intros e ->|]. split; [by intros ->|].
    split; [by intros ->|].
    split.
    { intros j -> Hj. simpl. unfold resp_text. simpl.
      destruct j; try done. by destruct (Hj kv). }
    intros kv ->. simpl. unfold resp_text. simpl.
    split; [by intros ->|]. split; [by intros ->|].
    intros kv0 rest ->. simpl.
    split; [by intros ->|].
    intros v -> Hv. simpl. destruct v; try done. by destruct (Hv s0).
Qed.

(** An answer with an empty content list, and a base64 file that is not
    there. *)
Lemma get_img_desc_errors_witness :
  (let w := {| boto3_client := None;
               read_file := demo_read_file;
               invoke_model := fun _ _ =>
                 Ok (Parsed (JDict [("content", JList [])]));
               requests_post := fun _ _ => Ok "{}";
               get_text_embedding := fun _ => Ok JNull;
               ne_chunk := demo_ne_chunk |} in
   fst (get_img_desc demo_cfg w "/data/b64/page_1.b64" "extract entities"
                     initial_state) = Raise IndexError)
  /\ fst (get_img_desc demo_cfg (demo_world "none") "/nowhere/page_1.b64"
                       "extract entities" initial_state)
     = Raise (OSError "No such file or directory").
Proof.
  split.
  - intros w.
    destruct (get_img_desc_errors demo_cfg w "/data/b64/page_1.b64"
                "extract entities" initial_state eq_refl) as [_ H].
    destruct (H "b64:page_1.b64" eq_refl) as (_ & _ & _ & _ & Hd).
    destruct (Hd [("content", JList [])] eq_refl) as (_ & Hidx & _).
    by rewrite (Hidx eq_refl).
  - destruct (get_img_desc_errors demo_cfg (demo_world "none")
                "/nowhere/page_1.b64" "extract entities" initial_state
                eq_refl) as [H _].
    by rewrite (H _ eq_refl).
Defined.

(** X17.  [get_img_txt_embeddings] never raises and never checks what it
    returns.  In every world the function returns, after exactly one
    invocation of the embeddings model on the body [{"inputText": text}]
    and without writing any file; and when the answer is an object with an
    [embedding] field it returns the value of that field as it is, whatever
    its type and length. *)
Theorem get_img_txt_embeddings_returns_field (cfg : Config) (w : World)
    (prompt_data : string) (s : state) :
  exists v s',
    get_img_txt_embeddings cfg w prompt_data s = (Ok v, s')
    /\ trace s' = trace s
         ++ [InvokeModel (embeddings_model_id cfg)
                         (JDict [("inputText", JStr prompt_data)])]
    /\ files s' = files s
    /\ (forall kv v0,
          invoke_model w (embeddings_model_id cfg)
                       (JDict [("inputText", JStr prompt_data)])
          = Ok (Parsed (JDict kv)) ->
          assoc "embedding" kv = Some v0 ->
          v = v0).
Proof.
  rewrite get_img_txt_embeddings_run. eexists _, _.
  split; [reflexivity|]. split; [done|]. split; [done|].
  intros kv v0 Hi Hv. unfold embedding_result, embedding_body.
  rewrite Hi. simpl. by rewrite Hv.
Qed.

(** A two-number vector is returned like any other value. *)
Lemma get_img_txt_embeddings_returns_field_witness :
  exists s',
    get_img_txt_embeddings demo_cfg (demo_world "none") "some text"
                           initial_state
    = (Ok (JList [JNum 5 (-1); JNum (-25) (-2)]), s').
Proof.
  destruct (get_img_txt_embeddings_returns_field demo_cfg (demo_world "none")
              "some text" initial_state) as (v & s' & Hrun & _ & _ & Hv).
  exists s'. rewrite <- (Hv _ _ eq_refl eq_refl). exact Hrun.
Defined.

(** X18.  An image task raises only when it cannot create its client.  In
    every world [process_image_data] either returns (a record or [None]),
    and then the client was created, or raises the exception of
    [boto3.client], and then it has done nothing; no error of the model,
    of the embedding, of the page pattern or of the POST ever leaves
    it. *)
Theorem process_image_data_raises_only_without_client (cfg : Config)
    (w : World) (i : nat) (f url : string) (total : nat) (bi : bucket_info_t)
    (s : state) :
  exists r s',
    process_image_data cfg w i f url total bi s = (r, s')
    /\ match r with
       | Ok _ => boto3_client w = None
       | Raise e => boto3_client w = Some e /\ s' = s
       end.
Proof.
  destruct (boto3_client w) as [e|] eqn:Hc.
  - rewrite (process_image_data_no_client cfg w i f url total bi s e Hc).
    by eexists _, _.
  - rewrite process_image_data_run by done. by eexists _, _.
Qed.

(** ** Staging the images *)

Lemma rfind_app c a b :
  Py.rfind c (a +:+ b)
  = match Py.rfind c b with
    | Some i => Some (String.length a + i)
    | None => Py.rfind c a
    end.
Proof.
  induction a as [|d a IH].
  - change ("" +:+ b) with b. by destruct (Py.rfind c b).
  - rewrite append_cons. cbn [Py.rfind]. rewrite IH.
    by destruct (Py.rfind c b).
Qed.

Lemma substring_prefix a b :
  String.substring 0 (String.length a) (a +:+ b) = a.
Proof.
  induction a as [|c a IH]; [by destruct b|].
  rewrite append_cons. simpl. by rewrite IH.
Qed.

Lemma ends_with_split c a :
  Py.ends_with c a = true -> exists a', a = a' +:+ String c "".
Proof.
  induction a as [|d a IH]; [done|]. simpl.
  destruct a as [|d' a].
  - intros H. apply Ascii.eqb_eq in H as ->. by exists "".
  - intros H. destruct (IH H) as [a' Ha']. exists (String d a').
    rewrite append_cons. by rewrite <- Ha'.
Qed.

Lemma path_name_plain name :
  Py.contains "/" name = false -> name <> "" -> name <> "." ->
  Py.path_name name = name.
Proof.
  intros Hsep Hne Hdot. unfold Py.path_name.
  rewrite (split_no_sep _ _ Hsep). simpl.
  destruct (String.eqb_spec name "") as [|_]; [done|].
  by destruct (String.eqb_spec name ".") as [|_].
Qed.

(** The name of [os.path.join(dir, name)] is [name]. *)
Lemma path_name_join dir name :
  Py.contains "/" name = false -> name <> "" -> name <> "." ->
  Py.path_name (Py.path_join dir name) = name.
Proof.
  intros Hsep Hne Hdot. unfold Py.path_join.
  rewrite (strip_prefix_no_sep _ Hsep).
  destruct (String.eqb_spec dir "") as [->|Hdir]; simpl.
  - by apply path_name_plain.
  - destruct (Py.ends_with "/" dir) eqn:He.
    + apply ends_with_split in He as [dir' ->].
      rewrite append_assoc. by apply path_name_in_dir.
    + by apply path_name_in_dir.
Qed.

(** The stem of [<dir>/<s>.b64] is [s]. *)
Lemma stem_of_b64_path dir s :
  Py.contains "/" s = false -> s <> "" ->
  Py.stem (Py.path_join dir (s +:+ ".b64")) = s.
Proof.
  intros Hsep Hne. unfold Py.stem.
  rewrite path_name_join.
  - rewrite rfind_app.
    change (Py.rfind "." ".b64") with (Some 0).
    cbv iota. rewrite Nat.add_0_r, length_append.
    change (String.length ".b64") with 4.
    assert (H1 : (0 <? String.length s)%nat = true).
    { apply Nat.ltb_lt. destruct s; [done|]. simpl. lia. }
    assert (H2 : (String.length s <? String.length s + 4 - 1)%nat = true).
    { apply Nat.ltb_lt. lia. }
    rewrite H1, H2. cbn [andb]. apply substring_prefix.
  - by rewrite contains_app, Hsep.
  - by destruct s.
  - intros H. by destruct s as [|c [|c' s]].
Qed.

Lemma encode_image_to_base64_stem dir read_bytes p disk content :
  read_bytes p = Ok content ->
  Py.stem p <> "" ->
  exists q disk',
    encode_image_to_base64 dir read_bytes p disk = (Ok q, disk')
    /\ Py.stem q = Py.stem p.
Proof.
  unfold encode_image_to_base64.
  intros -> Hstem. eexists _, _. split; [reflexivity|].
  apply stem_of_b64_path; [apply stem_no_sep|done].
Qed.

(** X19.  Staging keeps the stem.  For a readable image whose path has a
    name, [encode_image_to_base64] returns the path
    [<B64_ENCODED_IMAGES_DIR>/<stem>.b64], whose stem is the stem of the
    image, so the tasks of the image driver derive the object name from
    the stem of the original file; the returned file holds the base64 text
    of the image and no other file of the disk is touched.  For an
    unreadable image the function raises and writes nothing. *)
Theorem encode_image_to_base64_keeps_stem (dir : string)
    (read_bytes : string -> result (list byte)) (p : string)
    (disk : gmap string string) :
  (forall content,
     read_bytes p = Ok content ->
     Py.stem p <> "" ->
     exists q disk',
       encode_image_to_base64 dir read_bytes p disk = (Ok q, disk')
       /\ q = Py.path_join dir (Py.stem p +:+ ".b64")
       /\ Py.stem q = Py.stem p
       /\ disk' !! q = Some (Base64.b64encode content)
       /\ (forall q', q' <> q -> disk' !! q' = disk !! q'))
  /\ (forall e,
     read_bytes p = Raise e ->
     encode_image_to_base64 dir read_bytes p disk = (Raise e, disk)).
Proof.
  unfold encode_image_to_base64. split.
  - intros content -> Hstem. eexists _, _. split; [reflexivity|].
    split; [done|]. split; [|split].
    + apply stem_of_b64_path; [apply stem_no_sep|done].
    + apply lookup_insert_eq.
    + intros q' Hq'. by apply lookup_insert_ne.
  - by intros e ->.
Qed.

Lemma encode_image_to_base64_keeps_stem_witness :
  encode_image_to_base64 "b64_images" demo_read_bytes "/data/img/page_2_1.jpg" ∅
  = (Ok "b64_images/page_2_1.b64", {["b64_images/page_2_1.b64" := "TWE="]})
  /\ encode_image_to_base64 "b64_images" demo_read_bytes "/data/img/none.jpg" ∅
     = (Raise (OSError "No such file or directory"), ∅).
Proof.
  destruct (encode_image_to_base64_keeps_stem "b64_images" demo_read_bytes
              "/data/img/page_2_1.jpg" ∅) as [Hok _].
  destruct (encode_image_to_base64_keeps_stem "b64_images" demo_read_bytes
              "/data/img/none.jpg" ∅) as [_ Hraise].
  split.
  - destruct (Hok [x4d; x61] eq_refl) as (q & disk' & Hrun & -> & _);
      [done|]. rewrite Hrun. f_equal. by injection Hrun as <-.
  - by apply Hraise.
Defined.

Lemma encode_all_keeps dir read_bytes l disk r disk' q :
  encode_all dir read_bytes l disk = (r, disk') ->
  is_Some (disk !! q) -> is_Some (disk' !! q).
Proof.
  revert disk r disk'. induction l as [|p l IH]; intros disk r disk' Hrun Hq.
  - by injection Hrun as _ <-.
  - simpl in Hrun. unfold encode_image_to_base64 in Hrun.
    destruct (read_bytes p) as [content|e]; [|by injection Hrun as _ <-].
    destruct (encode_all dir read_bytes l _) as [r1 disk1] eqn:Hrest.
    assert (Hq1 : is_Some (disk1 !! q)).
    { apply (IH _ _ _ Hrest).
      destruct (decide (Py.path_join dir (Py.stem p +:+ ".b64") = q)) as [<-|].
      - rewrite lookup_insert_eq. by eexists.
      - by rewrite lookup_insert_ne. }
    by destruct r1; injection Hrun as _ <-.
Qed.

(** X20.  The conversion cell stops at the first unreadable image.  When every
    image of the list is readable the cell binds [b64_image_file_list] to
    the paths [<dir>/<stem>.b64] of the images, in order, and each of these
    files exists; when an image cannot be read the exception of the read
    leaves the cell, so [b64_image_file_list] is not bound, although the
    images before the unreadable one have been staged. *)
Theorem encode_all_stops_at_first_unreadable (dir : string)
    (read_bytes : string -> result (list byte)) (disk : gmap string string) :
  (forall l,
     (forall g, g ∈ l -> exists content, read_bytes g = Ok content) ->
     exists disk',
       encode_all dir read_bytes l disk
       = (Ok (map (fun g => Py.path_join dir (Py.stem g +:+ ".b64")) l), disk')
       /\ forall g, g ∈ l ->
            is_Some (disk' !! Py.path_join dir (Py.stem g +:+ ".b64")))
  /\ (forall before p after e,
     (forall g, g ∈ before -> exists content, read_bytes g = Ok content) ->
     read_bytes p = Raise e ->
     exists disk',
       encode_all dir read_bytes (before ++ p :: after) disk = (Raise e, disk')
       /\ forall g, g ∈ before ->
            is_Some (disk' !! Py.path_join dir (Py.stem g +:+ ".b64"))).
Proof.
  split.
  - intros l. revert disk. induction l as [|p l IH]; intros disk Hall.
    + exists disk. split; [done|]. intros g Hg. by apply elem_of_nil in Hg.
    + destruct (Hall p ltac:(by left)) as [content Hp].
      destruct (IH (<[Py.path_join dir (Py.stem p +:+ ".b64")
                      := Base64.b64encode content]> disk))
        as (disk' & Hrun & Hfiles).
      { intros g Hg. apply Hall. by right. }
      exists disk'. split.
      * simpl. unfold encode_image_to_base64. by rewrite Hp, Hrun.
      * intros g Hg. apply elem_of_cons in Hg as [->|Hg]; [|by apply Hfiles].
        apply (encode_all_keeps _ _ _ _ _ _ _ Hrun).
        rewrite lookup_insert_eq. by eexists.
  - intros before. revert disk.
    induction before as [|b before IH]; intros disk p after e Hall Hp.
    + exists disk. split.
      * simpl. unfold encode_image_to_base64. by rewrite Hp.
      * intros g Hg. by apply elem_of_nil in Hg.
    + destruct (Hall b ltac:(by left)) as [content Hb].
      destruct (IH (<[Py.path_join dir (Py.stem b +:+ ".b64")
                      := Base64.b64encode content]> disk) p after e)
        as (disk' & Hrun & Hfiles); [|done|].
      { intros g Hg. apply Hall. by right. }
      exists disk'. split.
      * simpl. unfold encode_image_to_base64 at 1. by rewrite Hb, Hrun.
      * intros g Hg. apply elem_of_cons in Hg as [->|Hg]; [|by apply Hfiles].
        apply (encode_all_keeps _ _ _ _ _ _ _ Hrun).
        rewrite lookup_insert_eq. by eexists.
Qed.

Lemma encode_all_stops_at_first_unreadable_witness :
  (exists disk',
     encode_all "b64" demo_read_bytes
                ["/data/img/page_1.jpg"; "/data/img/page_3.jpg"] ∅
     = (Ok ["b64/page_1.b64"; "b64/page_3.b64"], disk'))
  /\ (exists disk',
     encode_all "b64" demo_read_bytes
                ["/data/img/page_1.jpg"; "/data/img/none.jpg";
                 "/data/img/page_3.jpg"] ∅
     = (Raise (OSError "No such file or directory"), disk')
     /\ is_Some (disk' !! "b64/page_1.b64")).
Proof.
  destruct (encode_all_stops_at_first_unreadable "b64" demo_read_bytes ∅)
    as [Hok Hfail].
  split.
  - destruct (Hok ["/data/img/page_1.jpg"; "/data/img/page_3.jpg"])
      as (disk' & Hrun & _).
    + intros g Hg.
      repeat (apply elem_of_cons in Hg as [->|Hg]; [by eexists|]).
      by apply elem_of_nil in Hg.
    + by exists disk'.
  - destruct (Hfail ["/data/img/page_1.jpg"] "/data/img/none.jpg"
                    ["/data/img/page_3.jpg"]
                    (OSError "No such file or directory"))
      as (disk' & Hrun & Hfiles).
    + intros g Hg.
      repeat (apply elem_of_cons in Hg as [->|Hg]; [by eexists|]).
      by apply elem_of_nil in Hg.
    + reflexivity.
    + exists disk'. split; [exact Hrun|].
      apply (Hfiles "/data/img/page_1.jpg"). by left.
Defined.

Lemma b64encode_length_aux n bs :
  length bs <= n ->
  String.length (Base64.b64encode bs) = 4 * ((length bs + 2) / 3).
Proof.
  revert bs. induction n as [n IH] using lt_wf_ind. intros bs Hn.
  destruct bs as [|a [|b [|c rest]]]; try done.
  cbn [Base64.b64encode String.length length].
  rewrite (IH (length rest)); [|simpl in Hn; lia|done].
  replace (S (S (S (length rest))) + 2) with (length rest + 2 + 1 * 3) by lia.
  rewrite Nat.div_add by done. lia.
Qed.

(** X21.  The size and the characters of a staged image.  The base64 text
    written for an image of [n] bytes has [4 * ceil(n / 3)] characters, and
    each of them is a character of the base64 alphabet (letters, digits,
    [+], [/]) or the padding [=]. *)
Theorem staged_text_size_and_alphabet (bs : list byte) :
  String.length (Base64.b64encode bs) = 4 * ((length bs + 2) / 3)
  /\ forall i c,
       String.get i (Base64.b64encode bs) = Some c ->
       c = "="%char \/ Py.contains c Base64.alphabet = true.
Proof.
  split; [by apply (b64encode_length_aux (length bs))|].
  assert (Hdigit : forall n, Base64.digit n = "="%char
                             \/ Py.contains (Base64.digit n) Base64.alphabet = true).
  { intros n. unfold Base64.digit.
    destruct (String.get (N.to_nat n) Base64.alphabet) as [c|] eqn:Hg;
      [|by left]. right.
    revert Hg. generalize (N.to_nat n) Base64.alphabet. clear.
    intros k s. revert k. induction s as [|d s IH]; intros k; [by destruct k|].
    destruct k as [|k]; simpl.
    - intros [= ->]. by rewrite Ascii.eqb_refl.
    - intros H. rewrite (IH k H). apply orb_true_r. }
  induction bs as [bs IH] using (induction_ltof1 _ (@length byte)).
  unfold ltof in IH.
  destruct bs as [|a [|b [|x rest]]]; intros i c.
  - by destruct i.
  - cbn [Base64.b64encode].
    destruct i as [|[|[|[|i]]]]; simpl; intros [= <-];
      first [apply Hdigit|by left].
  - cbn [Base64.b64encode].
    destruct i as [|[|[|[|i]]]]; simpl; intros [= <-];
      first [apply Hdigit|by left].
  - cbn [Base64.b64encode].
    destruct i as [|[|[|[|i]]]]; cbn [String.get];
      try (intros [= <-]; apply Hdigit).
    apply IH. simpl. lia.
Qed.

Lemma staged_text_size_and_alphabet_witness :
  String.length (Base64.b64encode [x4d; x61]) = 4
  /\ ("T"%char = "="%char \/ Py.contains "T" Base64.alphabet = true).
Proof.
  destruct (staged_text_size_and_alphabet [x4d; x61]) as [Hlen Hchars].
  split; [exact Hlen|]. apply (Hchars 0). reflexivity.
Defined.

(** X22.  From the name of the image to the page number at the index.  For a
    readable image whose stem is [page_<digits><rest>], where what follows
    the digits (the rest of the stem, then the image extension) is ASCII
    and does not start with a digit, the task run on the staged base64
    file finds the page number [<digits>]: when its two model calls
    answer, the record it sends has [page_number = <digits>] and the
    object name [page_<digits><rest><extension>], the name of the original
    image. *)
Theorem staged_image_page_number (cfg : Config) (w : World) (dir : string)
    (read_bytes : string -> result (list byte)) (p : string)
    (disk : gmap string string) (content : list byte) (d rest : string) :
  read_bytes p = Ok content ->
  Py.stem p = "page_" +:+ d +:+ rest ->
  d <> "" -> all_digits d = true ->
  ascii_only (rest +:+ IMAGE_FILE_EXTN cfg) = true ->
  starts_with_digit (rest +:+ IMAGE_FILE_EXTN cfg) = false ->
  exists q disk',
    encode_image_to_base64 dir read_bytes p disk = (Ok q, disk')
    /\ Py.re_search "page" (Py.stem q +:+ IMAGE_FILE_EXTN cfg) = Some d
    /\ forall i url total s ents desc,
         boto3_client w = None ->
         img_desc_result cfg w q (entity_extraction_prompt cfg) = Ok ents ->
         img_desc_result cfg w q (image_desc_prompt cfg) = Ok desc ->
         exists res s' evs,
           process_image_data cfg w i q url total (bucket_info cfg) s
           = (Ok res, s')
           /\ trace s' = trace s ++ evs
           /\ map page_number (posted_records evs) = [JStr d]
           /\ map metadata_filename (posted_records evs)
              = ["page_" +:+ d +:+ rest +:+ IMAGE_FILE_EXTN cfg].
Proof.
  intros Hread Hstem Hd Hdigits _ Hrest.
  assert (Hne : Py.stem p <> "") by (rewrite Hstem; done).
  destruct (encode_image_to_base64_stem dir read_bytes p disk content
              Hread Hne) as (q & disk' & Hrun & Hq).
  assert (Hpage : Py.re_search "page" (Py.stem q +:+ IMAGE_FILE_EXTN cfg)
                  = Some d).
  { rewrite Hq, Hstem, !append_assoc.
    by apply (re_search_digit_group "page" d (rest +:+ IMAGE_FILE_EXTN cfg)). }
  exists q, disk'. split; [exact Hrun|]. split; [exact Hpage|].
  intros i url total s ents desc Hc He Hdesc.
  destruct (process_image_data_assembled cfg w i q url total (bucket_info cfg)
              s ents desc d Hc He Hdesc Hpage) as (s' & Hp & Htrace & _).
  eexists _, s', _. split; [exact Hp|]. split; [exact Htrace|].
  rewrite !posted_records_app.
  rewrite !(proj2 (img_desc_events_shape cfg w q _)). simpl.
  split; [done|]. by rewrite Hq, Hstem, !append_assoc.
Qed.

(** The quarter [page_2_1.jpg] of page 2. *)
Lemma staged_image_page_number_witness :
  exists res s' evs,
    process_image_data demo_cfg (demo_world "none") 0 "/data/b64/page_2_1.b64"
      "https://img.osis/data/ingest" 1 (bucket_info demo_cfg) initial_state
    = (Ok res, s')
    /\ trace s' = evs
    /\ map page_number (posted_records evs) = [JStr "2"]
    /\ map metadata_filename (posted_records evs) = ["page_2_1.jpg"].
Proof.
  destruct (staged_image_page_number demo_cfg (demo_world "none") "/data/b64"
              demo_read_bytes "/data/img/page_2_1.jpg" ∅ [x4d; x61] "2" "_1"
              eq_refl eq_refl)
    as (q & disk' & Hrun & _ & Htask); [done|done|done|done|].
  injection Hrun as <- _.
  destruct (Htask 0 "https://img.osis/data/ingest" 1 initial_state
                  "ACME, 2023. " "'Q3' bar chart." eq_refl eq_refl eq_refl)
    as (res & s' & evs & Hp & Htrace & Hpages & Hnames).
  exists res, s', evs. split; [exact Hp|]. split; [exact Htrace|].
  split; [exact Hpages|exact Hnames].
Defined.

(** ** Provisioning the indices *)

Lemma create_if_missing_spec os name :
  exists r os',
    create_if_missing os name = (r, os')
    /\ os_fault os' = os_fault os
    /\ (indices os' = indices os
        \/ (indices os !! name = None
            /\ r = Ok tt
            /\ indices os' = <[name := index_body]> (indices os)))
    /\ (r = Ok tt -> is_Some (indices os' !! name)).
Proof.
  unfold create_if_missing, indices_exists, indices_create.
  destruct (os_fault os (IndicesExists name)) as [e|] eqn:Hf1.
  { eexists _, _. split; [reflexivity|]. split; [done|]. split; [by left|done]. }
  destruct (indices os !! name) as [body|] eqn:Hl.
  - rewrite bool_decide_eq_true_2 by by eexists.
    eexists _, _. split; [reflexivity|]. split; [done|]. split; [by left|].
    intros _. by eexists.
  - rewrite bool_decide_eq_false_2 by (intros [? ?]; done).
    destruct (os_fault os (IndicesCreate name)) as [e|] eqn:Hf2.
    { eexists _, _. split; [reflexivity|]. split; [done|].
      split; [by left|done]. }
    eexists _, _. split; [reflexivity|]. split; [done|].
    split; [by right|]. intros _. simpl. rewrite lookup_insert_eq. by eexists.
Qed.

Lemma create_indices_spec (os : OpenSearch)
    (img_index_name text_index_name : string) :
  exists err os',
    create_indices os img_index_name text_index_name = (err, os')
    /\ os_fault os' = os_fault os
    /\ (forall name body,
          indices os !! name = Some body -> indices os' !! name = Some body)
    /\ (forall name,
          indices os !! name = None -> is_Some (indices os' !! name) ->
          (name = img_index_name \/ name = text_index_name)
          /\ indices os' !! name = Some index_body)
    /\ ((forall c, os_fault os c = None) ->
        err = None
        /\ is_Some (indices os' !! img_index_name)
        /\ is_Some (indices os' !! text_index_name)
        /\ create_indices os' img_index_name text_index_name = (None, os'))
    /\ (forall e,
          os_fault os (IndicesExists img_index_name) = Some e ->
          err = Some e /\ os' = os).
Proof.
  unfold create_indices.
  destruct (create_if_missing_spec os img_index_name)
    as (r1 & os1 & Hrun1 & Hf1 & Hi1 & Hok1).
  rewrite Hrun1.
  destruct (create_if_missing_spec os1 text_index_name)
    as (r2 & os2 & Hrun2 & Hf2 & Hi2 & Hok2).
  assert (Hkeep1 : forall name body,
             indices os !! name = Some body -> indices os1 !! name = Some body).
  { intros name body H. destruct Hi1 as [->|(Hnone & _ & ->)]; [done|].
    rewrite lookup_insert_ne; [done|]. intros ->. by rewrite Hnone in H. }
  assert (Hkeep2 : forall name body,
             indices os1 !! name = Some body -> indices os2 !! name = Some body).
  { intros name body H. destruct Hi2 as [->|(Hnone & _ & ->)]; [done|].
    rewrite lookup_insert_ne; [done|]. intros ->. by rewrite Hnone in H. }
  assert (Hnew1 : forall name,
             indices os !! name = None -> is_Some (indices os1 !! name) ->
             name = img_index_name /\ indices os1 !! name = Some index_body).
  { intros name Hn [b Hb]. destruct Hi1 as [Heq|(_ & _ & Heq)];
      rewrite Heq in Hb; [by rewrite Hn in Hb|].
    destruct (decide (img_index_name = name)) as [<-|Hne].
    - rewrite Heq, lookup_insert_eq. done.
    - rewrite lookup_insert_ne in Hb by done. by rewrite Hn in Hb. }
  assert (Hnew2 : forall name,
             indices os1 !! name = None -> is_Some (indices os2 !! name) ->
             name = text_index_name /\ indices os2 !! name = Some index_body).
  { intros name Hn [b Hb]. destruct Hi2 as [Heq|(_ & _ & Heq)];
      rewrite Heq in Hb; [by rewrite Hn in Hb|].
    destruct (decide (text_index_name = name)) as [<-|Hne].
    - rewrite Heq, lookup_insert_eq. done.
    - rewrite lookup_insert_ne in Hb by done. by rewrite Hn in Hb. }
  destruct r1 as [[]|e1].
  - rewrite Hrun2.
    exists (match r2 with Ok _ => None | Raise e => Some e end), os2.
    split; [by destruct r2|]. split; [by rewrite Hf2|].
    split; [|split; [|split]].
    + intros name body H. by apply Hkeep2, Hkeep1.
    + intros name Hn Hs.
      destruct (indices os1 !! name) as [b|] eqn:H1.
      * destruct (Hnew1 name Hn ltac:(by eexists)) as [-> Hb].
        split; [by left|]. apply Hkeep2. by rewrite <- Hb.
      * destruct (Hnew2 name H1 Hs) as [-> Hb]. split; [by right|done].
    + intros Hnf.
      assert (Hr2 : r2 = Ok tt).
      { revert Hrun2. unfold create_if_missing, indices_exists, indices_create.
        rewrite !Hf1, !Hnf.
        destruct (indices os1 !! text_index_name) eqn:Hl.
        - rewrite bool_decide_eq_true_2 by by eexists. by intros [= <- _].
        - rewrite bool_decide_eq_false_2 by (intros [? ?]; done).
          by intros [= <- _]. }
      subst r2. split; [done|].
      destruct (Hok1 eq_refl) as [b1 Hb1].
      destruct (Hok2 eq_refl) as [b2 Hb2].
      split; [exists b1; by apply Hkeep2|]. split; [by exists b2|].
      unfold create_if_missing, indices_exists.
      rewrite !Hf2, !Hf1, !Hnf.
      rewrite bool_decide_eq_true_2 by (exists b1; by apply Hkeep2).
      rewrite !Hf2, !Hf1, !Hnf.
      by rewrite bool_decide_eq_true_2 by by exists b2.
    + intros e He. revert Hrun1.
      unfold create_if_missing, indices_exists. by rewrite He.
  - exists (Some e1), os1. split; [done|]. split; [done|].
    split; [|split; [|split]].
    + exact Hkeep1.
    + intros name Hn Hs. destruct (Hnew1 name Hn Hs) as [-> Hb].
      split; [by left|done].
    + intros Hnf. revert Hrun1.
      unfold create_if_missing, indices_exists, indices_create.
      rewrite !Hnf.
      destruct (indices os !! img_index_name) eqn:Hl.
      * rewrite bool_decide_eq_true_2 by by eexists. done.
      * by rewrite bool_decide_eq_false_2 by (intros [? ?]; done).
    + intros e He. revert Hrun1.
      unfold create_if_missing, indices_exists. rewrite He.
      by intros [= <- <-].
Qed.

(** X23.  Creating the indices never replaces an index and may skip the text
    index.  Whatever the collection holds and whichever calls fail, the
    cell leaves every index that existed with the body it had, and an
    index that is new afterwards is the image or the text index with the
    index body of the notebook.  Without faults both indices exist
    afterwards and running the cell again changes nothing.  A failure of
    the first call, for the image index, ends the cell: the text index is
    not created although it is missing. *)
Theorem create_indices_keeps_existing (os : OpenSearch)
    (img_index_name text_index_name : string) :
  exists err os',
    create_indices os img_index_name text_index_name = (err, os')
    /\ os_fault os' = os_fault os
    /\ (forall name body,
          indices os !! name = Some body -> indices os' !! name = Some body)
    /\ (forall name,
          indices os !! name = None -> is_Some (indices os' !! name) ->
          (name = img_index_name \/ name = text_index_name)
          /\ indices os' !! name = Some index_body)
    /\ ((forall c, os_fault os c = None) ->
        err = None
        /\ is_Some (indices os' !! img_index_name)
        /\ is_Some (indices os' !! text_index_name)
        /\ create_indices os' img_index_name text_index_name = (None, os'))
    /\ (forall e,
          os_fault os (IndicesExists img_index_name) = Some e ->
          err = Some e /\ os' = os).
Proof. apply create_indices_spec. Qed.

(** A fresh collection; and one whose first call is refused. *)
Lemma create_indices_keeps_existing_witness :
  (exists os',
     create_indices {| indices := ∅; os_fault := no_fault |} "img" "txt"
     = (None, os')
     /\ is_Some (indices os' !! "img") /\ is_Some (indices os' !! "txt"))
  /\ (let os := {| indices := ∅;
                   os_fault := fun c =>
                     match c with
                     | IndicesExists "img" =>
                         Some (RequestException "AuthorizationException")
                     | _ => None
                     end |} in
      create_indices os "img" "txt"
      = (Some (RequestException "AuthorizationException"), os)).
Proof.
  split.
  - destruct (create_indices_keeps_existing
                {| indices := ∅; os_fault := no_fault |} "img" "txt")
      as (err & os' & Hrun & _ & _ & _ & Hnf & _).
    destruct (Hnf (fun _ => eq_refl)) as (-> & Himg & Htxt & _).
    by exists os'.
  - intros os.
    destruct (create_indices_keeps_existing os "img" "txt")
      as (err & os' & Hrun & _ & _ & _ & _ & Hfault).
    destruct (Hfault _ eq_refl) as [-> ->]. exact Hrun.
Defined.

Lemma check_mappings_index_body os img_index_name text_index_name :
  (forall c, os_fault os c = None) ->
  indices os !! img_index_name = Some index_body ->
  indices os !! text_index_name = Some index_body ->
  check_mappings os img_index_name text_index_name = None.
Proof.
  intros Hnf Hi Ht. unfold check_mappings, indices_get_mapping.
  rewrite !Hnf, Hi, Ht. simpl.
  unfold vector_embedding_mapping, getitem_key. simpl.
  by rewrite !String.eqb_refl.
Qed.

(** X24.  The mapping check passes on what the notebook creates, and only
    logs otherwise.  After the creation cell has run without faults on a
    collection in which each of the two indices was missing or had the
    index body of the notebook, the check of the vector field finds
    [knn_vector] for both and logs no error.  It logs an error, and lets
    the notebook go on, when an index is missing; and it logs [ValueError]
    when the text index exists with a mapping whose [properties] have no
    [vector_embedding] field, whatever else the index body holds (the
    image index being as the notebook creates it). *)
Theorem check_mappings_after_create (os : OpenSearch)
    (img_index_name text_index_name : string) :
  (forall c, os_fault os c = None) ->
  ((indices os !! img_index_name = None
    \/ indices os !! img_index_name = Some index_body) ->
   (indices os !! text_index_name = None
    \/ indices os !! text_index_name = Some index_body) ->
   check_mappings (snd (create_indices os img_index_name text_index_name))
                  img_index_name text_index_name = None)
  /\ (check_mappings os img_index_name text_index_name = None ->
      is_Some (indices os !! img_index_name)
      /\ is_Some (indices os !! text_index_name))
  /\ (forall kv mappings properties,
      indices os !! text_index_name = Some (JDict kv) ->
      assoc "mappings" kv = Some (JDict mappings) ->
      assoc "properties" mappings = Some (JDict properties) ->
      assoc "vector_embedding" properties = None ->
      indices os !! img_index_name = Some index_body ->
      check_mappings os img_index_name text_index_name = Some ValueError).
Proof.
  intros Hnf. split; [|split].
  - intros Hi Ht.
    destruct (create_indices_spec os img_index_name text_index_name)
      as (err & os' & Hrun & Hf & Hkeep & Hnew & Hok & _).
    rewrite Hrun. cbn [snd].
    destruct (Hok Hnf) as (_ & Hsi & Hst & _).
    apply check_mappings_index_body.
    + intros c. by rewrite Hf.
    + destruct Hi as [Hi|Hi]; [by apply Hnew|by apply Hkeep].
    + destruct Ht as [Ht|Ht]; [by apply Hnew|by apply Hkeep].
  - unfold check_mappings, indices_get_mapping. rewrite !Hnf.
    destruct (indices os !! text_index_name) as [bt|]; [|done].
    destruct (indices os !! img_index_name) as [bi|]; [by eauto|].
    by destruct bt.
  - intros kv mappings properties Ht Hm Hp Hv Hi.
    unfold check_mappings, indices_get_mapping.
    rewrite !Hnf, Hi, Ht, Hm. simpl.
    unfold vector_embedding_mapping, getitem_key. simpl.
    rewrite !String.eqb_refl. simpl. rewrite Hp. simpl. by rewrite Hv.
Qed.

Lemma check_mappings_after_create_witness :
  let plain_text_index :=
    [("mappings",
      JDict [("properties",
              JDict [("file_text", JDict [("type", JStr "text")])])])] in
  check_mappings
    (snd (create_indices {| indices := ∅; os_fault := no_fault |} "img" "txt"))
    "img" "txt" = None
  /\ check_mappings
       {| indices := {["img" := index_body; "txt" := JDict plain_text_index]};
          os_fault := no_fault |} "img" "txt" = Some ValueError.
Proof.
  intros plain_text_index. split.
  - destruct (check_mappings_after_create
                {| indices := ∅; os_fault := no_fault |} "img" "txt"
                (fun _ => eq_refl)) as (H & _).
    apply H; by left.
  - destruct (check_mappings_after_create
                {| indices := {["img" := index_body;
                                "txt" := JDict plain_text_index]};
                   os_fault := no_fault |} "img" "txt"
                (fun _ => eq_refl)) as (_ & _ & H).
    by apply (H plain_text_index
                [("properties",
                  JDict [("file_text", JDict [("type", JStr "text")])])]
                [("file_text", JDict [("type", JStr "text")])]).
Defined.
